(** * PMT readout decoder: board database and fragment decoding

    A shallow embedding of [daq::PMTDecoder]
    (icaruscode/Decode/DecoderTools/PMTDecoder_tool.cc) and the properties
    of its board database ([matchBoardConfigurationAndSetup]), of the
    fragment decoding ([process_fragment]) and of the final ordering of the
    waveforms ([outputDataProducts]); and of the function templates that
    split trigger gates into data products and read them back
    (icaruscode/PMT/Trigger/Utilities/TriggerDataUtils.h).

    Conventions of the embedding:
    - C++ unsigned integers are [Z] with the wrap-around written out
      ([uint16], [uint32], [size_t]);
    - a method is a function from the decoder object to a computation in
      the monad [M], which carries the messages sent to the message
      facility and ends normally, with a thrown [cet::exception], in
      undefined behaviour or aborted by a failed [assert];
    - pointers into the two constant vectors ([fBoardSetup] and
      [PMTconfig->boards]) are modelled by the pointed-to value; where the
      code orders pointers (sorting of [configByName]) the position in the
      vector stands for the address;
    - the libraries the tool is linked against (quantities with units,
      [std::sort], the layout of the CAEN event header) are interfaces
      (type classes) the development is generic in. *)

From Stdlib Require Import ZArith List String Ascii Bool Lia.
From Stdlib Require Import Permutation Sorted QArith Qround.
From Stdlib Require DecimalString.
Import ListNotations.

Open Scope Z_scope.

Set Implicit Arguments.

(** * Part I: the decoder

    The embedding of the source. *)

(** ** Machine integers *)

Definition uint16 (x : Z) : Z := x mod 2 ^ 16.
Definition uint32 (x : Z) : Z := x mod 2 ^ 32.
Definition size_t (x : Z) : Z := x mod 2 ^ 64.

(** [std::to_string] on an unsigned value: decimal digits. *)
Definition to_string (x : Z) : string :=
  DecimalString.NilZero.string_of_uint (N.to_uint (Z.to_N x)).

(** ** External interfaces *)

(** Quantities with units (lardataalg): intervals in nanoseconds, points on
    the electronics time scale and the arithmetic the decoder uses on them.
    The library computes in floating point; the decoder only relies on the
    operations below. *)
Class Quantities : Type := {
  nanoseconds : Type;
  electronics_time : Type;
  float : Type;
  (** [nanoseconds{ 0.0 }] *)
  zero_ns : nanoseconds;
  (** [time - interval] *)
  time_minus : electronics_time -> nanoseconds -> electronics_time;
  (** [(bufferLength * (1.0f - postTriggerFrac)) * tick] *)
  pretrigger_buffer : Z -> float -> nanoseconds -> nanoseconds;
  time_minus_zero : forall t, time_minus t zero_ns = t
}.

(** Comparators accepted by [std::sort]. *)
Definition strict_weak_order {A : Type} (comp : A -> A -> bool) : Prop :=
  (forall x, comp x x = false) /\
  (forall x y z, comp x y = true -> comp y z = true -> comp x z = true) /\
  (forall x y z, comp x y = false -> comp y z = false -> comp x z = false).

(** [std::sort] as the C++ standard specifies it: for a comparator that is
    a strict weak order the result is a rearrangement of the input in which
    no element is followed by a smaller one.  The relative order of
    equivalent elements is not part of the contract. *)
Class StdAlgorithm : Type := {
  std_sort : forall {A : Type}, (A -> A -> bool) -> list A -> list A;
  std_sort_Permutation : forall (A : Type) (comp : A -> A -> bool) l,
      strict_weak_order comp -> Permutation l (std_sort comp l);
  std_sort_Sorted : forall (A : Type) (comp : A -> A -> bool) l,
      strict_weak_order comp ->
      StronglySorted (fun x y => comp y x = false) (std_sort comp l)
}.

(** What the build and the headers that are not part of the tool fix:
    the sentinel of [details::BoardSetup_t], the size of the CAEN V1730
    event header and whether [assert] is compiled in. *)
Class Platform : Type := {
  (** [details::BoardSetup_t::NoFragmentID] *)
  NoFragmentID : Z;
  (** [sizeof(sbndaq::CAENV1730EventHeader)/sizeof(uint32_t)] *)
  evt_header_words : Z;
  (** whether the code is compiled with [NDEBUG] *)
  NDEBUG : bool
}.

(** ** Outcomes *)

(** The [cet::exception]s of category ["PMTDecoder"] the tool throws, one
    constructor per message. *)
Inductive exception : Type :=
| NoReconfiguration
    (* "This tool does not support reconfiguration." *)
| NoDAQConfiguration (name : string)
    (* "No DAQ configuration found for PMT readout board '<name>'" *)
| FragmentIDMismatch (boardName : string) (configID setupID : Z)
    (* "Board '<boardName>' has fragment ID <configID> but it is set up as
       <setupID>!" *)
| NoBoardInformation (fragment_id : Z) (needsFragmentID : bool).
    (* "Input fragment has ID <fragment_id> which has no associated board
       information (`BoardSetup`[ + `.FragmentID`])." *)

(** The undefined behaviour the code can run into. *)
Inductive undefined : Type :=
| NullDereference
    (* [->] on a null pointer *)
| EmptyOptional
    (* [->] on a [std::optional] without value *)
| DivisionByZero
| OutOfBoundsRead.

Inductive result (A : Type) : Type :=
| Normal (a : A)
| Throw (e : exception)
| Undefined (u : undefined)
| Aborted.
    (* a failed [assert] *)

Arguments Normal {A} a.
Arguments Throw {A} e.
Arguments Undefined {A} u.
Arguments Aborted {A}.

(** ** Data model *)

Definition InputTag : Type := string.

(** One entry of the [BoardSetup] FHiCL sequence ([BoardSetupConfig]). *)
Module BoardSetupConfig.
Record t {Q : Quantities} : Type := mk {
  Name : string;
  FragmentID : option Z;
  (** [None]: the parameter is omitted and its default applies *)
  TriggerDelay : option nanoseconds
}.
Arguments mk {Q}.
End BoardSetupConfig.

Module BoardSetup_t.
(** Modelled from the spec: [details::BoardSetup_t] of PMTDecoderUtils.h,
    the "DeviceSetup" of the specification; the fragment ID is an unsigned
    integer in which [NoFragmentID] stands for "not set" (see [convert]). *)
Record t {Q : Quantities} : Type := mk {
  name : string;
  fragmentID : Z;
  triggerDelay : nanoseconds
}.
Arguments mk {Q}.

(** Modelled from the spec: [BoardSetup_t::hasFragmentID()], whether the
    fragment ID of the setup "is set". *)
Definition hasFragmentID {Q : Quantities} {P : Platform} (s : t) : bool :=
  negb (fragmentID s =? NoFragmentID).
End BoardSetup_t.

Module V1730Configuration.
(** Modelled from the spec: the members of [sbn::V1730Configuration] the
    decoder reads, the "DeviceConfig" of the specification. *)
Record t {Q : Quantities} : Type := mk {
  boardName : string;
  fragmentID : Z;
  bufferLength : Z;
  postTriggerFrac : float
}.
Arguments mk {Q}.
End V1730Configuration.

Module PMTconfiguration.
Record t {Q : Quantities} : Type := mk {
  boards : list V1730Configuration.t
}.
Arguments mk {Q}.
End PMTconfiguration.

Module BoardFacts_t.
(** Modelled from the spec: [details::BoardFacts_t], the "DeviceFacts". *)
Record t {Q : Quantities} : Type := mk {
  preTriggerTime : nanoseconds
}.
Arguments mk {Q}.
End BoardFacts_t.

Module BoardInfo_t.
(** Modelled from the spec: [details::BoardInfoLookup::BoardInfo_t], the
    "DeviceRecord"; [setup] and [config] are pointers that may be null. *)
Record t {Q : Quantities} : Type := mk {
  fragmentID : Z;
  setup : option BoardSetup_t.t;
  config : option V1730Configuration.t;
  facts : BoardFacts_t.t
}.
Arguments mk {Q}.

(** Modelled from the spec: the order in which the database is sorted, by
    fragment ID ([operator<] of the records). *)
Definition less {Q : Quantities} (a b : t) : bool :=
  fragmentID a <? fragmentID b.
End BoardInfo_t.

(** Modelled from the spec: [details::binarySearch] of PMTDecoderUtils.h,
    the lookup by key in a collection sorted by that key.  It returns the
    first element with the requested key, or nothing (a null pointer). *)
Definition binarySearch {E K : Type} (eqb : K -> K -> bool) (key : E -> K)
    (coll : list E) (k : K) : option E :=
  find (fun e => eqb (key e) k) coll.

Module BoardInfoLookup.
(** Modelled from the spec: [details::BoardInfoLookup], the
    "DeviceDatabase", a sequence of records. *)
Record t {Q : Quantities} : Type := mk {
  fDatabase : list BoardInfo_t.t
}.
Arguments mk {Q}.

(** Modelled from the spec: the constructor of [details::BoardInfoLookup];
    "resulting records are collected, sorted by fragmentID, and returned". *)
Definition ctor {Q : Quantities} {S : StdAlgorithm}
    (database : list BoardInfo_t.t) : t :=
  mk (std_sort BoardInfo_t.less database).

(** Modelled from the spec: [BoardInfoLookup::findBoardInfo], the lookup
    by fragment ID over the sorted record sequence. *)
Definition findBoardInfo {Q : Quantities} (this : t) (fragmentID : Z)
    : option BoardInfo_t.t :=
  binarySearch Z.eqb BoardInfo_t.fragmentID (fDatabase this) fragmentID.
End BoardInfoLookup.

(** [raw::OpDetWaveform]: time stamp, channel number and samples. *)
Module OpDetWaveform.
Record t {Q : Quantities} : Type := mk {
  TimeStamp : electronics_time;
  ChannelNumber : Z;
  Waveform : list Z
}.
Arguments mk {Q}.
End OpDetWaveform.

(** What the decoder reads from an [artdaq::Fragment] through the
    [sbndaq::CAENV1730Fragment] overlay. *)
Module Fragment.
Record t : Type := mk {
  (** fragment ID in the artdaq header *)
  header_fragment_id : Z;
  (** [Metadata()->nChannels] *)
  nChannels : Z;
  (** [Event()->Header.eventSize] *)
  eventSize : Z;
  (** [Event()->Header.triggerTimeTag] *)
  triggerTimeTag : Z;
  (** the 16-bit words that follow the event header *)
  data : list Z
}.

(** [artdaq::Fragment::fragmentID()] returns a 16-bit identifier. *)
Definition fragmentID (f : t) : Z := uint16 (header_fragment_id f).
End Fragment.

(** The services the decoder holds. *)
Record DetectorTimings {Q : Quantities} : Type := {
  TriggerTime : electronics_time;
  OpticalClockPeriod : nanoseconds
}.
Arguments Build_DetectorTimings {Q}.

Record IICARUSChannelMap : Type := {
  hasPMTDigitizerID : Z -> bool;
  (** pairs of digitizer channel and channel ID *)
  getChannelIDPairVec : Z -> list (Z * Z)
}.

(** [PMTDecoder::Config]: a parameter with a default may be omitted. *)
Module Config.
Record t {Q : Quantities} : Type := mk {
  DiagnosticOutput : option bool;
  RequireKnownBoards : option bool;
  RequireBoardConfig : option bool;
  PMTconfigTag : option InputTag;
  BoardSetup : list BoardSetupConfig.t;
  LogCategory : option string
}.
Arguments mk {Q}.
End Config.

(** [fhicl::Atom] with a default value. *)
Definition Atom {A : Type} (default : A) (value : option A) : A :=
  match value with
  | Some v => v
  | None => default
  end.

(** The data members of [daq::PMTDecoder]. *)
Module PMTDecoder.
Record t {Q : Quantities} : Type := mk {
  fDiagnosticOutput : bool;
  fRequireKnownBoards : bool;
  fRequireBoardConfig : bool;
  fPMTconfigTag : option InputTag;
  fBoardSetup : list BoardSetup_t.t;
  fLogCategory : string;
  fDetTimings : DetectorTimings;
  fChannelMap : IICARUSChannelMap;
  fOpticalTick : nanoseconds;
  fNominalTriggerTime : electronics_time;
  (** a [unique_ptr]: [None] is the null pointer *)
  fOpDetWaveformCollection : option (list OpDetWaveform.t);
  (** a [std::optional] *)
  fBoardInfoLookup : option BoardInfoLookup.t
}.
Arguments mk {Q}.

Definition set_fOpDetWaveformCollection {Q : Quantities} (this : t)
    (c : option (list OpDetWaveform.t)) : t :=
  mk (fDiagnosticOutput this) (fRequireKnownBoards this)
     (fRequireBoardConfig this) (fPMTconfigTag this) (fBoardSetup this)
     (fLogCategory this) (fDetTimings this) (fChannelMap this)
     (fOpticalTick this) (fNominalTriggerTime this)
     c (fBoardInfoLookup this).

Definition set_fBoardInfoLookup {Q : Quantities} (this : t)
    (l : option BoardInfoLookup.t) : t :=
  mk (fDiagnosticOutput this) (fRequireKnownBoards this)
     (fRequireBoardConfig this) (fPMTconfigTag this) (fBoardSetup this)
     (fLogCategory this) (fDetTimings this) (fChannelMap this)
     (fOpticalTick this) (fNominalTriggerTime this)
     (fOpDetWaveformCollection this) l.

Definition set_fBoardSetup {Q : Quantities} (this : t)
    (s : list BoardSetup_t.t) : t :=
  mk (fDiagnosticOutput this) (fRequireKnownBoards this)
     (fRequireBoardConfig this) (fPMTconfigTag this) s
     (fLogCategory this) (fDetTimings this) (fChannelMap this)
     (fOpticalTick this) (fNominalTriggerTime this)
     (fOpDetWaveformCollection this) (fBoardInfoLookup this).

Definition set_fRequireBoardConfig {Q : Quantities} (this : t)
    (b : bool) : t :=
  mk (fDiagnosticOutput this) (fRequireKnownBoards this)
     b (fPMTconfigTag this) (fBoardSetup this)
     (fLogCategory this) (fDetTimings this) (fChannelMap this)
     (fOpticalTick this) (fNominalTriggerTime this)
     (fOpDetWaveformCollection this) (fBoardInfoLookup this).
End PMTDecoder.

(** [PMTDecoder::NeededBoardInfo_t] *)
Module NeededBoardInfo_t.
Record t {Q : Quantities} : Type := mk {
  name : string;
  preTriggerTime : nanoseconds;
  PMTtriggerDelay : nanoseconds
}.
Arguments mk {Q}.
End NeededBoardInfo_t.

(** The messages sent to the message facility. *)
Inductive message {Q : Quantities} : Type :=
| LogInfo_Configuration (nBoardSetup : Z) (PMTconfigTag : option InputTag)
    (requireKnownBoards requireBoardConfig : bool)
| LogVerbatim_Fragment (fragment_id boardId nChannelsPerBoard
    nSamplesPerChannel ev_size_quad_bytes data_size_double_bytes time_tag : Z)
| LogTrace_Board (name : string) (timeStamp triggerTime : electronics_time)
    (PMTtriggerDelay preTriggerTime : nanoseconds)
| LogTrace_Channel (channelID size : Z) (timeStamp : electronics_time)
| LogError_NoChannelInformation (fragment_id : Z)
    (* "*** PMT could not find channel information for fragment: <id>" *)
| LogVerbatim_CollectionSize (size : Z)
| LogDebug_BoardInformation (lookup : BoardInfoLookup.t)
| LogPrint_NoConfiguration (boardName : string)
    (* "Board '<boardName>' has no configuration information: some time
       stamp corrections will be skipped." *)
| LogPrint_NoFragmentID (boardName : string).
    (* "Board '<boardName>' can't be associated to a fragment ID: its time
       stamp corrections will be skipped." *)

Arguments LogInfo_Configuration {Q}.
Arguments LogVerbatim_Fragment {Q}.
Arguments LogTrace_Board {Q}.
Arguments LogTrace_Channel {Q}.
Arguments LogError_NoChannelInformation {Q}.
Arguments LogVerbatim_CollectionSize {Q}.
Arguments LogDebug_BoardInformation {Q}.
Arguments LogPrint_NoConfiguration {Q}.
Arguments LogPrint_NoFragmentID {Q}.

(** ** The monad of decoder computations *)

Definition M {Q : Quantities} (A : Type) : Type := (list message * result A)%type.

Definition ret {Q : Quantities} {A : Type} (a : A) : M A := ([], Normal a).

Definition bind {Q : Quantities} {A B : Type} (c : M A) (k : A -> M B) : M B :=
  match c with
  | (log, Normal a) => let (log', r) := k a in (log ++ log', r)
  | (log, Throw e) => (log, Throw e)
  | (log, Undefined u) => (log, Undefined u)
  | (log, Aborted) => (log, Aborted)
  end.

Definition throw {Q : Quantities} {A : Type} (e : exception) : M A :=
  ([], Throw e).

Definition undefined_behaviour {Q : Quantities} {A : Type} (u : undefined)
    : M A :=
  ([], Undefined u).

Definition log {Q : Quantities} (m : message) : M unit := ([m], Normal tt).

Definition when {Q : Quantities} (b : bool) (c : M unit) : M unit :=
  if b then c else ret tt.

(** [assert(b)]: nothing when compiled with [NDEBUG], else an abort when
    the condition fails. *)
Definition assert {Q : Quantities} {P : Platform} (b : bool) : M unit :=
  if NDEBUG || b then ret tt else ([], Aborted).

Declare Scope decoder_scope.
Delimit Scope decoder_scope with decoder.
Notation "x <- c ;; k" := (bind c (fun x => k))
  (at level 61, c at next level, right associativity) : decoder_scope.
Notation "c ;; k" := (bind c (fun _ => k))
  (at level 61, right associativity) : decoder_scope.
Open Scope decoder_scope.

(** The messages and the outcome of a computation. *)
Definition messages {Q : Quantities} {A : Type} (c : M A) : list message :=
  fst c.
Definition outcome {Q : Quantities} {A : Type} (c : M A) : result A :=
  snd c.

(** ** The decoder *)

Section Decoder.

Context {Q : Quantities} {S : StdAlgorithm} {P : Platform}.

(** [daq::convert(BoardSetupConfig)]: an omitted fragment ID becomes
    [NoFragmentID]. *)
Definition convert (config : BoardSetupConfig.t) : BoardSetup_t.t :=
  BoardSetup_t.mk
    (BoardSetupConfig.Name config)
    (match BoardSetupConfig.FragmentID config with
     | Some id => id
     | None => NoFragmentID
     end)
    (Atom zero_ns (BoardSetupConfig.TriggerDelay config)).

(** [PMTDecoder::PMTDecoder(Parameters const&)] *)
Definition PMTDecoder_ctor (params : Config.t) (timings : DetectorTimings)
    (channelMap : IICARUSChannelMap) : M PMTDecoder.t :=
  let this :=
    PMTDecoder.mk
      (Atom false (Config.DiagnosticOutput params))
      (Atom true (Config.RequireKnownBoards params))
      (Atom true (Config.RequireBoardConfig params))
      (Config.PMTconfigTag params)
      (map convert (Config.BoardSetup params))
      (Atom "PMTDecoder"%string (Config.LogCategory params))
      timings
      channelMap
      (OpticalClockPeriod timings)
      (TriggerTime timings)
      None
      None in
  log (LogInfo_Configuration
         (Z.of_nat (List.length (PMTDecoder.fBoardSetup this)))
         (PMTDecoder.fPMTconfigTag this)
         (PMTDecoder.fRequireKnownBoards this)
         (PMTDecoder.fRequireBoardConfig this)) ;;
  ret this.

(** [PMTDecoder::configure] *)
Definition configure (this : PMTDecoder.t) : M PMTDecoder.t :=
  throw NoReconfiguration.

(** [PMTDecoder::hasPMTconfiguration] *)
Definition hasPMTconfiguration (this : PMTDecoder.t) : bool :=
  match PMTDecoder.fPMTconfigTag this with
  | Some _ => true
  | None => false
  end.

(** [PMTDecoder::initializeDataProducts] *)
Definition initializeDataProducts (this : PMTDecoder.t) : PMTDecoder.t :=
  PMTDecoder.set_fOpDetWaveformCollection this (Some []).

(** *** Matching of board setup and PMT configuration *)

(** An element of [configByName]: the board name and the pointer to the
    board configuration (its position in [PMTconfig->boards] and the
    configuration it points to). *)
Definition configByName_t : Type :=
  list (string * (nat * V1730Configuration.t)).

(** [operator<] of [std::pair<std::string, V1730Configuration const*>] *)
Definition pair_less (a b : string * (nat * V1730Configuration.t)) : bool :=
  String.ltb (fst a) (fst b)
  || (negb (String.ltb (fst b) (fst a))
      && (fst (snd a) <? fst (snd b))%nat).

(** Lines 693-700: the dictionary of the board configurations, sorted by
    board name. *)
Definition configByName_of (PMTconfig : option PMTconfiguration.t)
    : configByName_t :=
  match PMTconfig with
  | Some c =>
      let boards := PMTconfiguration.boards c in
      std_sort pair_less
        (map (fun p => (V1730Configuration.boardName (snd p), p))
             (combine (seq 0 (List.length boards)) boards))
  | None => []
  end.

(** The lambda [findPMTconfig] (lines 703-714). *)
Definition findPMTconfig (this : PMTDecoder.t) (configByName : configByName_t)
    (name : string) : M (option V1730Configuration.t) :=
  if negb (hasPMTconfiguration this) then ret None
  else
    let ppBoardConfig := binarySearch String.eqb fst configByName name in
    when (match ppBoardConfig with None => true | Some _ => false end
          && PMTDecoder.fRequireKnownBoards this)
         (throw (NoDAQConfiguration name)) ;;
    match ppBoardConfig with
    | Some p => ret (Some (snd (snd p)))
    | None => undefined_behaviour NullDereference
    end.

(** The body of the loop on [fBoardSetup] (lines 720-776): the record of
    one board, or nothing when the loop continues without one. *)
Definition boardInfo_of (this : PMTDecoder.t) (configByName : configByName_t)
    (boardSetup : BoardSetup_t.t) : M (option BoardInfo_t.t) :=
  let boardName := BoardSetup_t.name boardSetup in
  pBoardConfig <- findPMTconfig this configByName boardName ;;
  proceed <-
    match pBoardConfig with
    | Some c =>
        if BoardSetup_t.hasFragmentID boardSetup
           && negb (BoardSetup_t.fragmentID boardSetup
                    =? V1730Configuration.fragmentID c)
        then throw (FragmentIDMismatch boardName
                      (V1730Configuration.fragmentID c)
                      (BoardSetup_t.fragmentID boardSetup))
        else ret true
    | None =>
        if BoardSetup_t.hasFragmentID boardSetup
        then log (LogPrint_NoConfiguration boardName) ;; ret true
        else log (LogPrint_NoFragmentID boardName) ;; ret false
    end ;;
  if proceed : bool then
    let fragmentID :=
      match pBoardConfig with
      | Some c => V1730Configuration.fragmentID c
      | None => BoardSetup_t.fragmentID boardSetup
      end in
    assert (negb (fragmentID =? NoFragmentID)) ;;
    let preTriggerTime :=
      match pBoardConfig with
      | Some c =>
          pretrigger_buffer (V1730Configuration.bufferLength c)
            (V1730Configuration.postTriggerFrac c)
            (PMTDecoder.fOpticalTick this)
      | None => zero_ns
      end in
    ret (Some (BoardInfo_t.mk fragmentID (Some boardSetup) pBoardConfig
                 (BoardFacts_t.mk preTriggerTime)))
  else ret None.

(** The loop on the board setups, filling [boardInfoByFragment]. *)
Fixpoint fillBoardInfo (this : PMTDecoder.t) (configByName : configByName_t)
    (setups : list BoardSetup_t.t)
    (boardInfoByFragment : list BoardInfo_t.t) : M (list BoardInfo_t.t) :=
  match setups with
  | [] => ret boardInfoByFragment
  | boardSetup :: rest =>
      info <- boardInfo_of this configByName boardSetup ;;
      fillBoardInfo this configByName rest
        (match info with
         | Some i => boardInfoByFragment ++ [i]
         | None => boardInfoByFragment
         end)
  end.

(** [PMTDecoder::matchBoardConfigurationAndSetup] *)
Definition matchBoardConfigurationAndSetup (this : PMTDecoder.t)
    (PMTconfig : option PMTconfiguration.t) : M BoardInfoLookup.t :=
  let configByName := configByName_of PMTconfig in
  boardInfoByFragment <-
    fillBoardInfo this configByName (PMTDecoder.fBoardSetup this) [] ;;
  ret (BoardInfoLookup.ctor boardInfoByFragment).

(** [PMTDecoder::UpdatePMTConfiguration] *)
Definition UpdatePMTConfiguration (this : PMTDecoder.t)
    (PMTconfig : option PMTconfiguration.t) : M (PMTDecoder.t * bool) :=
  lookup <- matchBoardConfigurationAndSetup this PMTconfig ;;
  log (LogDebug_BoardInformation lookup) ;;
  ret (PMTDecoder.set_fBoardInfoLookup this (Some lookup), true).

(** [PMTDecoder::setupRun]; [run] is the lookup of a data product of the
    run by its label, which may find nothing. *)
Definition setupRun (this : PMTDecoder.t)
    (run : InputTag -> option PMTconfiguration.t) : M PMTDecoder.t :=
  let PMTconfig :=
    match PMTDecoder.fPMTconfigTag this with
    | Some tag => run tag
    | None => None
    end in
  r <- UpdatePMTConfiguration this PMTconfig ;;
  ret (fst r).

(** *** Decoding of a fragment *)

(** [PMTDecoder::fetchNeededBoardInfo] *)
Definition fetchNeededBoardInfo (boardInfo : option BoardInfo_t.t)
    (fragmentID : Z) : NeededBoardInfo_t.t :=
  NeededBoardInfo_t.mk
    (match boardInfo with
     | Some (BoardInfo_t.mk _ _ (Some c) _) => V1730Configuration.boardName c
     | _ => ("<ID=" ++ to_string fragmentID)%string
     end)
    (match boardInfo with
     | Some i => BoardFacts_t.preTriggerTime (BoardInfo_t.facts i)
     | None => zero_ns
     end)
    (match boardInfo with
     | Some (BoardInfo_t.mk _ (Some s) _ _) => BoardSetup_t.triggerDelay s
     | _ => zero_ns
     end).

(** Lines 583-608 of [process_fragment]: the board information of the
    fragment and the time stamp of its waveforms. *)
Definition fragmentTimeStamp (this : PMTDecoder.t) (fragment_id : Z)
    : M (NeededBoardInfo_t.t * electronics_time) :=
  boardInfo <-
    match PMTDecoder.fBoardInfoLookup this with
    | Some lookup => ret (BoardInfoLookup.findBoardInfo lookup fragment_id)
    | None => undefined_behaviour EmptyOptional
    end ;;
  match boardInfo with
  | None =>
      when (PMTDecoder.fRequireKnownBoards this)
           (throw (NoBoardInformation fragment_id
                     (negb (hasPMTconfiguration this))))
  | Some i =>
      assert (BoardInfo_t.fragmentID i =? fragment_id) ;;
      assert (match BoardInfo_t.setup i with Some _ => true | None => false end)
  end ;;
  let info := fetchNeededBoardInfo boardInfo (uint32 fragment_id) in
  let preTriggerTime := NeededBoardInfo_t.preTriggerTime info in
  let PMTtriggerDelay := NeededBoardInfo_t.PMTtriggerDelay info in
  let timeStamp :=
    time_minus
      (time_minus (TriggerTime (PMTDecoder.fDetTimings this)) PMTtriggerDelay)
      preTriggerTime in
  log (LogTrace_Board (NeededBoardInfo_t.name info) timeStamp
         (TriggerTime (PMTDecoder.fDetTimings this))
         PMTtriggerDelay preTriggerTime) ;;
  ret (info, timeStamp).

(** [std::copy_n(data_begin + ch_offset, n, wvfm.begin())]: reading past
    the end of the fragment data is undefined. *)
Definition copy_n (data : list Z) (ch_offset n : Z) : M (list Z) :=
  if ch_offset + n <=? Z.of_nat (List.length data)
  then ret (firstn (Z.to_nat n) (skipn (Z.to_nat ch_offset) data))
  else undefined_behaviour OutOfBoundsRead.

(** The loop on the channels of the board (lines 616-627). *)
Fixpoint emplaceWaveforms (timeStamp : electronics_time)
    (nSamplesPerChannel : Z) (data : list Z)
    (digitizerChannelVec : list (Z * Z))
    (collection : option (list OpDetWaveform.t))
    : M (option (list OpDetWaveform.t)) :=
  match digitizerChannelVec with
  | [] => ret collection
  | (digitizerChannel, channelID) :: rest =>
      let ch_offset := size_t (digitizerChannel * nSamplesPerChannel) in
      wvfm <- copy_n data ch_offset nSamplesPerChannel ;;
      log (LogTrace_Channel channelID (Z.of_nat (List.length wvfm)) timeStamp) ;;
      match collection with
      | Some c =>
          emplaceWaveforms timeStamp nSamplesPerChannel data rest
            (Some (c ++ [OpDetWaveform.mk timeStamp (uint32 channelID) wvfm]))
      | None => undefined_behaviour NullDereference
      end
  end.

(** The local constants of [process_fragment] (lines 531-551). *)
Definition fragment_id (artdaqFragment : Fragment.t) : Z :=
  size_t (Fragment.fragmentID artdaqFragment).

Definition eff_fragment_id (artdaqFragment : Fragment.t) : Z :=
  size_t (Z.land (Fragment.fragmentID artdaqFragment) 0x0fff).

Definition nChannelsPerBoard (artdaqFragment : Fragment.t) : Z :=
  size_t (uint32 (Fragment.nChannels artdaqFragment)).

Definition ev_size_quad_bytes (artdaqFragment : Fragment.t) : Z :=
  uint32 (Fragment.eventSize artdaqFragment).

Definition evt_header_size_quad_bytes : Z := uint32 evt_header_words.

Definition data_size_double_bytes (artdaqFragment : Fragment.t) : Z :=
  uint32 (2 * uint32 (ev_size_quad_bytes artdaqFragment
                      - evt_header_size_quad_bytes)).

(** The division is undefined for a fragment that declares no channel. *)
Definition nSamplesPerChannel (artdaqFragment : Fragment.t) : M Z :=
  if nChannelsPerBoard artdaqFragment =? 0
  then undefined_behaviour DivisionByZero
  else ret (uint32 (data_size_double_bytes artdaqFragment
                    / nChannelsPerBoard artdaqFragment)).

Definition time_tag (artdaqFragment : Fragment.t) : Z :=
  uint32 (Fragment.triggerTimeTag artdaqFragment).

Definition boardId (artdaqFragment : Fragment.t) : Z :=
  size_t (nChannelsPerBoard artdaqFragment * eff_fragment_id artdaqFragment).

(** [PMTDecoder::process_fragment] *)
Definition process_fragment (this : PMTDecoder.t) (artdaqFragment : Fragment.t)
    : M PMTDecoder.t :=
  nSamplesPerChannel <- nSamplesPerChannel artdaqFragment ;;
  when (PMTDecoder.fDiagnosticOutput this)
       (log (LogVerbatim_Fragment (fragment_id artdaqFragment)
               (boardId artdaqFragment) (nChannelsPerBoard artdaqFragment)
               nSamplesPerChannel (ev_size_quad_bytes artdaqFragment)
               (data_size_double_bytes artdaqFragment)
               (time_tag artdaqFragment))) ;;
  collection <-
    (if hasPMTDigitizerID (PMTDecoder.fChannelMap this)
          (eff_fragment_id artdaqFragment)
     then
       assert (match PMTDecoder.fBoardInfoLookup this with
               | Some _ => true
               | None => false
               end) ;;
       r <- fragmentTimeStamp this (fragment_id artdaqFragment) ;;
       let timeStamp := snd r in
       let digitizerChannelVec :=
         getChannelIDPairVec (PMTDecoder.fChannelMap this)
           (eff_fragment_id artdaqFragment) in
       emplaceWaveforms timeStamp nSamplesPerChannel
         (Fragment.data artdaqFragment) digitizerChannelVec
         (PMTDecoder.fOpDetWaveformCollection this)
     else
       log (LogError_NoChannelInformation (fragment_id artdaqFragment)) ;;
       ret (PMTDecoder.fOpDetWaveformCollection this)) ;;
  (if PMTDecoder.fDiagnosticOutput this
   then
     match collection with
     | Some c => log (LogVerbatim_CollectionSize (Z.of_nat (List.length c)))
     | None => undefined_behaviour NullDereference
     end
   else ret tt) ;;
  ret (PMTDecoder.set_fOpDetWaveformCollection this collection).

(** [operator()] of the comparison passed to [std::sort] in
    [outputDataProducts]. *)
Definition channel_less (left right : OpDetWaveform.t) : bool :=
  OpDetWaveform.ChannelNumber left <? OpDetWaveform.ChannelNumber right.

(** [PMTDecoder::outputDataProducts]: the sorted collection is moved into
    the event and the pointer of the decoder is left null. *)
Definition outputDataProducts (this : PMTDecoder.t)
    : M (PMTDecoder.t * list OpDetWaveform.t) :=
  match PMTDecoder.fOpDetWaveformCollection this with
  | Some c =>
      ret (PMTDecoder.set_fOpDetWaveformCollection this None,
           std_sort channel_less c)
  | None => undefined_behaviour NullDereference
  end.

End Decoder.


(** * Part I (continued): trigger gate data products

    The embedding of the function templates of
    icaruscode/PMT/Trigger/Utilities/TriggerDataUtils.h.  The types the
    templates are instantiated with and the _art_ classes they use are
    parameters: pointers to waveforms ([raw::OpDetWaveform const*]) and
    _art_ pointers are abstract values, [art::Assns] is the sequence of
    its pairs in the order of insertion, and the indices of the gates are
    natural numbers. *)

Module TriggerDataUtils.

(** What the templates read of an element of [gates]: [waveforms()] and
    [gateLevels()]. *)
Record Gate (Waveform TriggerGateData : Type) : Type := mkGate {
  waveforms : list Waveform;
  gateLevels : TriggerGateData
}.

(** The exceptions: [std::out_of_range] of [std::unordered_map::at] and the
    [cet::exception] of category ["FillTriggerGates"], "Could not find any
    waveform associated to trigger gate #<iGate>". *)
Inductive exception : Type :=
| out_of_range
| NoWaveformForGate (iGate : nat).

(** The interface of [GateObject]: construction from a waveform, [add()]
    of a waveform and assignment of trigger gate data. *)
Class GateObject (G Waveform TriggerGateData : Type) : Type := {
  construct : Waveform -> G;
  add : G -> Waveform -> G;
  assign : G -> TriggerGateData -> G
}.

Section Templates.

Variables Waveform TriggerGateData GatePtr WaveformPtr : Type.

(** [art::Assns<TriggerGateData_t, raw::OpDetWaveform>] *)
Definition Assns : Type := list (GatePtr * WaveformPtr).

(** A default-constructed [TriggerGateData_t] and the state a
    [TriggerGateData_t] is left in when its content is moved away. *)
Variable empty : TriggerGateData.
Variable moved_from : TriggerGateData -> TriggerGateData.

(** [art::PtrMaker::operator()], [art::Ptr::key()] and
    [art::Ptr::operator*], which is taken to find its waveform. *)
Variable makeGatePtr : nat -> GatePtr.
Variable key : GatePtr -> nat.
Variable deref : WaveformPtr -> Waveform.

(** [OpDetWaveformDataProductMap_t]: [None] where [at()] throws. *)
Variable opDetWavePtrs : Waveform -> option WaveformPtr.

(** The loop of [transformIntoOpticalTriggerGate(Gates&&)] (lines
    334-348): the data collected and the gates as they are left. *)
Fixpoint transformLoop (gates : list (Gate Waveform TriggerGateData))
    (gateData : list TriggerGateData)
    : list TriggerGateData * list (Gate Waveform TriggerGateData) :=
  match gates with
  | [] => (gateData, [])
  | gate :: rest =>
      match waveforms gate with
      | [] =>
          let (gateData', rest') := transformLoop rest (gateData ++ [empty]) in
          (gateData', gate :: rest')
      | _ :: _ =>
          let (gateData', rest') :=
            transformLoop rest (gateData ++ [gateLevels gate]) in
          (gateData',
           mkGate (waveforms gate) (moved_from (gateLevels gate)) :: rest')
      end
  end.

(** [transformIntoOpticalTriggerGate(Gates&& gates)] *)
Definition transformIntoOpticalTriggerGate
    (gates : list (Gate Waveform TriggerGateData))
    : list TriggerGateData * list (Gate Waveform TriggerGateData) :=
  transformLoop gates [].

(** The loop on the waveforms of a gate (lines 392-396). *)
Fixpoint addWaveforms (gatePtr : GatePtr) (waveforms : list Waveform)
    (gateToWaveforms : Assns) : exception + Assns :=
  match waveforms with
  | [] => inr gateToWaveforms
  | waveform :: rest =>
      match opDetWavePtrs waveform with
      | Some ptr => addWaveforms gatePtr rest (gateToWaveforms ++ [(gatePtr, ptr)])
      | None => inl out_of_range
      end
  end.

(** The loop on the gates (lines 381-398). *)
Fixpoint associateLoop (gates : list (Gate Waveform TriggerGateData))
    (iGate : nat) (gateToWaveforms : Assns) : exception + Assns :=
  match gates with
  | [] => inr gateToWaveforms
  | gate :: rest =>
      match waveforms gate with
      | [] => associateLoop rest (S iGate) gateToWaveforms
      | _ :: _ =>
          let gatePtr := makeGatePtr iGate in
          match addWaveforms gatePtr (waveforms gate) gateToWaveforms with
          | inr gateToWaveforms' =>
              associateLoop rest (S iGate) gateToWaveforms'
          | inl e => inl e
          end
      end
  end.

(** [transformIntoOpticalTriggerGate(gates, makeGatePtr, opDetWavePtrs)]:
    the gates as they are left, and the data with the associations or the
    exception. *)
Definition transformIntoOpticalTriggerGate_Assns
    (gates : list (Gate Waveform TriggerGateData))
    : list (Gate Waveform TriggerGateData)
      * (exception + list TriggerGateData * Assns) :=
  let (gateData, gates') := transformIntoOpticalTriggerGate gates in
  (gates',
   match associateLoop gates' 0 [] with
   | inr gateToWaveforms => inr (gateData, gateToWaveforms)
   | inl e => inl e
   end).

(** The first loop on the associations (lines 424-427): up to the first
    one of the gate. *)
Fixpoint skipToGate (iGate : nat) (iGateToWaveform : Assns) : Assns :=
  match iGateToWaveform with
  | [] => []
  | a :: rest =>
      if (key (fst a) =? iGate)%nat then iGateToWaveform
      else skipToGate iGate rest
  end.

(** The second loop (lines 429-432): the associations of the gate that
    follow each other, and the ones after them. *)
Fixpoint waveformsOfGate (iGate : nat) (iGateToWaveform : Assns)
    : Assns * Assns :=
  match iGateToWaveform with
  | [] => ([], [])
  | a :: rest =>
      if (key (fst a) =? iGate)%nat
      then let (found, after) := waveformsOfGate iGate rest in
           (a :: found, after)
      else ([], iGateToWaveform)
  end.

Context {G : Type} {GO : GateObject G Waveform TriggerGateData}.

(** Lines 440-445: the gate object of the waveforms found and the data of
    the gate. *)
Definition gateObject (first : GatePtr * WaveformPtr)
    (others : Assns) (gate : TriggerGateData) : G :=
  let gateData := construct (deref (snd first)) in
  let gateData :=
    fold_left (fun gateData a => add gateData (deref (snd a))) others
      gateData in
  assign gateData gate.

(** The loop on the gates (lines 418-449). *)
Fixpoint fillLoop (gates : list TriggerGateData) (iGate : nat)
    (iGateToWaveform : Assns) (allGates : list G) : exception + list G :=
  match gates with
  | [] => inr allGates
  | gate :: rest =>
      let iFirstWaveform := skipToGate iGate iGateToWaveform in
      let (found, iGateToWaveform') := waveformsOfGate iGate iFirstWaveform in
      match found with
      | [] => inl (NoWaveformForGate iGate)
      | first :: others =>
          fillLoop rest (S iGate) iGateToWaveform'
            (allGates ++ [gateObject first others gate])
      end
  end.

(** [FillTriggerGates<GateObject>(gates, gateToWaveforms)] *)
Definition FillTriggerGates (gates : list TriggerGateData)
    (gateToWaveforms : Assns) : exception + list G :=
  fillLoop gates 0 gateToWaveforms [].

End Templates.

End TriggerDataUtils.


(** * Part II: the vocabulary of the properties *)

(** ** The matching of setup and configuration *)

(** The loop body ends normally on a board setup. *)
Definition served {Q : Quantities} {P : Platform} (this : PMTDecoder.t)
    (configByName : configByName_t) (boardSetup : BoardSetup_t.t) : Prop :=
  exists info, outcome (boardInfo_of this configByName boardSetup) = Normal info.

(** The records the loop body adds for a board setup (one or none). *)
Definition records_of {Q : Quantities} {P : Platform} (this : PMTDecoder.t)
    (configByName : configByName_t) (boardSetup : BoardSetup_t.t)
    : list BoardInfo_t.t :=
  match outcome (boardInfo_of this configByName boardSetup) with
  | Normal (Some i) => [i]
  | _ => []
  end.

(** The messages of the loop body for a board setup. *)
Definition messages_of {Q : Quantities} {P : Platform} (this : PMTDecoder.t)
    (configByName : configByName_t) (boardSetup : BoardSetup_t.t)
    : list message :=
  messages (boardInfo_of this configByName boardSetup).

(** The configuration the dictionary gives for a board name. *)
Definition configuration_of {Q : Quantities} {S : StdAlgorithm}
    (PMTconfig : option PMTconfiguration.t) (name : string)
    : option V1730Configuration.t :=
  option_map (fun p => snd (snd p))
    (binarySearch String.eqb fst (configByName_of PMTconfig) name).

(** The PMT configurations hold the same boards, in any order. *)
Definition same_boards {Q : Quantities}
    (PMTconfig1 PMTconfig2 : option PMTconfiguration.t) : Prop :=
  match PMTconfig1, PMTconfig2 with
  | Some c1, Some c2 =>
      Permutation (PMTconfiguration.boards c1) (PMTconfiguration.boards c2)
  | None, None => True
  | _, _ => False
  end.

(** No two boards of the PMT configuration have the same name. *)
Definition distinct_board_names {Q : Quantities}
    (PMTconfig : option PMTconfiguration.t) : Prop :=
  match PMTconfig with
  | Some c => NoDup (map V1730Configuration.boardName (PMTconfiguration.boards c))
  | None => True
  end.

(** The order of [pair_less] on the keys of the elements of
    [configByName]: the name, then the address. *)
Definition key_less (k1 k2 : string * nat) : Prop :=
  String.compare (fst k1) (fst k2) = Lt
  \/ (fst k1 = fst k2 /\ (snd k1 < snd k2)%nat).

(** The records of the database a computation returns, if it does. *)
Definition database_of {Q : Quantities} (c : M BoardInfoLookup.t)
    : list BoardInfo_t.t :=
  match outcome c with
  | Normal lookup => BoardInfoLookup.fDatabase lookup
  | _ => []
  end.

(** ** The decoding of a fragment *)

(** The terms of the time stamp, as the specification names them. *)
Definition triggerDelay_of {Q : Quantities}
    (boardInfo : option BoardInfo_t.t) : nanoseconds :=
  match boardInfo with
  | Some i =>
      match BoardInfo_t.setup i with
      | Some s => BoardSetup_t.triggerDelay s
      | None => zero_ns
      end
  | None => zero_ns
  end.

Definition preTriggerDuration_of {Q : Quantities}
    (boardInfo : option BoardInfo_t.t) : nanoseconds :=
  match boardInfo with
  | Some i => BoardFacts_t.preTriggerTime (BoardInfo_t.facts i)
  | None => zero_ns
  end.

(** The name shown for a board without configuration. *)
Definition placeholder (fragmentID : Z) : string :=
  ("<ID=" ++ to_string fragmentID)%string.

Definition displayName_of {Q : Quantities}
    (boardInfo : option BoardInfo_t.t) (fragmentID : Z) : string :=
  match boardInfo with
  | Some i =>
      match BoardInfo_t.config i with
      | Some c => V1730Configuration.boardName c
      | None => placeholder fragmentID
      end
  | None => placeholder fragmentID
  end.

(** The time stamp of a fragment: the trigger time minus the trigger delay
    minus the pre-trigger duration. *)
Definition timeStamp_of {Q : Quantities} (this : PMTDecoder.t)
    (boardInfo : option BoardInfo_t.t) : electronics_time :=
  time_minus
    (time_minus (TriggerTime (PMTDecoder.fDetTimings this))
                (triggerDelay_of boardInfo))
    (preTriggerDuration_of boardInfo).

(** The waveform of one channel of a fragment. *)
Definition channelWaveform {Q : Quantities} (timeStamp : electronics_time)
    (nSamplesPerChannel : Z) (data : list Z) (channel : Z * Z)
    : OpDetWaveform.t :=
  OpDetWaveform.mk timeStamp (uint32 (snd channel))
    (firstn (Z.to_nat nSamplesPerChannel)
       (skipn (Z.to_nat (size_t (fst channel * nSamplesPerChannel))) data)).

(** The samples of a channel lie within the data of the fragment. *)
Definition within_data (nSamplesPerChannel : Z) (data : list Z)
    (channel : Z * Z) : Prop :=
  size_t (fst channel * nSamplesPerChannel) + nSamplesPerChannel
  <= Z.of_nat (List.length data).

(** The collection of the waveforms of the decoder a computation returns,
    if it does. *)
Definition waveforms_of {Q : Quantities} (c : M PMTDecoder.t)
    : list OpDetWaveform.t :=
  match outcome c with
  | Normal this =>
      match PMTDecoder.fOpDetWaveformCollection this with
      | Some w => w
      | None => []
      end
  | _ => []
  end.

(** A sorted sequence is stably sorted with respect to an input when the
    elements of every key appear in the order of the input. *)
Definition stably_sorted {A : Type} (key : A -> Z) (input output : list A)
    : Prop :=
  StronglySorted (fun x y => key x <= key y) output /\
  forall k, filter (fun x => key x =? k) output
            = filter (fun x => key x =? k) input.

(** ** Sequences of computations *)

(** The outcome of a computation that follows another. *)
Definition and_then {A B : Type} (r : result A) (k : A -> result B)
    : result B :=
  match r with
  | Normal a => k a
  | Throw e => Throw e
  | Undefined u => Undefined u
  | Aborted => Aborted
  end.

(** ** Further vocabulary of the decoder *)

(** The samples of a channel lie within the data of the fragment, as a
    test. *)
Definition within_datab (nSamplesPerChannel : Z) (data : list Z)
    (channel : Z * Z) : bool :=
  size_t (fst channel * nSamplesPerChannel) + nSamplesPerChannel
  <=? Z.of_nat (List.length data).

(** The waveforms of a collection pointer (none behind a null pointer). *)
Definition collected {Q : Quantities}
    (collection : option (list OpDetWaveform.t)) : list OpDetWaveform.t :=
  match collection with
  | Some w => w
  | None => []
  end.

(** The PMT configuration [setupRun] reads from the run, if any. *)
Definition PMTconfig_of {Q : Quantities} (this : PMTDecoder.t)
    (run : InputTag -> option PMTconfiguration.t)
    : option PMTconfiguration.t :=
  match PMTDecoder.fPMTconfigTag this with
  | Some tag => run tag
  | None => None
  end.

(** The record of a board that is set up with a fragment ID and has no
    configuration. *)
Definition setup_only_record {Q : Quantities} (boardSetup : BoardSetup_t.t)
    : BoardInfo_t.t :=
  BoardInfo_t.mk (BoardSetup_t.fragmentID boardSetup) (Some boardSetup) None
    (BoardFacts_t.mk zero_ns).

(** The record of a board that is set up and has a configuration. *)
Definition full_record {Q : Quantities} (this : PMTDecoder.t)
    (boardSetup : BoardSetup_t.t) (c : V1730Configuration.t)
    : BoardInfo_t.t :=
  BoardInfo_t.mk (V1730Configuration.fragmentID c) (Some boardSetup) (Some c)
    (BoardFacts_t.mk
       (pretrigger_buffer (V1730Configuration.bufferLength c)
          (V1730Configuration.postTriggerFrac c)
          (PMTDecoder.fOpticalTick this))).

(** The message on a board setup when the PMT configuration is not used. *)
Definition setup_only_message {Q : Quantities} {P : Platform}
    (boardSetup : BoardSetup_t.t) : message :=
  if BoardSetup_t.hasFragmentID boardSetup
  then LogPrint_NoConfiguration (BoardSetup_t.name boardSetup)
  else LogPrint_NoFragmentID (BoardSetup_t.name boardSetup).

(** What the loop body of the matching does on a board setup, in terms of
    the configuration the dictionary gives for its name. *)
Definition boardInfo_outcome {Q : Quantities} {S : StdAlgorithm}
    {P : Platform} (this : PMTDecoder.t)
    (PMTconfig : option PMTconfiguration.t) (boardSetup : BoardSetup_t.t)
    : result (option BoardInfo_t.t) :=
  if hasPMTconfiguration this then
    match configuration_of PMTconfig (BoardSetup_t.name boardSetup) with
    | Some c =>
        if BoardSetup_t.hasFragmentID boardSetup
           && negb (BoardSetup_t.fragmentID boardSetup
                    =? V1730Configuration.fragmentID c)
        then Throw (FragmentIDMismatch (BoardSetup_t.name boardSetup)
                      (V1730Configuration.fragmentID c)
                      (BoardSetup_t.fragmentID boardSetup))
        else if NDEBUG || negb (V1730Configuration.fragmentID c =? NoFragmentID)
        then Normal (Some (full_record this boardSetup c))
        else Aborted
    | None =>
        if PMTDecoder.fRequireKnownBoards this
        then Throw (NoDAQConfiguration (BoardSetup_t.name boardSetup))
        else Undefined NullDereference
    end
  else
    Normal (if BoardSetup_t.hasFragmentID boardSetup
            then Some (setup_only_record boardSetup)
            else None).

(** The record of a board setup whose configuration is found. *)
Definition configured_record {Q : Quantities} {S : StdAlgorithm}
    (this : PMTDecoder.t) (PMTconfig : option PMTconfiguration.t)
    (boardSetup : BoardSetup_t.t) : list BoardInfo_t.t :=
  match configuration_of PMTconfig (BoardSetup_t.name boardSetup) with
  | Some c => [full_record this boardSetup c]
  | None => []
  end.

(** The board setup has a configuration that does not contradict it and
    holds a fragment ID. *)
Definition consistently_configured {Q : Quantities} {S : StdAlgorithm}
    {P : Platform} (PMTconfig : option PMTconfiguration.t)
    (boardSetup : BoardSetup_t.t) : Prop :=
  exists c,
    configuration_of PMTconfig (BoardSetup_t.name boardSetup) = Some c /\
    (BoardSetup_t.hasFragmentID boardSetup = true ->
     BoardSetup_t.fragmentID boardSetup = V1730Configuration.fragmentID c) /\
    V1730Configuration.fragmentID c <> NoFragmentID.

(** The waveforms [process_fragment] makes of a fragment, or how it fails
    before it has made them all. *)
Definition decoded_waveforms {Q : Quantities} {P : Platform}
    (this : PMTDecoder.t) (f : Fragment.t)
    : result (list OpDetWaveform.t) :=
  if nChannelsPerBoard f =? 0 then Undefined DivisionByZero
  else if hasPMTDigitizerID (PMTDecoder.fChannelMap this) (eff_fragment_id f)
  then
    match PMTDecoder.fBoardInfoLookup this with
    | None => if NDEBUG then Undefined EmptyOptional else Aborted
    | Some _ =>
        and_then (outcome (fragmentTimeStamp this (fragment_id f)))
          (fun r =>
             let n := uint32 (data_size_double_bytes f / nChannelsPerBoard f) in
             let digitizerChannelVec :=
               getChannelIDPairVec (PMTDecoder.fChannelMap this)
                 (eff_fragment_id f) in
             if forallb (within_datab n (Fragment.data f)) digitizerChannelVec
             then Normal (map (channelWaveform (snd r) n (Fragment.data f))
                            digitizerChannelVec)
             else Undefined OutOfBoundsRead)
    end
  else Normal [].

(** The time stamp of the fragments of a board with the given setup and
    configuration. *)
Definition configured_timeStamp {Q : Quantities} (this : PMTDecoder.t)
    (boardSetup : BoardSetup_t.t) (c : V1730Configuration.t)
    : electronics_time :=
  time_minus
    (time_minus (TriggerTime (PMTDecoder.fDetTimings this))
       (BoardSetup_t.triggerDelay boardSetup))
    (pretrigger_buffer (V1730Configuration.bufferLength c)
       (V1730Configuration.postTriggerFrac c)
       (PMTDecoder.fOpticalTick this)).

(** ** Trigger gate data products *)

Module TriggerGates.

Import TriggerDataUtils.

(** The elements of a sequence with their indices, counted from [start]
    ([util::enumerate]). *)
Definition enumerate {A : Type} (start : nat) (l : list A)
    : list (nat * A) :=
  combine (seq start (List.length l)) l.

Section Vocabulary.

Variables Waveform TriggerGateData GatePtr WaveformPtr : Type.

(** The data that stand for a gate in the data product. *)
Definition serialized (empty : TriggerGateData)
    (gate : Gate Waveform TriggerGateData) : TriggerGateData :=
  match waveforms gate with
  | [] => empty
  | _ :: _ => gateLevels gate
  end.

(** The gate after its levels were moved into the data product. *)
Definition depleted (moved_from : TriggerGateData -> TriggerGateData)
    (gate : Gate Waveform TriggerGateData) : Gate Waveform TriggerGateData :=
  match waveforms gate with
  | [] => gate
  | _ :: _ => mkGate (waveforms gate) (moved_from (gateLevels gate))
  end.

(** Every waveform of the gate has a pointer in the map. *)
Definition mapped (opDetWavePtrs : Waveform -> option WaveformPtr)
    (gate : Gate Waveform TriggerGateData) : bool :=
  forallb (fun waveform =>
             match opDetWavePtrs waveform with
             | Some _ => true
             | None => false
             end)
          (waveforms gate).

(** The associations of a gate to its waveforms. *)
Definition associationsOf (makeGatePtr : nat -> GatePtr)
    (opDetWavePtrs : Waveform -> option WaveformPtr)
    (indexed : nat * Gate Waveform TriggerGateData)
    : list (GatePtr * WaveformPtr) :=
  flat_map (fun waveform =>
              match opDetWavePtrs waveform with
              | Some ptr => [(makeGatePtr (fst indexed), ptr)]
              | None => []
              end)
           (waveforms (snd indexed)).

(** The associations of the group are associations of the gate of the
    index. *)
Definition ofGate (key : GatePtr -> nat)
    (indexed : nat * list (GatePtr * WaveformPtr)) : Prop :=
  Forall (fun a => key (fst a) = fst indexed) (snd indexed).

(** The gate object made of a group of associations and the data of the
    gate. *)
Definition objectOf {G : Type} {GO : GateObject G Waveform TriggerGateData}
    (deref : WaveformPtr -> Waveform)
    (group : list (GatePtr * WaveformPtr)) (gate : TriggerGateData)
    (object : G) : Prop :=
  exists first others,
    group = first :: others /\ object = gateObject deref first others gate.

(** The gate object made of the waveforms and the levels of a gate. *)
Definition rebuilt {G : Type} {GO : GateObject G Waveform TriggerGateData}
    (gate : Gate Waveform TriggerGateData) (object : G) : Prop :=
  exists first others,
    waveforms gate = first :: others /\
    object = assign (fold_left add others (construct first)) (gateLevels gate).

End Vocabulary.

End TriggerGates.


(** * Part III: implementations of the interfaces and example decoders *)

(** ** Quantities, platform, sorting *)

(** Exact arithmetic on whole nanoseconds; fractions are rationals and the
    pre-trigger buffer is rounded down to a whole nanosecond. *)
#[export] Instance exact_nanoseconds : Quantities := {|
  nanoseconds := Z;
  electronics_time := Z;
  float := Q;
  zero_ns := 0;
  time_minus := Z.sub;
  pretrigger_buffer := fun bufferLength postTriggerFrac tick =>
    Qfloor (inject_Z bufferLength * (1 - postTriggerFrac) * inject_Z tick);
  time_minus_zero := Z.sub_0_r
|}.

(** A 32-bit [unsigned int] whose largest value is the sentinel, the
    event header of four 32-bit words, assertions compiled in. *)
#[export] Instance debug_build : Platform := {|
  NoFragmentID := 2 ^ 32 - 1;
  evt_header_words := 4;
  NDEBUG := false
|}.

(** Insertion sort: an element is placed before the first element that is
    not smaller, so equivalent elements keep their order. *)
Fixpoint insert {A : Type} (comp : A -> A -> bool) (x : A) (l : list A)
    : list A :=
  match l with
  | [] => [x]
  | y :: l' => if comp y x then y :: insert comp x l' else x :: y :: l'
  end.

Definition insertion_sort {A : Type} (comp : A -> A -> bool) (l : list A)
    : list A :=
  fold_right (insert comp) [] l.

(** A sort that first reverses its input: it reverses the order of
    equivalent elements. *)
Definition reversing_sort {A : Type} (comp : A -> A -> bool) (l : list A)
    : list A :=
  insertion_sort comp (rev l).

(** Insertion sort is an implementation of [std::sort], a stable one. *)
#[export, refine] Instance stable_sort : StdAlgorithm :=
  {| std_sort := @insertion_sort |}.
Proof.
  - intros A comp l _.
    assert (Hinsert : forall x l', Permutation (x :: l') (insert comp x l')).
    { intros x l'. induction l' as [|y l' IH]; simpl.
      - apply Permutation_refl.
      - destruct (comp y x).
        + eapply perm_trans; [apply perm_swap|]. now apply perm_skip.
        + apply Permutation_refl. }
    induction l as [|x l IH]; simpl.
    + constructor.
    + eapply perm_trans; [|apply Hinsert]. now apply perm_skip.
  - intros A comp l (Hirr & Htrans & Hneg).
    assert (Hasym : forall x y, comp x y = true -> comp y x = false).
    { intros x y Hxy. destruct (comp y x) eqn:Hyx; [|reflexivity].
      rewrite <- (Hirr x). symmetry. now apply Htrans with y. }
    assert (Hin : forall x y l', In y (insert comp x l') -> y = x \/ In y l').
    { intros x y l'. induction l' as [|z l' IH]; simpl.
      - intros [<-|[]]. now left.
      - destruct (comp z x); simpl; intuition. }
    induction l as [|x l IH]; simpl; [constructor|].
    revert IH. generalize (insertion_sort comp l). clear l.
    induction 1 as [|y l Hsorted IH Hall]; simpl.
    + constructor; constructor.
    + destruct (comp y x) eqn:Hyx.
      * constructor; [exact IH|].
        apply Forall_forall. intros z Hz. apply Hin in Hz.
        destruct Hz as [->|Hz]; [now apply Hasym|].
        rewrite Forall_forall in Hall. now apply Hall.
      * constructor; [now constructor|].
        constructor; [exact Hyx|].
        eapply Forall_impl; [|exact Hall].
        intros z Hzy. now apply Hneg with y.
Defined.

(** The reversing sort is an implementation of [std::sort] that is not
    stable. *)
Definition unstable_sort : StdAlgorithm := {|
  std_sort := @reversing_sort;
  std_sort_Permutation := fun A comp l H =>
    perm_trans (Permutation_rev l)
      (@std_sort_Permutation stable_sort A comp (rev l) H);
  std_sort_Sorted := fun A comp l H =>
    @std_sort_Sorted stable_sort A comp (rev l) H
|}.

(** ** Example decoders *)

(** The board with effective fragment ID 3 serves the channels 101 and 102
    on its digitizer channels 0 and 1. *)
Definition two_channel_map : IICARUSChannelMap := {|
  hasPMTDigitizerID := fun id => id =? 3;
  getChannelIDPairVec := fun id => if id =? 3 then [(0, 101); (1, 102)] else []
|}.

(** Trigger at 1000 ns on the electronics time scale, 2 ns optical tick. *)
Definition example_timings : @DetectorTimings exact_nanoseconds :=
  Build_DetectorTimings (1000 : @electronics_time exact_nanoseconds)
                        (2 : @nanoseconds exact_nanoseconds).

(** A board setup without fragment ID and with the default trigger delay. *)
Definition setup_without_ID (name : string)
    : @BoardSetupConfig.t exact_nanoseconds :=
  BoardSetupConfig.mk name None None.

Definition setup_with_ID (name : string) (id : Z) (delay : Z)
    : @BoardSetupConfig.t exact_nanoseconds :=
  BoardSetupConfig.mk name (Some id)
    (Some (delay : @nanoseconds exact_nanoseconds)).

(** A board configuration with a buffer of 2000 samples, half of it after
    the trigger: a pre-trigger buffer of 2000 ns at 2 ns per sample. *)
Definition board_config (name : string) (id : Z)
    : @V1730Configuration.t exact_nanoseconds :=
  V1730Configuration.mk name id 2000 ((1 # 2)%Q : @float exact_nanoseconds).

(** A run with the PMT configuration [boards] under every label. *)
Definition run_with (boards : list (@V1730Configuration.t exact_nanoseconds))
    : InputTag -> option (@PMTconfiguration.t exact_nanoseconds) :=
  fun _ => Some (PMTconfiguration.mk boards).

(** The decoder object after construction with the given parameters. *)
Definition constructed (params : @Config.t exact_nanoseconds)
    : @PMTDecoder.t exact_nanoseconds :=
  match outcome (PMTDecoder_ctor params example_timings two_channel_map) with
  | Normal this => this
  | _ =>
      PMTDecoder.mk false true true None [] EmptyString example_timings
        two_channel_map (0 : @nanoseconds exact_nanoseconds)
        (0 : @electronics_time exact_nanoseconds) None None
  end.

(** The decoder with default flags, a PMT configuration tag and the
    given board setups. *)
Definition default_decoder
    (setups : list (@BoardSetupConfig.t exact_nanoseconds))
    : @PMTDecoder.t exact_nanoseconds :=
  constructed (Config.mk None None None (Some "daqPMT"%string) setups None).

(** The same without PMT configuration tag. *)
Definition online_decoder
    (setups : list (@BoardSetupConfig.t exact_nanoseconds))
    : @PMTDecoder.t exact_nanoseconds :=
  constructed (Config.mk None None None None setups None).

(** [RequireKnownBoards: false], with a PMT configuration tag. *)
Definition lenient_decoder
    (setups : list (@BoardSetupConfig.t exact_nanoseconds))
    : @PMTDecoder.t exact_nanoseconds :=
  constructed
    (Config.mk None (Some false) None (Some "daqPMT"%string) setups None).

(** [RequireBoardConfig: false], with a PMT configuration tag. *)
Definition optional_config_decoder
    (setups : list (@BoardSetupConfig.t exact_nanoseconds))
    : @PMTDecoder.t exact_nanoseconds :=
  constructed
    (Config.mk None None (Some false) (Some "daqPMT"%string) setups None).

(** The decoder after [setupRun] on a run and [initializeDataProducts]. *)
Definition ready (this : @PMTDecoder.t exact_nanoseconds)
    (run : InputTag -> option (@PMTconfiguration.t exact_nanoseconds))
    : @PMTDecoder.t exact_nanoseconds :=
  initializeDataProducts
    (match outcome (setupRun this run) with
     | Normal this' => this'
     | _ => this
     end).

(** On-line monitoring: no PMT configuration, no board setup, unknown
    boards accepted. *)
Definition online_monitor : @PMTDecoder.t exact_nanoseconds :=
  ready (constructed (Config.mk None (Some false) None None [] None))
        (fun _ => None).

(** Off-line decoding with default flags: the board of fragment ID 8195
    (0x2003) is set up with a trigger delay of 43 ns and configured with a
    pre-trigger buffer of 2000 ns. *)
Definition offline_decoder : @PMTDecoder.t exact_nanoseconds :=
  ready (constructed
           (Config.mk None None None (Some "daqPMT"%string)
              [BoardSetupConfig.mk "icaruspmtwwtop01" None
                 (Some (43 : @nanoseconds exact_nanoseconds))]
              None))
        (run_with [board_config "icaruspmtwwtop01" 8195]).

(** A fragment of the board 8195 with two channels, an event of eight
    32-bit words (four of header) and the 16-bit words 1 to 8 as data. *)
Definition example_fragment : Fragment.t :=
  Fragment.mk 8195 2 8 0 [1; 2; 3; 4; 5; 6; 7; 8].

(** The same for the board 12291 (0x3003), which no setup and no
    configuration knows and which has the effective fragment ID 3 too. *)
Definition stray_fragment : Fragment.t :=
  Fragment.mk 12291 2 8 0 [1; 2; 3; 4; 5; 6; 7; 8].

(** A fragment of four channels with five 32-bit words of data: ten 16-bit
    words, which four does not divide. *)
Definition uneven_fragment : Fragment.t :=
  Fragment.mk 8195 4 9 0 [1; 2; 3; 4; 5; 6; 7; 8; 9; 10].

(** ** Further examples *)

(** A fragment of the board 8196 (0x2004), whose effective fragment ID 4
    the channel map does not know. *)
Definition unserved_fragment : Fragment.t :=
  Fragment.mk 8196 2 8 0 [1; 2; 3; 4; 5; 6; 7; 8].

(** A fragment that declares eight 16-bit words of data and holds six. *)
Definition truncated_fragment : Fragment.t :=
  Fragment.mk 8195 2 8 0 [1; 2; 3; 4; 5; 6].

(** A fragment whose event, of three 32-bit words, is smaller than the
    event header. *)
Definition headerless_fragment : Fragment.t :=
  Fragment.mk 8195 2 3 0 [].

(** The decoder of the example of the off-line decoding, before
    [setupRun]. *)
Definition offline_tool : @PMTDecoder.t exact_nanoseconds :=
  default_decoder [BoardSetupConfig.mk "icaruspmtwwtop01" None
                     (Some (43 : @nanoseconds exact_nanoseconds))].

(** A decoder without PMT configuration tag, with a board set up with a
    fragment ID and one without. *)
Definition online_tool : @PMTDecoder.t exact_nanoseconds :=
  online_decoder [setup_with_ID "icaruspmtwwtop01" 8195 43;
                  setup_without_ID "icaruspmtwwtop02"].

(** The decoder after a [setupRun] that returns. *)
Definition after_setupRun (this : @PMTDecoder.t exact_nanoseconds)
    (run : InputTag -> option (@PMTconfiguration.t exact_nanoseconds))
    : @PMTDecoder.t exact_nanoseconds :=
  match outcome (setupRun this run) with
  | Normal this' => this'
  | _ => this
  end.

(** ** Example gate objects *)

(** A gate object that records its waveforms in the order they are added
    and the data it was assigned. *)
#[export] Instance recorded_gate
    : TriggerDataUtils.GateObject (list nat * list Z) nat (list Z) := {|
  TriggerDataUtils.construct := fun waveform => ([waveform], []);
  TriggerDataUtils.add := fun g waveform => (fst g ++ [waveform], snd g);
  TriggerDataUtils.assign := fun g data => (fst g, data)
|}.

(** Two gates: one of the waveforms 10 and 11, one of the waveform 12. *)
Definition two_gates : list (TriggerDataUtils.Gate nat (list Z)) :=
  [TriggerDataUtils.mkGate [10; 11]%nat [1; 0];
   TriggerDataUtils.mkGate [12]%nat [0; 1]].

(** A gate that has levels and no waveform. *)
Definition gate_without_waveforms : TriggerDataUtils.Gate nat (list Z) :=
  TriggerDataUtils.mkGate [] [5].

(** The pointer map of an event in which every waveform has a pointer,
    which is its address. *)
Definition every_waveform : nat -> option nat := Some.


(** * Part IV: properties *)

(** ** Computations *)

Section Computations.

Context {Q : Quantities}.

Lemma bind_Normal_inv (A B : Type) (c : M A) (k : A -> M B) lg b :
  bind c k = (lg, Normal b) ->
  exists lg1 a lg2,
    c = (lg1, Normal a) /\ k a = (lg2, Normal b) /\ lg = lg1 ++ lg2.
Proof.
  destruct c as [lg1 [a|e|u|]]; simpl; try discriminate.
  destruct (k a) as [lg2 r] eqn:Hk. intros [= <- ->].
  now exists lg1, a, lg2.
Qed.

Lemma bind_ret_l (A B : Type) (a : A) (k : A -> M B) :
  bind ([], Normal a) k = k a.
Proof. unfold bind. now destruct (k a). Qed.

Lemma bind_ret (A B : Type) (a : A) (k : A -> M B) : bind (ret a) k = k a.
Proof. apply bind_ret_l. Qed.

Lemma outcome_bind_Normal (A B : Type) (c : M A) (k : A -> M B) a :
  outcome c = Normal a -> outcome (bind c k) = outcome (k a).
Proof.
  destruct c as [lg r]. simpl. intros ->. unfold outcome. simpl.
  now destruct (k a).
Qed.

Lemma outcome_bind_Throw (A B : Type) (c : M A) (k : A -> M B) e :
  outcome c = Throw e -> outcome (bind c k) = Throw e.
Proof. destruct c as [lg r]. simpl. now intros ->. Qed.

End Computations.

Ltac bind_ret := repeat (rewrite bind_ret_l || rewrite bind_ret).

(** ** The loop on the board setups *)

Section BoardSetupLoop.

Context {Q : Quantities} {P : Platform}.
Variable this : PMTDecoder.t.
Variable configByName : configByName_t.

Lemma fillBoardInfo_served (setups : list BoardSetup_t.t) :
  Forall (served this configByName) setups ->
  forall acc,
    fillBoardInfo this configByName setups acc
    = (flat_map (messages_of this configByName) setups,
       Normal (acc ++ flat_map (records_of this configByName) setups)).
Proof.
  induction 1 as [|bs setups [info Hinfo] _ IH]; intros acc; simpl.
  - unfold ret. now rewrite app_nil_r.
  - unfold records_of, messages_of, outcome, messages in *.
    destruct (boardInfo_of this configByName bs) as [lg r]. simpl in *.
    subst r. rewrite IH. simpl. f_equal. f_equal.
    destruct info; simpl; now rewrite <- ?app_assoc, ?app_nil_r.
Qed.

Lemma fillBoardInfo_Normal_inv (setups : list BoardSetup_t.t) :
  forall acc lg infos,
    fillBoardInfo this configByName setups acc = (lg, Normal infos) ->
    Forall (served this configByName) setups.
Proof.
  induction setups as [|bs setups IH]; intros acc lg infos; simpl.
  - constructor.
  - intros H. apply bind_Normal_inv in H.
    destruct H as (lg1 & info & lg2 & Hbody & Hrest & _).
    constructor.
    + exists info. unfold outcome. now rewrite Hbody.
    + eapply IH. exact Hrest.
Qed.

Lemma fillBoardInfo_Throw (pre post : list BoardSetup_t.t)
    (boardSetup : BoardSetup_t.t) lg e :
  Forall (served this configByName) pre ->
  boardInfo_of this configByName boardSetup = (lg, Throw e) ->
  forall acc,
    fillBoardInfo this configByName (pre ++ boardSetup :: post) acc
    = (flat_map (messages_of this configByName) pre ++ lg, Throw e).
Proof.
  intros Hpre Hbody.
  induction Hpre as [|bs pre [info Hinfo] _ IH]; intros acc; simpl.
  - now rewrite Hbody.
  - unfold messages_of, outcome, messages in *.
    destruct (boardInfo_of this configByName bs) as [lg1 r]. simpl in *.
    subst r. rewrite IH. now rewrite app_assoc.
Qed.

(** The three cases of the loop body: no PMT configuration in use, a
    configuration of the board found, no configuration of the board. *)

Lemma findPMTconfig_unused (name : string) :
  hasPMTconfiguration this = false ->
  findPMTconfig this configByName name = ([], Normal None).
Proof. unfold findPMTconfig. now intros ->. Qed.

Lemma findPMTconfig_found (name : string) p :
  hasPMTconfiguration this = true ->
  binarySearch String.eqb fst configByName name = Some p ->
  findPMTconfig this configByName name = ([], Normal (Some (snd (snd p)))).
Proof. unfold findPMTconfig. now intros -> ->. Qed.

Lemma findPMTconfig_missing (name : string) :
  hasPMTconfiguration this = true ->
  binarySearch String.eqb fst configByName name = None ->
  findPMTconfig this configByName name
  = if PMTDecoder.fRequireKnownBoards this
    then ([], Throw (NoDAQConfiguration name))
    else ([], Undefined NullDereference).
Proof.
  unfold findPMTconfig. intros -> ->. simpl.
  now destruct (PMTDecoder.fRequireKnownBoards this).
Qed.

Lemma findPMTconfig_None_inv (name : string) :
  outcome (findPMTconfig this configByName name) = Normal None ->
  hasPMTconfiguration this = false.
Proof.
  destruct (hasPMTconfiguration this) eqn:Hhas; [|reflexivity].
  destruct (binarySearch String.eqb fst configByName name) as [p|] eqn:Hfind.
  - now rewrite (findPMTconfig_found _ Hhas Hfind).
  - rewrite (findPMTconfig_missing _ Hhas Hfind).
    now destruct (PMTDecoder.fRequireKnownBoards this).
Qed.

Lemma boardInfo_of_unused (boardSetup : BoardSetup_t.t) :
  hasPMTconfiguration this = false ->
  boardInfo_of this configByName boardSetup
  = if BoardSetup_t.hasFragmentID boardSetup
    then ([LogPrint_NoConfiguration (BoardSetup_t.name boardSetup)],
          Normal (Some (BoardInfo_t.mk (BoardSetup_t.fragmentID boardSetup)
                          (Some boardSetup) None (BoardFacts_t.mk zero_ns))))
    else ([LogPrint_NoFragmentID (BoardSetup_t.name boardSetup)], Normal None).
Proof.
  intros Hhas. unfold boardInfo_of. cbv zeta.
  rewrite (findPMTconfig_unused _ Hhas), bind_ret_l.
  destruct (BoardSetup_t.hasFragmentID boardSetup) eqn:Hid; [|reflexivity].
  unfold BoardSetup_t.hasFragmentID in Hid. unfold assert.
  rewrite Hid, orb_true_r. reflexivity.
Qed.

Lemma boardInfo_of_found (boardSetup : BoardSetup_t.t) p :
  hasPMTconfiguration this = true ->
  binarySearch String.eqb fst configByName (BoardSetup_t.name boardSetup)
  = Some p ->
  boardInfo_of this configByName boardSetup
  = let c := snd (snd p) in
    if BoardSetup_t.hasFragmentID boardSetup
       && negb (BoardSetup_t.fragmentID boardSetup
                =? V1730Configuration.fragmentID c)
    then ([], Throw (FragmentIDMismatch (BoardSetup_t.name boardSetup)
                       (V1730Configuration.fragmentID c)
                       (BoardSetup_t.fragmentID boardSetup)))
    else if NDEBUG || negb (V1730Configuration.fragmentID c =? NoFragmentID)
    then ([], Normal (Some (BoardInfo_t.mk (V1730Configuration.fragmentID c)
                             (Some boardSetup) (Some c)
                             (BoardFacts_t.mk
                                (pretrigger_buffer
                                   (V1730Configuration.bufferLength c)
                                   (V1730Configuration.postTriggerFrac c)
                                   (PMTDecoder.fOpticalTick this))))))
    else ([], Aborted).
Proof.
  intros Hhas Hfind. unfold boardInfo_of. cbv zeta.
  rewrite (findPMTconfig_found _ Hhas Hfind), bind_ret_l.
  destruct (BoardSetup_t.hasFragmentID boardSetup
            && negb (BoardSetup_t.fragmentID boardSetup
                     =? V1730Configuration.fragmentID (snd (snd p))));
    [reflexivity|].
  bind_ret. unfold assert.
  now destruct (NDEBUG
                || negb (V1730Configuration.fragmentID (snd (snd p))
                         =? NoFragmentID)).
Qed.

Lemma boardInfo_of_missing (boardSetup : BoardSetup_t.t) :
  hasPMTconfiguration this = true ->
  binarySearch String.eqb fst configByName (BoardSetup_t.name boardSetup)
  = None ->
  boardInfo_of this configByName boardSetup
  = if PMTDecoder.fRequireKnownBoards this
    then ([], Throw (NoDAQConfiguration (BoardSetup_t.name boardSetup)))
    else ([], Undefined NullDereference).
Proof.
  intros Hhas Hfind. unfold boardInfo_of.
  rewrite (findPMTconfig_missing _ Hhas Hfind).
  now destruct (PMTDecoder.fRequireKnownBoards this).
Qed.

(** Every record of the loop points to the setup it was made for. *)
Lemma records_of_setup (boardSetup : BoardSetup_t.t) (i : BoardInfo_t.t) :
  In i (records_of this configByName boardSetup) -> BoardInfo_t.setup i = Some boardSetup.
Proof.
  unfold records_of.
  destruct (hasPMTconfiguration this) eqn:Hhas.
  - destruct (binarySearch String.eqb fst configByName
                (BoardSetup_t.name boardSetup)) as [p|] eqn:Hfind.
    + rewrite (boardInfo_of_found _ Hhas Hfind). cbv zeta.
      repeat match goal with |- context [if ?b then _ else _] => destruct b end;
        simpl; (intros [<-|[]] || intros []); reflexivity.
    + rewrite (boardInfo_of_missing _ Hhas Hfind).
      destruct (PMTDecoder.fRequireKnownBoards this); simpl; intros [].
  - rewrite (boardInfo_of_unused _ Hhas).
    destruct (BoardSetup_t.hasFragmentID boardSetup); simpl;
      (intros [<-|[]] || intros []); reflexivity.
Qed.

End BoardSetupLoop.


(** ** What the matching reads of the decoder *)

(** The matching reads three data members of the decoder besides the
    board setups: the PMT configuration tag, [fRequireKnownBoards] and
    [fOpticalTick]. *)
Lemma boardInfo_of_ext {Q : Quantities} {P : Platform}
    (this1 this2 : PMTDecoder.t) (configByName : configByName_t)
    (boardSetup : BoardSetup_t.t) :
  PMTDecoder.fPMTconfigTag this1 = PMTDecoder.fPMTconfigTag this2 ->
  PMTDecoder.fRequireKnownBoards this1 = PMTDecoder.fRequireKnownBoards this2 ->
  PMTDecoder.fOpticalTick this1 = PMTDecoder.fOpticalTick this2 ->
  boardInfo_of this1 configByName boardSetup
  = boardInfo_of this2 configByName boardSetup.
Proof.
  intros Htag Hknown Htick.
  unfold boardInfo_of, findPMTconfig, hasPMTconfiguration.
  now rewrite Htag, Hknown, Htick.
Qed.

Lemma fillBoardInfo_ext {Q : Quantities} {P : Platform}
    (this1 this2 : PMTDecoder.t) (configByName : configByName_t)
    (setups : list BoardSetup_t.t) :
  PMTDecoder.fPMTconfigTag this1 = PMTDecoder.fPMTconfigTag this2 ->
  PMTDecoder.fRequireKnownBoards this1 = PMTDecoder.fRequireKnownBoards this2 ->
  PMTDecoder.fOpticalTick this1 = PMTDecoder.fOpticalTick this2 ->
  forall acc,
    fillBoardInfo this1 configByName setups acc
    = fillBoardInfo this2 configByName setups acc.
Proof.
  intros Htag Hknown Htick.
  induction setups as [|bs setups IH]; intros acc; simpl.
  - reflexivity.
  - rewrite (boardInfo_of_ext _ _ _ _ Htag Hknown Htick).
    destruct (boardInfo_of this2 configByName bs) as [lg [info|e|u|]]; simpl;
      [|reflexivity|reflexivity|reflexivity].
    now rewrite IH.
Qed.

(** ** The records of the database *)

Lemma StronglySorted_weaken (A : Type) (R R' : A -> A -> Prop) (l : list A) :
  (forall a b, R a b -> R' a b) -> StronglySorted R l -> StronglySorted R' l.
Proof.
  intros HR. induction 1 as [|a l _ IH Hall]; constructor.
  - exact IH.
  - eapply Forall_impl; [|exact Hall]. apply HR.
Qed.

Lemma less_strict_weak_order {Q : Quantities} :
  strict_weak_order BoardInfo_t.less.
Proof.
  unfold BoardInfo_t.less. repeat split; intros *.
  - apply Z.ltb_irrefl.
  - rewrite !Z.ltb_lt. lia.
  - rewrite !Z.ltb_ge. lia.
Qed.

Section Matching.

Context {Q : Quantities} {S : StdAlgorithm} {P : Platform}.
Variable this : PMTDecoder.t.
Variable PMTconfig : option PMTconfiguration.t.

Let configByName := configByName_of PMTconfig.

Lemma matchBoardConfigurationAndSetup_Normal_inv lg lookup :
  matchBoardConfigurationAndSetup this PMTconfig = (lg, Normal lookup) ->
  Forall (served this configByName) (PMTDecoder.fBoardSetup this).
Proof.
  unfold matchBoardConfigurationAndSetup. intros H.
  apply bind_Normal_inv in H. destruct H as (lg1 & infos & lg2 & Hfill & _).
  eapply fillBoardInfo_Normal_inv. exact Hfill.
Qed.

Lemma matchBoardConfigurationAndSetup_served :
  Forall (served this configByName) (PMTDecoder.fBoardSetup this) ->
  matchBoardConfigurationAndSetup this PMTconfig
  = (flat_map (messages_of this configByName) (PMTDecoder.fBoardSetup this),
     Normal (BoardInfoLookup.ctor
               (flat_map (records_of this configByName)
                         (PMTDecoder.fBoardSetup this)))).
Proof.
  intros Hserved. unfold matchBoardConfigurationAndSetup.
  fold configByName.
  rewrite (fillBoardInfo_served Hserved). simpl.
  now rewrite app_nil_r.
Qed.

(** The database holds the records made for the setups, rearranged. *)
Lemma database_Permutation (infos : list BoardInfo_t.t) :
  Permutation infos (BoardInfoLookup.fDatabase (BoardInfoLookup.ctor infos)).
Proof.
  unfold BoardInfoLookup.ctor. simpl.
  apply std_sort_Permutation, less_strict_weak_order.
Qed.

Lemma database_StronglySorted (infos : list BoardInfo_t.t) :
  StronglySorted
    (fun a b => BoardInfo_t.fragmentID a <= BoardInfo_t.fragmentID b)
    (BoardInfoLookup.fDatabase (BoardInfoLookup.ctor infos)).
Proof.
  unfold BoardInfoLookup.ctor. simpl.
  eapply StronglySorted_weaken;
    [|apply std_sort_Sorted, less_strict_weak_order].
  unfold BoardInfo_t.less. intros a b. rewrite Z.ltb_ge. lia.
Qed.

(** Every record of the database points to a board setup of the decoder,
    so that the assertion of [process_fragment] on it holds. *)
Lemma matchBoardConfigurationAndSetup_setup lg lookup (i : BoardInfo_t.t) :
  matchBoardConfigurationAndSetup this PMTconfig = (lg, Normal lookup) ->
  In i (BoardInfoLookup.fDatabase lookup) ->
  exists boardSetup,
    BoardInfo_t.setup i = Some boardSetup /\
    In boardSetup (PMTDecoder.fBoardSetup this).
Proof.
  intros Hmatch Hi.
  pose proof (matchBoardConfigurationAndSetup_Normal_inv Hmatch) as Hserved.
  rewrite (matchBoardConfigurationAndSetup_served Hserved) in Hmatch.
  injection Hmatch as _ <-.
  apply (Permutation_in _ (Permutation_sym (database_Permutation _))) in Hi.
  apply in_flat_map in Hi. destruct Hi as (boardSetup & Hin & Hi).
  exists boardSetup. split; [|exact Hin].
  now apply records_of_setup with this configByName.
Qed.

End Matching.

(** ** Board setups without PMT configuration *)

Lemma served_unused {Q : Quantities} {P : Platform} (this : PMTDecoder.t)
    (configByName : configByName_t) (boardSetup : BoardSetup_t.t) :
  hasPMTconfiguration this = false -> served this configByName boardSetup.
Proof.
  intros Hhas. unfold served. rewrite (boardInfo_of_unused _ _ _ Hhas).
  destruct (BoardSetup_t.hasFragmentID boardSetup); eexists; reflexivity.
Qed.

Lemma records_of_unused_hasFragmentID {Q : Quantities} {P : Platform}
    (this : PMTDecoder.t) (configByName : configByName_t)
    (boardSetup : BoardSetup_t.t) (i : BoardInfo_t.t) :
  hasPMTconfiguration this = false ->
  In i (records_of this configByName boardSetup) ->
  BoardSetup_t.hasFragmentID boardSetup = true.
Proof.
  intros Hhas. unfold records_of. rewrite (boardInfo_of_unused _ _ _ Hhas).
  destruct (BoardSetup_t.hasFragmentID boardSetup); simpl; [reflexivity|].
  intros [].
Qed.

(** ** The order of the board names *)

Lemma ascii_compare_refl (a : ascii) : Ascii.compare a a = Eq.
Proof. unfold Ascii.compare. apply N.compare_refl. Qed.

Lemma ascii_compare_Lt_trans (a b c : ascii) :
  Ascii.compare a b = Lt -> Ascii.compare b c = Lt -> Ascii.compare a c = Lt.
Proof. unfold Ascii.compare. rewrite !N.compare_lt_iff. apply N.lt_trans. Qed.

Lemma string_compare_refl (s : string) : String.compare s s = Eq.
Proof.
  induction s as [|a s IH]; simpl; [reflexivity|].
  now rewrite ascii_compare_refl.
Qed.

Lemma string_compare_Lt_trans (s1 : string) :
  forall s2 s3,
    String.compare s1 s2 = Lt -> String.compare s2 s3 = Lt ->
    String.compare s1 s3 = Lt.
Proof.
  induction s1 as [|a s1 IH]; intros [|b s2] [|c s3]; simpl;
    try easy.
  destruct (Ascii.compare a b) eqn:Hab, (Ascii.compare b c) eqn:Hbc;
    try easy; intros H12 H23.
  - apply Ascii.compare_eq_iff in Hab, Hbc. subst.
    rewrite ascii_compare_refl. now apply IH with s2.
  - apply Ascii.compare_eq_iff in Hab. subst. now rewrite Hbc.
  - apply Ascii.compare_eq_iff in Hbc. subst. now rewrite Hab.
  - now rewrite (ascii_compare_Lt_trans _ _ _ Hab Hbc).
Qed.

Lemma key_less_irrefl k : ~ key_less k k.
Proof.
  intros [H|[_ H]]; [|lia]. now rewrite string_compare_refl in H.
Qed.

Lemma key_less_trans k1 k2 k3 :
  key_less k1 k2 -> key_less k2 k3 -> key_less k1 k3.
Proof.
  intros [H12|[E12 H12]] [H23|[E23 H23]].
  - left. now apply string_compare_Lt_trans with (fst k2).
  - left. now rewrite <- E23.
  - left. now rewrite E12.
  - right. split; [congruence|lia].
Qed.

Lemma key_less_total k1 k2 : key_less k1 k2 \/ k1 = k2 \/ key_less k2 k1.
Proof.
  destruct k1 as [s1 n1], k2 as [s2 n2]. unfold key_less. simpl.
  destruct (String.compare s1 s2) eqn:Hc.
  - apply String.compare_eq_iff in Hc. subst.
    destruct (Nat.lt_total n1 n2) as [H|[->|H]]; auto.
  - auto.
  - right. right. left. rewrite String.compare_antisym, Hc. reflexivity.
Qed.

Lemma pair_less_key_less {Q : Quantities}
    (a b : string * (nat * V1730Configuration.t)) :
  pair_less a b = true <-> key_less (fst a, fst (snd a)) (fst b, fst (snd b)).
Proof.
  unfold pair_less, key_less, String.ltb. simpl.
  rewrite orb_true_iff, andb_true_iff, negb_true_iff, Nat.ltb_lt.
  destruct (String.compare (fst a) (fst b)) eqn:Hab.
  - apply String.compare_eq_iff in Hab. rewrite Hab, string_compare_refl.
    intuition congruence.
  - intuition congruence.
  - rewrite String.compare_antisym, Hab. simpl.
    split; [intuition congruence|].
    intros [H|[H _]]; [discriminate|].
    rewrite H, string_compare_refl in Hab. discriminate.
Qed.

Lemma pair_less_strict_weak_order {Q : Quantities} :
  strict_weak_order pair_less.
Proof.
  repeat split.
  - intros x. apply not_true_is_false. rewrite pair_less_key_less.
    apply key_less_irrefl.
  - intros x y z. rewrite !pair_less_key_less. apply key_less_trans.
  - intros x y z Hxy Hyz. apply not_true_is_false.
    rewrite pair_less_key_less. intros Hxz.
    apply not_true_iff_false in Hxy, Hyz.
    rewrite pair_less_key_less in Hxy, Hyz.
    destruct (key_less_total (fst x, fst (snd x)) (fst y, fst (snd y)))
      as [H|[H|H]]; [contradiction| |].
    + apply Hyz. now rewrite <- H.
    + apply Hyz. now apply key_less_trans with (fst x, fst (snd x)).
Qed.

(** ** Lookup by a key that identifies the element *)

Section Find.

Context {A : Type} (key : A -> string).

Lemma find_NoDup_In (l : list A) (e : A) :
  NoDup (map key l) -> In e l ->
  find (fun x => String.eqb (key x) (key e)) l = Some e.
Proof.
  induction l as [|a l IH]; simpl; [easy|].
  intros Hnodup Hin. inversion Hnodup as [|k ks Hnotin Hnodup']; subst.
  destruct (String.eqb_spec (key a) (key e)) as [Heq|Hneq].
  - destruct Hin as [->|Hin]; [reflexivity|].
    exfalso. apply Hnotin. rewrite Heq. now apply in_map.
  - destruct Hin as [->|Hin]; [contradiction|]. now apply IH.
Qed.

Lemma find_Permutation (l1 l2 : list A) (k : string) :
  NoDup (map key l1) -> Permutation l1 l2 ->
  find (fun x => String.eqb (key x) k) l1
  = find (fun x => String.eqb (key x) k) l2.
Proof.
  intros Hnodup Hperm.
  assert (Hnodup2 : NoDup (map key l2)).
  { eapply Permutation_NoDup; [|exact Hnodup]. now apply Permutation_map. }
  destruct (find (fun x => String.eqb (key x) k) l1) as [e|] eqn:H1.
  - apply find_some in H1. destruct H1 as [Hin Hk].
    apply String.eqb_eq in Hk. subst k. symmetry.
    apply find_NoDup_In; [exact Hnodup2|].
    now apply (Permutation_in _ Hperm).
  - destruct (find (fun x => String.eqb (key x) k) l2) as [e|] eqn:H2;
      [|reflexivity].
    apply find_some in H2. destruct H2 as [Hin Hk].
    apply (Permutation_in _ (Permutation_sym Hperm)) in Hin.
    now rewrite (find_none _ _ H1 _ Hin) in Hk.
Qed.

Lemma find_ext_in (B : Type) (f g : B -> bool) (l : list B) :
  (forall x, In x l -> f x = g x) -> find f l = find g l.
Proof.
  induction l as [|b l IH]; simpl; intros H; [reflexivity|].
  rewrite (H b) by now left. rewrite IH; [reflexivity|].
  intros x Hx. apply H. now right.
Qed.

Lemma find_map (B : Type) (f : B -> A) (l : list B) (k : string) :
  option_map f (find (fun x => String.eqb (key (f x)) k) l)
  = find (fun x => String.eqb (key x) k) (map f l).
Proof.
  induction l as [|b l IH]; simpl; [reflexivity|].
  now destruct (String.eqb (key (f b)) k).
Qed.

End Find.

(** Two sequences sorted by a key without repetition that hold the same
    elements are the same sequence. *)
Lemma StronglySorted_Permutation_eq (A : Type) (key : A -> Z) (l1 : list A) :
  forall l2,
    Permutation l1 l2 ->
    StronglySorted (fun a b => key a <= key b) l1 ->
    StronglySorted (fun a b => key a <= key b) l2 ->
    NoDup (map key l1) ->
    l1 = l2.
Proof.
  induction l1 as [|x l1 IH]; intros l2 Hperm Hs1 Hs2 Hnodup.
  - apply Permutation_nil in Hperm. now subst.
  - destruct l2 as [|y l2].
    { apply Permutation_sym, Permutation_nil in Hperm. discriminate. }
    inversion Hs1 as [|? ? Hs1' Hall1]; subst.
    inversion Hs2 as [|? ? Hs2' Hall2]; subst.
    inversion Hnodup as [|? ? Hnotin Hnodup']; subst.
    assert (Hxy : x = y).
    { assert (Hx : In x (y :: l2))
        by (apply (Permutation_in _ Hperm); now left).
      assert (Hy : In y (x :: l1))
        by (apply (Permutation_in _ (Permutation_sym Hperm)); now left).
      destruct Hx as [Hx|Hx]; [now subst|].
      destruct Hy as [Hy|Hy]; [now subst|].
      exfalso. apply Hnotin.
      rewrite Forall_forall in Hall1, Hall2.
      specialize (Hall1 _ Hy). specialize (Hall2 _ Hx).
      replace (key x) with (key y) by lia. now apply in_map. }
    subst y. f_equal.
    apply IH; auto. now apply Permutation_cons_inv with x.
Qed.

(** ** The dictionary of the board configurations *)

Section Dictionary.

Context {Q : Quantities} {S : StdAlgorithm}.

Lemma combine_seq_snd (A : Type) (l : list A) (start : nat) :
  map snd (combine (seq start (List.length l)) l) = l.
Proof.
  revert start. induction l as [|a l IH]; intros start; simpl;
    [reflexivity|]. now rewrite IH.
Qed.

(** With distinct board names the dictionary gives the board of the
    requested name, wherever it stands in the PMT configuration. *)
Lemma configuration_of_find (boards : list V1730Configuration.t)
    (name : string) :
  NoDup (map V1730Configuration.boardName boards) ->
  configuration_of (Some (PMTconfiguration.mk boards)) name
  = find (fun b => String.eqb (V1730Configuration.boardName b) name) boards.
Proof.
  intros Hnodup. unfold configuration_of, configByName_of, binarySearch.
  cbv zeta. simpl PMTconfiguration.boards.
  set (entries := map (fun p => (V1730Configuration.boardName (snd p), p))
                      (combine (seq 0 (List.length boards)) boards)).
  pose proof (std_sort_Permutation entries pair_less_strict_weak_order)
    as Hperm.
  assert (Hkeys : Forall (fun e => fst e
                                   = V1730Configuration.boardName (snd (snd e)))
                         (std_sort pair_less entries)).
  { apply (Permutation_Forall Hperm). unfold entries.
    apply Forall_forall. intros e He. apply in_map_iff in He.
    now destruct He as (p & <- & _). }
  rewrite (@find_ext_in _ (fun e => String.eqb (fst e) name)
             (fun e => String.eqb
                         (V1730Configuration.boardName (snd (snd e))) name)).
  2:{ rewrite Forall_forall in Hkeys. intros e He. now rewrite (Hkeys e He). }
  rewrite (find_map V1730Configuration.boardName (fun e => snd (snd e))).
  symmetry. apply find_Permutation; [exact Hnodup|].
  eapply perm_trans; [|apply Permutation_map; exact Hperm].
  unfold entries. rewrite map_map. simpl.
  now rewrite <- (map_map snd (fun x => x)), combine_seq_snd, map_id.
Qed.

Lemma configuration_of_Permutation (boards1 boards2 : list V1730Configuration.t)
    (name : string) :
  NoDup (map V1730Configuration.boardName boards1) ->
  Permutation boards1 boards2 ->
  configuration_of (Some (PMTconfiguration.mk boards1)) name
  = configuration_of (Some (PMTconfiguration.mk boards2)) name.
Proof.
  intros Hnodup Hperm. rewrite !configuration_of_find; auto.
  - now apply find_Permutation.
  - eapply Permutation_NoDup; [|exact Hnodup]. now apply Permutation_map.
Qed.

End Dictionary.

(** ** The loop body and the dictionary *)

(** The loop body depends on the dictionary through the configuration it
    gives for the name of the board. *)
Lemma boardInfo_of_configuration_of {Q : Quantities} {S : StdAlgorithm}
    {P : Platform} (this : PMTDecoder.t)
    (PMTconfig1 PMTconfig2 : option PMTconfiguration.t)
    (boardSetup : BoardSetup_t.t) :
  configuration_of PMTconfig1 (BoardSetup_t.name boardSetup)
  = configuration_of PMTconfig2 (BoardSetup_t.name boardSetup) ->
  boardInfo_of this (configByName_of PMTconfig1) boardSetup
  = boardInfo_of this (configByName_of PMTconfig2) boardSetup.
Proof.
  unfold configuration_of, boardInfo_of, findPMTconfig. cbv zeta.
  destruct (hasPMTconfiguration this); simpl; [|reflexivity].
  destruct (binarySearch String.eqb fst (configByName_of PMTconfig1)
              (BoardSetup_t.name boardSetup)) as [p1|];
    destruct (binarySearch String.eqb fst (configByName_of PMTconfig2)
                (BoardSetup_t.name boardSetup)) as [p2|];
    simpl; intros H; try discriminate H.
  - injection H as H. destruct (PMTDecoder.fRequireKnownBoards this); simpl;
      now rewrite H.
  - reflexivity.
Qed.

Lemma configuration_of_same_boards {Q : Quantities} {S : StdAlgorithm}
    (PMTconfig1 PMTconfig2 : option PMTconfiguration.t) (name : string) :
  same_boards PMTconfig1 PMTconfig2 ->
  distinct_board_names PMTconfig1 ->
  configuration_of PMTconfig1 name = configuration_of PMTconfig2 name.
Proof.
  destruct PMTconfig1 as [[boards1]|], PMTconfig2 as [[boards2]|]; simpl;
    try easy.
  intros Hperm Hnodup. now apply configuration_of_Permutation.
Qed.

(** ** Machine integers *)

Lemma uint16_range (x : Z) : 0 <= uint16 x < 2 ^ 16.
Proof. unfold uint16. apply Z.mod_pos_bound. lia. Qed.

Lemma uint32_small (x : Z) : 0 <= x < 2 ^ 32 -> uint32 x = x.
Proof. unfold uint32. apply Z.mod_small. Qed.

Lemma size_t_small (x : Z) : 0 <= x < 2 ^ 64 -> size_t x = x.
Proof. unfold size_t. apply Z.mod_small. Qed.

Lemma fragment_id_fragmentID (f : Fragment.t) :
  fragment_id f = Fragment.fragmentID f.
Proof.
  unfold fragment_id, Fragment.fragmentID. apply size_t_small.
  pose proof (uint16_range (Fragment.header_fragment_id f)). lia.
Qed.

Lemma uint32_fragment_id (f : Fragment.t) :
  uint32 (fragment_id f) = Fragment.fragmentID f.
Proof.
  rewrite fragment_id_fragmentID. apply uint32_small.
  unfold Fragment.fragmentID.
  pose proof (uint16_range (Fragment.header_fragment_id f)). lia.
Qed.

(** Without wrap-around the number of samples per channel is the floor of
    twice the number of words after the header over the number of
    channels. *)
Lemma nSamplesPerChannel_floor {P : Platform} (f : Fragment.t) :
  0 <= evt_header_words <= Fragment.eventSize f ->
  Fragment.eventSize f < 2 ^ 31 ->
  0 < Fragment.nChannels f < 2 ^ 32 ->
  uint32 (data_size_double_bytes f / nChannelsPerBoard f)
  = (Fragment.eventSize f - evt_header_words) * 2 / Fragment.nChannels f.
Proof.
  intros Hhdr Hev Hnch.
  unfold data_size_double_bytes, nChannelsPerBoard, ev_size_quad_bytes,
    evt_header_size_quad_bytes.
  rewrite (uint32_small (x := Fragment.eventSize f)) by lia.
  rewrite (uint32_small (x := evt_header_words)) by lia.
  rewrite (uint32_small (x := Fragment.eventSize f - evt_header_words)) by lia.
  rewrite (uint32_small (x := 2 * _)) by lia.
  rewrite (uint32_small (x := Fragment.nChannels f)) by lia.
  rewrite (size_t_small (x := Fragment.nChannels f)) by lia.
  rewrite (Z.mul_comm 2). apply uint32_small. split.
  - apply Z.div_pos; lia.
  - apply Z.le_lt_trans with ((Fragment.eventSize f - evt_header_words) * 2);
      [|lia].
    apply Z.div_le_upper_bound; nia.
Qed.

(** ** Decoding of a fragment *)

Section Decoding.

Context {Q : Quantities} {S : StdAlgorithm} {P : Platform}.

Lemma fetchNeededBoardInfo_terms (boardInfo : option BoardInfo_t.t)
    (fragmentID : Z) :
  fetchNeededBoardInfo boardInfo fragmentID
  = NeededBoardInfo_t.mk (displayName_of boardInfo fragmentID)
      (preTriggerDuration_of boardInfo) (triggerDelay_of boardInfo).
Proof.
  destruct boardInfo as [[id [s|] [c|] facts]|]; reflexivity.
Qed.

Lemma findBoardInfo_fragmentID (lookup : BoardInfoLookup.t) (fragmentID : Z)
    (i : BoardInfo_t.t) :
  BoardInfoLookup.findBoardInfo lookup fragmentID = Some i ->
  BoardInfo_t.fragmentID i = fragmentID /\
  In i (BoardInfoLookup.fDatabase lookup).
Proof.
  unfold BoardInfoLookup.findBoardInfo, binarySearch. intros H.
  apply find_some in H. destruct H as [Hin Heq].
  apply Z.eqb_eq in Heq. now split.
Qed.

Lemma fragmentTimeStamp_served (this : PMTDecoder.t)
    (lookup : BoardInfoLookup.t) (fragment_id : Z) :
  PMTDecoder.fBoardInfoLookup this = Some lookup ->
  let boardInfo := BoardInfoLookup.findBoardInfo lookup fragment_id in
  (boardInfo = None -> PMTDecoder.fRequireKnownBoards this = false) ->
  (forall i, boardInfo = Some i -> BoardInfo_t.setup i = None ->
             NDEBUG = true) ->
  outcome (fragmentTimeStamp this fragment_id)
  = Normal (fetchNeededBoardInfo boardInfo (uint32 fragment_id),
            timeStamp_of this boardInfo).
Proof.
  intros Hlookup boardInfo Hknown Hsetup.
  unfold fragmentTimeStamp. rewrite Hlookup. bind_ret.
  fold boardInfo. rewrite fetchNeededBoardInfo_terms. simpl.
  destruct boardInfo as [i|] eqn:Hinfo.
  - apply findBoardInfo_fragmentID in Hinfo. destruct Hinfo as [Hid _].
    unfold assert. rewrite Hid, Z.eqb_refl, orb_true_r. bind_ret.
    destruct (BoardInfo_t.setup i) as [s|] eqn:Hs.
    + rewrite orb_true_r. bind_ret. reflexivity.
    + rewrite (Hsetup i eq_refl Hs). reflexivity.
  - rewrite (Hknown eq_refl). reflexivity.
Qed.

Lemma emplaceWaveforms_outcome (timeStamp : electronics_time)
    (n : Z) (data : list Z) (digitizerChannelVec : list (Z * Z)) :
  Forall (within_data n data) digitizerChannelVec ->
  forall c,
    outcome (emplaceWaveforms timeStamp n data digitizerChannelVec (Some c))
    = Normal (Some (c ++ map (channelWaveform timeStamp n data)
                             digitizerChannelVec)).
Proof.
  induction 1 as [|[digitizerChannel channelID] vec Hin _ IH]; intros c;
    simpl.
  - now rewrite app_nil_r.
  - unfold copy_n. unfold within_data in Hin. simpl in Hin.
    apply Z.leb_le in Hin. rewrite Hin. bind_ret.
    match goal with
    | |- context [emplaceWaveforms ?t ?m ?d ?v (Some ?x)] =>
        specialize (IH x);
        destruct (emplaceWaveforms t m d v (Some x)) as [lg r]
    end.
    unfold outcome in *. simpl in *. rewrite IH, <- app_assoc. reflexivity.
Qed.

Lemma process_fragment_outcome (this : PMTDecoder.t) (f : Fragment.t)
    (lookup : BoardInfoLookup.t) (c : list OpDetWaveform.t) :
  nChannelsPerBoard f <> 0 ->
  hasPMTDigitizerID (PMTDecoder.fChannelMap this) (eff_fragment_id f) = true ->
  PMTDecoder.fBoardInfoLookup this = Some lookup ->
  let boardInfo := BoardInfoLookup.findBoardInfo lookup (fragment_id f) in
  (boardInfo = None -> PMTDecoder.fRequireKnownBoards this = false) ->
  (forall i, boardInfo = Some i -> BoardInfo_t.setup i = None ->
             NDEBUG = true) ->
  PMTDecoder.fOpDetWaveformCollection this = Some c ->
  let n := uint32 (data_size_double_bytes f / nChannelsPerBoard f) in
  let digitizerChannelVec :=
    getChannelIDPairVec (PMTDecoder.fChannelMap this) (eff_fragment_id f) in
  Forall (within_data n (Fragment.data f)) digitizerChannelVec ->
  outcome (process_fragment this f)
  = Normal (PMTDecoder.set_fOpDetWaveformCollection this
              (Some (c ++ map (channelWaveform (timeStamp_of this boardInfo) n
                                 (Fragment.data f))
                              digitizerChannelVec))).
Proof.
  intros Hnch Hmap Hlookup boardInfo Hknown Hsetup Hcoll n vec Hdata.
  unfold process_fragment, nSamplesPerChannel.
  apply Z.eqb_neq in Hnch. rewrite Hnch. bind_ret.
  fold n. rewrite Hmap, Hlookup, Hcoll.
  erewrite outcome_bind_Normal
    by (destruct (PMTDecoder.fDiagnosticOutput this); reflexivity).
  erewrite outcome_bind_Normal.
  2:{ unfold assert. rewrite orb_true_r. bind_ret.
      erewrite outcome_bind_Normal
        by (apply (fragmentTimeStamp_served _ _ Hlookup Hknown Hsetup)).
      simpl snd. apply emplaceWaveforms_outcome. exact Hdata. }
  destruct (PMTDecoder.fDiagnosticOutput this); reflexivity.
Qed.

End Decoding.

(** ** The final order of the waveforms *)

Lemma channel_less_strict_weak_order {Q : Quantities} :
  strict_weak_order channel_less.
Proof.
  unfold channel_less. repeat split; intros *.
  - apply Z.ltb_irrefl.
  - rewrite !Z.ltb_lt. lia.
  - rewrite !Z.ltb_ge. lia.
Qed.

Lemma outputDataProducts_sorted {Q : Quantities} {S : StdAlgorithm}
    (this : PMTDecoder.t) (c : list OpDetWaveform.t) :
  PMTDecoder.fOpDetWaveformCollection this = Some c ->
  exists sorted,
    outputDataProducts this
    = ([], Normal (PMTDecoder.set_fOpDetWaveformCollection this None, sorted)) /\
    Permutation c sorted /\
    StronglySorted
      (fun a b => OpDetWaveform.ChannelNumber a <= OpDetWaveform.ChannelNumber b)
      sorted.
Proof.
  intros Hcoll. unfold outputDataProducts. rewrite Hcoll.
  eexists. split; [reflexivity|]. split.
  - apply std_sort_Permutation, channel_less_strict_weak_order.
  - eapply StronglySorted_weaken;
      [|apply std_sort_Sorted, channel_less_strict_weak_order].
    unfold channel_less. intros a b. rewrite Z.ltb_ge. lia.
Qed.



(** * Part V: the claims *)

(** ** C1: order and uniqueness of the fragment IDs of the database *)




(** ** C2: number of samples per channel *)

(** C2 (as amended): the number of samples per channel is the quotient,
    rounded down, of twice the number of 32-bit words after the event
    header by the number of channels (in 32-bit unsigned arithmetic); a
    remainder raises no error and is dropped: whenever the board is served
    by the channel map, known to the database (or unknown boards are
    accepted) and the channels lie within the data, the fragment is decoded
    normally into one waveform of that many samples for each channel. *)
Theorem samples_per_channel_rounded_down {Q : Quantities} {S : StdAlgorithm}
    {P : Platform} (this : PMTDecoder.t) (f : Fragment.t)
    (lookup : BoardInfoLookup.t) (c : list OpDetWaveform.t) :
  nChannelsPerBoard f <> 0 ->
  hasPMTDigitizerID (PMTDecoder.fChannelMap this) (eff_fragment_id f) = true ->
  PMTDecoder.fBoardInfoLookup this = Some lookup ->
  let boardInfo := BoardInfoLookup.findBoardInfo lookup (fragment_id f) in
  (boardInfo = None -> PMTDecoder.fRequireKnownBoards this = false) ->
  (forall i, boardInfo = Some i -> BoardInfo_t.setup i = None ->
             NDEBUG = true) ->
  PMTDecoder.fOpDetWaveformCollection this = Some c ->
  let n := uint32 (data_size_double_bytes f / nChannelsPerBoard f) in
  let digitizerChannelVec :=
    getChannelIDPairVec (PMTDecoder.fChannelMap this) (eff_fragment_id f) in
  Forall (within_data n (Fragment.data f)) digitizerChannelVec ->
  outcome (nSamplesPerChannel f) = Normal n /\
  (0 <= evt_header_words <= Fragment.eventSize f ->
   Fragment.eventSize f < 2 ^ 31 ->
   0 < Fragment.nChannels f < 2 ^ 32 ->
   n = (Fragment.eventSize f - evt_header_words) * 2 / Fragment.nChannels f) /\
  exists waveforms,
    outcome (process_fragment this f)
    = Normal (PMTDecoder.set_fOpDetWaveformCollection this
                (Some (c ++ waveforms))) /\
    map OpDetWaveform.ChannelNumber waveforms
    = map (fun channel => uint32 (snd channel)) digitizerChannelVec /\
    Forall (fun w => Z.of_nat (List.length (OpDetWaveform.Waveform w)) = n)
           waveforms.
Proof.
  intros Hnch Hmap Hlookup boardInfo Hknown Hsetup Hcoll n vec Hdata.
  split; [|split].
  - unfold nSamplesPerChannel. apply Z.eqb_neq in Hnch. now rewrite Hnch.
  - apply nSamplesPerChannel_floor.
  - eexists. split; [|split].
    + now apply (process_fragment_outcome _ _ Hnch Hmap Hlookup Hknown Hsetup
                   Hcoll).
    + rewrite map_map. reflexivity.
    + apply Forall_map. eapply Forall_impl; [|exact Hdata].
      intros [digitizerChannel channelID]. unfold within_data. simpl.
      fold n. intros Hin.
      assert (0 <= n) by (unfold n, uint32; apply Z.mod_pos_bound; lia).
      assert (0 <= size_t (digitizerChannel * n))
        by (unfold size_t; apply Z.mod_pos_bound; lia).
      rewrite length_firstn, length_skipn. lia.
Qed.

Lemma samples_per_channel_rounded_down_witness :
  let f := example_fragment in
  outcome (nSamplesPerChannel f) = Normal 4 /\
  exists waveforms,
    outcome (process_fragment online_monitor f)
    = Normal (PMTDecoder.set_fOpDetWaveformCollection online_monitor
                (Some ([] ++ waveforms))) /\
    map OpDetWaveform.ChannelNumber waveforms = [101; 102] /\
    Forall (fun w => Z.of_nat (List.length (OpDetWaveform.Waveform w)) = 4)
           waveforms.
Proof.
  cbv zeta.
  pose proof (@samples_per_channel_rounded_down _ _ _ online_monitor
                example_fragment
                (BoardInfoLookup.mk []) []) as H.
  cbv zeta in H.
  destruct H as (Hn & _ & Hw).
  - vm_compute. discriminate.
  - reflexivity.
  - reflexivity.
  - reflexivity.
  - intros i Hi. discriminate Hi.
  - reflexivity.
  - repeat constructor; vm_compute; discriminate.
  - split; [exact Hn|exact Hw].
Defined.

(** C2 fails as stated: ten 16-bit words do not divide evenly by four
    channels; the fragment is decoded without error into waveforms of two
    samples. *)
Lemma uneven_fragment_is_decoded :
  let f := uneven_fragment in
  data_size_double_bytes f = 10 /\
  nChannelsPerBoard f = 4 /\
  data_size_double_bytes f mod nChannelsPerBoard f <> 0 /\
  outcome (nSamplesPerChannel f) = Normal 2 /\
  (exists this, outcome (process_fragment online_monitor f) = Normal this) /\
  waveforms_of (process_fragment online_monitor f)
  = [OpDetWaveform.mk (1000 : @electronics_time exact_nanoseconds) 101 [1; 2];
     OpDetWaveform.mk (1000 : @electronics_time exact_nanoseconds) 102 [3; 4]].
Proof.
  cbv zeta. repeat split; try (vm_compute; discriminate).
  eexists. vm_compute. reflexivity.
Qed.

(** ** C3: independence of the order of the input *)




(** ** C4: conflicting fragment IDs *)

(** C4 (as amended): a setup entry whose board has a configuration and
    whose own fragment ID is set and differs from the configured one makes
    the loop body throw the fragment ID mismatch, so that the matching
    returns no database; the matching itself throws that mismatch when the
    setup entries before it are served without failure (an earlier failure
    is the one reported). *)
Theorem fragment_ID_mismatch_is_fatal {Q : Quantities} {S : StdAlgorithm}
    {P : Platform} (this : PMTDecoder.t) (PMTconfig : option PMTconfiguration.t)
    (pre post : list BoardSetup_t.t) (boardSetup : BoardSetup_t.t)
    (p : string * (nat * V1730Configuration.t)) :
  PMTDecoder.fBoardSetup this = pre ++ boardSetup :: post ->
  hasPMTconfiguration this = true ->
  binarySearch String.eqb fst (configByName_of PMTconfig)
    (BoardSetup_t.name boardSetup) = Some p ->
  BoardSetup_t.hasFragmentID boardSetup = true ->
  BoardSetup_t.fragmentID boardSetup
  <> V1730Configuration.fragmentID (snd (snd p)) ->
  let mismatch :=
    FragmentIDMismatch (BoardSetup_t.name boardSetup)
      (V1730Configuration.fragmentID (snd (snd p)))
      (BoardSetup_t.fragmentID boardSetup) in
  outcome (boardInfo_of this (configByName_of PMTconfig) boardSetup)
  = Throw mismatch /\
  (forall lookup,
      outcome (matchBoardConfigurationAndSetup this PMTconfig)
      <> Normal lookup) /\
  (Forall (served this (configByName_of PMTconfig)) pre ->
   outcome (matchBoardConfigurationAndSetup this PMTconfig) = Throw mismatch).
Proof.
  intros Hsetups Hhas Hfind Hset Hdiff mismatch.
  assert (Hbody : boardInfo_of this (configByName_of PMTconfig) boardSetup
                  = ([], Throw mismatch)).
  { rewrite (boardInfo_of_found _ _ _ Hhas Hfind). cbv zeta.
    rewrite Hset. apply Z.eqb_neq in Hdiff. now rewrite Hdiff. }
  split; [now rewrite Hbody|]. split.
  - intros lookup Hnormal.
    destruct (matchBoardConfigurationAndSetup this PMTconfig) as [lg r] eqn:Hm.
    unfold outcome in Hnormal. simpl in Hnormal. subst r.
    apply matchBoardConfigurationAndSetup_Normal_inv in Hm.
    rewrite Hsetups in Hm. apply Forall_app in Hm. destruct Hm as [_ Hm].
    apply Forall_inv in Hm. destruct Hm as [info Hinfo].
    now rewrite Hbody in Hinfo.
  - intros Hpre. unfold matchBoardConfigurationAndSetup.
    rewrite Hsetups, (fillBoardInfo_Throw post _ Hpre Hbody). reflexivity.
Qed.

Lemma fragment_ID_mismatch_is_fatal_witness :
  outcome (matchBoardConfigurationAndSetup
             (default_decoder [setup_with_ID "icaruspmtwwtop01" 8194 43])
             (Some (PMTconfiguration.mk [board_config "icaruspmtwwtop01" 8195])))
  = Throw (FragmentIDMismatch "icaruspmtwwtop01" 8195 8194).
Proof.
  apply (@fragment_ID_mismatch_is_fatal _ _ _
           (default_decoder [setup_with_ID "icaruspmtwwtop01" 8194 43])
           (Some (PMTconfiguration.mk [board_config "icaruspmtwwtop01" 8195]))
           [] []
           (convert (setup_with_ID "icaruspmtwwtop01" 8194 43))
           ("icaruspmtwwtop01"%string,
            (0%nat, board_config "icaruspmtwwtop01" 8195))).
  - reflexivity.
  - reflexivity.
  - reflexivity.
  - reflexivity.
  - vm_compute. discriminate.
  - constructor.
Defined.

(** C4 fails as stated: the second setup entry conflicts with the
    configuration of its board, and the matching does not throw a fragment
    ID mismatch but the missing configuration of the first entry. *)
Lemma fragment_ID_mismatch_not_reported :
  let setups := [setup_without_ID "icaruspmtwwtop02";
                 setup_with_ID "icaruspmtwwtop01" 8194 43] in
  let this := default_decoder setups in
  let PMTconfig := Some (PMTconfiguration.mk [board_config "icaruspmtwwtop01" 8195]) in
  let boardSetup := convert (setup_with_ID "icaruspmtwwtop01" 8194 43) in
  In boardSetup (PMTDecoder.fBoardSetup this) /\
  binarySearch String.eqb fst (configByName_of PMTconfig)
    (BoardSetup_t.name boardSetup)
  = Some ("icaruspmtwwtop01"%string, (0%nat, board_config "icaruspmtwwtop01" 8195)) /\
  BoardSetup_t.hasFragmentID boardSetup = true /\
  BoardSetup_t.fragmentID boardSetup <> 8195 /\
  outcome (matchBoardConfigurationAndSetup this PMTconfig)
  = Throw (NoDAQConfiguration "icaruspmtwwtop02").
Proof.
  cbv zeta. repeat split.
  - right. left. reflexivity.
  - vm_compute. discriminate.
Qed.

(** ** C5: the time stamp of the waveforms *)



(** ** C6: the flag [RequireBoardConfig] *)

(** C6: [RequireBoardConfig] has no effect on the matching of setup and
    configuration, which gives the same result for either value of the
    flag; a board of the setup that is missing in the PMT configuration is
    fatal with [RequireBoardConfig: false] (and [RequireKnownBoards] at its
    default), the flag that decides being [RequireKnownBoards]. *)
Theorem RequireBoardConfig_is_not_consulted :
  (forall (Q : Quantities) (S : StdAlgorithm) (P : Platform)
          (this : PMTDecoder.t) (b : bool) (PMTconfig : option PMTconfiguration.t),
      matchBoardConfigurationAndSetup
        (PMTDecoder.set_fRequireBoardConfig this b) PMTconfig
      = matchBoardConfigurationAndSetup this PMTconfig) /\
  (let this := optional_config_decoder [setup_without_ID "icaruspmtwwtop01"] in
   let run := run_with [board_config "icaruspmtwwtop02" 8195] in
   PMTDecoder.fRequireBoardConfig this = false /\
   setupRun this run
   = ([], Throw (NoDAQConfiguration "icaruspmtwwtop01"))).
Proof.
  split.
  - intros. unfold matchBoardConfigurationAndSetup. simpl.
    now rewrite (fillBoardInfo_ext
                   (PMTDecoder.set_fRequireBoardConfig this b) this).
  - cbv zeta. split; vm_compute; reflexivity.
Qed.

(** ** C7: fragments of unknown boards *)



(** ** C8: the waveforms of a fragment and their final order *)




(** ** C9: board setups without fragment ID *)




(** ** C10: the lookup of the board configuration *)

(** C10: with a PMT configuration in use that has no board of the
    requested name and [RequireKnownBoards: false], the lookup
    [findPMTconfig] neither throws nor returns a null pointer: it reaches
    [ppBoardConfig->second] with [ppBoardConfig] null; with the setup of a
    board that the PMT configuration of the run does not hold, so does the
    matching of setup and configuration as a whole. *)
Theorem findPMTconfig_dereferences_null :
  (forall (Q : Quantities) (P : Platform) (this : PMTDecoder.t)
          (configByName : configByName_t) (name : string),
      hasPMTconfiguration this = true ->
      PMTDecoder.fRequireKnownBoards this = false ->
      binarySearch String.eqb fst configByName name = None ->
      findPMTconfig this configByName name
      = ([], Undefined NullDereference)) /\
  (let this := lenient_decoder [setup_without_ID "icaruspmtwwtop01"] in
   let PMTconfig :=
     Some (PMTconfiguration.mk [board_config "icaruspmtwwtop02" 8195]) in
   hasPMTconfiguration this = true /\
   PMTDecoder.fRequireKnownBoards this = false /\
   binarySearch String.eqb fst (configByName_of PMTconfig)
     "icaruspmtwwtop01"%string
   = None /\
   findPMTconfig this (configByName_of PMTconfig) "icaruspmtwwtop01"
   = ([], Undefined NullDereference) /\
   outcome (matchBoardConfigurationAndSetup this PMTconfig)
   = Undefined NullDereference).
Proof.
  split.
  - intros Q P this configByName name Hhas Hlenient Hfind.
    rewrite (findPMTconfig_missing _ _ _ Hhas Hfind). now rewrite Hlenient.
  - cbv zeta. repeat split; vm_compute; reflexivity.
Qed.


(** * Part VI: further properties of the decoder *)

(** ** Outcomes and messages of a sequence *)

Section Sequences.

Context {Q : Quantities}.

Lemma outcome_bind (A B : Type) (c : M A) (k : A -> M B) :
  outcome (bind c k)
  = match outcome c with
    | Normal a => outcome (k a)
    | Throw e => Throw e
    | Undefined u => Undefined u
    | Aborted => Aborted
    end.
Proof.
  destruct c as [lg [a|e|u|]]; simpl; try reflexivity.
  unfold outcome. simpl. now destruct (k a).
Qed.

Lemma messages_bind (A B : Type) (c : M A) (k : A -> M B) :
  messages (bind c k)
  = messages c ++ match outcome c with
                  | Normal a => messages (k a)
                  | _ => []
                  end.
Proof.
  destruct c as [lg [a|e|u|]]; simpl; try (now rewrite app_nil_r).
  unfold messages. simpl. now destruct (k a).
Qed.

End Sequences.

(** ** The outcomes of the parts of [process_fragment] *)

Section FragmentOutcomes.

Context {Q : Quantities} {S : StdAlgorithm} {P : Platform}.

(** One turn of the loop on the channels. *)
Lemma emplaceWaveforms_cons (timeStamp : electronics_time) (n : Z)
    (data : list Z) (channel : Z * Z) (rest : list (Z * Z))
    (collection : option (list OpDetWaveform.t)) :
  outcome (emplaceWaveforms timeStamp n data (channel :: rest) collection)
  = if size_t (fst channel * n) + n <=? Z.of_nat (List.length data)
    then match collection with
         | Some c =>
             outcome (emplaceWaveforms timeStamp n data rest
                        (Some (c ++ [channelWaveform timeStamp n data channel])))
         | None => Undefined NullDereference
         end
    else Undefined OutOfBoundsRead.
Proof.
  destruct channel as [digitizerChannel channelID]. simpl. unfold copy_n.
  destruct (size_t (digitizerChannel * n) + n <=? Z.of_nat (List.length data));
    [|reflexivity].
  destruct collection as [c|]; [|reflexivity].
  unfold channelWaveform. simpl.
  now destruct (emplaceWaveforms timeStamp n data rest _).
Qed.

(** The loop on the channels ends normally or in one of two undefined
    behaviours. *)
Lemma emplaceWaveforms_outcomes (timeStamp : electronics_time) (n : Z)
    (data : list Z) (digitizerChannelVec : list (Z * Z)) :
  forall collection,
    (exists collection',
        outcome (emplaceWaveforms timeStamp n data digitizerChannelVec collection)
        = Normal collection' /\
        Forall (within_data n data) digitizerChannelVec /\
        match collection with
        | Some c =>
            collection'
            = Some (c ++ map (channelWaveform timeStamp n data)
                             digitizerChannelVec)
        | None => digitizerChannelVec = [] /\ collection' = None
        end) \/
    (outcome (emplaceWaveforms timeStamp n data digitizerChannelVec collection)
     = Undefined OutOfBoundsRead /\
     exists pre channel post,
       digitizerChannelVec = pre ++ channel :: post /\
       Forall (within_data n data) pre /\
       ~ within_data n data channel /\
       (pre <> [] -> collection <> None)) \/
    (outcome (emplaceWaveforms timeStamp n data digitizerChannelVec collection)
     = Undefined NullDereference /\
     collection = None /\
     exists channel rest,
       digitizerChannelVec = channel :: rest /\ within_data n data channel).
Proof.
  induction digitizerChannelVec as [|channel vec IH]; intros collection.
  - left. exists collection. split; [reflexivity|]. split; [constructor|].
    destruct collection; [now rewrite app_nil_r|now split].
  - rewrite emplaceWaveforms_cons.
    destruct (size_t (fst channel * n) + n <=? Z.of_nat (List.length data))
      eqn:Hin.
    + apply Z.leb_le in Hin.
      destruct collection as [c|].
      * destruct (IH (Some (c ++ [channelWaveform timeStamp n data channel])))
          as [(coll' & Hout & Hall & Hcoll)
             |[(Hout & pre & ch & post & Hvec & Hpre & Hch & _)
              |(_ & Hnone & _)]].
        -- left. exists coll'. split; [exact Hout|]. split.
           ++ constructor; [exact Hin|exact Hall].
           ++ rewrite Hcoll, <- app_assoc. reflexivity.
        -- right. left. split; [exact Hout|].
           exists (channel :: pre), ch, post.
           split; [now rewrite Hvec|]. split.
           ++ constructor; [exact Hin|exact Hpre].
           ++ split; [exact Hch|]. intros _. discriminate.
        -- discriminate Hnone.
      * right. right. split; [reflexivity|]. split; [reflexivity|].
        exists channel, vec. split; [reflexivity|]. exact Hin.
    + right. left. split; [reflexivity|].
      exists [], channel, vec.
      split; [reflexivity|]. split; [constructor|]. split.
      * unfold within_data. apply Z.leb_gt in Hin. lia.
      * intros H. now elim H.
Qed.

(** The time stamp of a fragment: the four outcomes. *)
Lemma fragmentTimeStamp_outcomes (this : PMTDecoder.t) (fragment_id : Z) :
  outcome (fragmentTimeStamp this fragment_id)
  = match PMTDecoder.fBoardInfoLookup this with
    | None => Undefined EmptyOptional
    | Some lookup =>
        let boardInfo := BoardInfoLookup.findBoardInfo lookup fragment_id in
        match boardInfo with
        | None =>
            if PMTDecoder.fRequireKnownBoards this
            then Throw (NoBoardInformation fragment_id
                          (negb (hasPMTconfiguration this)))
            else Normal (fetchNeededBoardInfo boardInfo (uint32 fragment_id),
                         timeStamp_of this boardInfo)
        | Some i =>
            if NDEBUG
               || match BoardInfo_t.setup i with
                  | Some _ => true
                  | None => false
                  end
            then Normal (fetchNeededBoardInfo boardInfo (uint32 fragment_id),
                         timeStamp_of this boardInfo)
            else Aborted
        end
    end.
Proof.
  unfold fragmentTimeStamp.
  destruct (PMTDecoder.fBoardInfoLookup this) as [lookup|]; [|reflexivity].
  bind_ret. cbv zeta.
  destruct (BoardInfoLookup.findBoardInfo lookup fragment_id) as [i|] eqn:Hfind.
  - apply findBoardInfo_fragmentID in Hfind. destruct Hfind as [Hid _].
    unfold assert. rewrite Hid, Z.eqb_refl, orb_true_r. bind_ret.
    rewrite fetchNeededBoardInfo_terms.
    destruct (NDEBUG || match BoardInfo_t.setup i with
                        | Some _ => true
                        | None => false
                        end); reflexivity.
  - rewrite fetchNeededBoardInfo_terms.
    destruct (PMTDecoder.fRequireKnownBoards this); reflexivity.
Qed.

(** [process_fragment] in terms of the outcomes of its parts. *)
Lemma process_fragment_outcomes (this : PMTDecoder.t) (f : Fragment.t) :
  outcome (process_fragment this f)
  = if nChannelsPerBoard f =? 0 then Undefined DivisionByZero
    else
      and_then
        (if hasPMTDigitizerID (PMTDecoder.fChannelMap this) (eff_fragment_id f)
         then
           match PMTDecoder.fBoardInfoLookup this with
           | None => if NDEBUG then Undefined EmptyOptional else Aborted
           | Some _ =>
               and_then (outcome (fragmentTimeStamp this (fragment_id f)))
                 (fun r =>
                    outcome
                      (emplaceWaveforms (snd r)
                         (uint32 (data_size_double_bytes f
                                  / nChannelsPerBoard f))
                         (Fragment.data f)
                         (getChannelIDPairVec (PMTDecoder.fChannelMap this)
                            (eff_fragment_id f))
                         (PMTDecoder.fOpDetWaveformCollection this)))
           end
         else Normal (PMTDecoder.fOpDetWaveformCollection this))
        (fun collection =>
           if PMTDecoder.fDiagnosticOutput this
           then match collection with
                | Some _ =>
                    Normal (PMTDecoder.set_fOpDetWaveformCollection this
                              collection)
                | None => Undefined NullDereference
                end
           else Normal (PMTDecoder.set_fOpDetWaveformCollection this
                          collection)).
Proof.
  unfold process_fragment, nSamplesPerChannel.
  destruct (nChannelsPerBoard f =? 0); [reflexivity|]. bind_ret.
  rewrite outcome_bind.
  replace (outcome (when (PMTDecoder.fDiagnosticOutput this) _))
    with (@Normal unit tt)
    by (destruct (PMTDecoder.fDiagnosticOutput this); reflexivity).
  rewrite outcome_bind. unfold and_then at 1.
  match goal with
  | |- match ?x with _ => _ end = match ?y with _ => _ end =>
      assert (Hpart : x = y); [|rewrite Hpart; destruct y as [coll|e|u|]]
  end.
  - destruct (hasPMTDigitizerID (PMTDecoder.fChannelMap this)
                (eff_fragment_id f)); [|reflexivity].
    rewrite outcome_bind. unfold assert.
    destruct (PMTDecoder.fBoardInfoLookup this) as [lookup|] eqn:Hlookup.
    + rewrite orb_true_r. simpl outcome at 1. cbv iota beta.
      rewrite outcome_bind. reflexivity.
    + rewrite orb_false_r. destruct NDEBUG; simpl; [|reflexivity].
      rewrite outcome_bind. unfold fragmentTimeStamp. rewrite Hlookup.
      reflexivity.
  - rewrite outcome_bind.
    destruct (PMTDecoder.fDiagnosticOutput this); [|reflexivity].
    destruct coll; reflexivity.
  - reflexivity.
  - reflexivity.
  - reflexivity.
Qed.

End FragmentOutcomes.

(** ** Decoding of a fragment: failures and what is left unchanged *)

Section FragmentDecoding.

Context {Q : Quantities} {S : StdAlgorithm} {P : Platform}.

Lemma set_fOpDetWaveformCollection_same (this : PMTDecoder.t) :
  PMTDecoder.set_fOpDetWaveformCollection this
    (PMTDecoder.fOpDetWaveformCollection this) = this.
Proof. now destruct this. Qed.

Lemma forallb_within_data (n : Z) (data : list Z) (vec : list (Z * Z)) :
  forallb (within_datab n data) vec = true <-> Forall (within_data n data) vec.
Proof.
  rewrite forallb_forall, Forall_forall.
  split; intros H x Hx; specialize (H x Hx);
    unfold within_datab, within_data in *; now apply Z.leb_le.
Qed.

(** The loop on the channels with a collection to add to. *)
Lemma emplaceWaveforms_Some (timeStamp : electronics_time) (n : Z)
    (data : list Z) (vec : list (Z * Z)) (c : list OpDetWaveform.t) :
  outcome (emplaceWaveforms timeStamp n data vec (Some c))
  = if forallb (within_datab n data) vec
    then Normal (Some (c ++ map (channelWaveform timeStamp n data) vec))
    else Undefined OutOfBoundsRead.
Proof.
  revert c. induction vec as [|channel vec IH]; intros c.
  - simpl. now rewrite app_nil_r.
  - rewrite emplaceWaveforms_cons. simpl forallb. unfold within_datab at 1.
    destruct (size_t (fst channel * n) + n <=? Z.of_nat (List.length data));
      [|reflexivity].
    rewrite IH. simpl. now rewrite <- app_assoc.
Qed.

(** The loop on the channels without collection. *)
Lemma emplaceWaveforms_None (timeStamp : electronics_time) (n : Z)
    (data : list Z) (vec : list (Z * Z)) :
  outcome (emplaceWaveforms timeStamp n data vec None)
  = match vec with
    | [] => Normal None
    | channel :: _ =>
        if within_datab n data channel then Undefined NullDereference
        else Undefined OutOfBoundsRead
    end.
Proof.
  destruct vec as [|channel vec]; [reflexivity|].
  rewrite emplaceWaveforms_cons. reflexivity.
Qed.

(** The last step of [process_fragment] (lines 635-638). *)
Lemma process_fragment_Normal_inv (this this' : PMTDecoder.t)
    (f : Fragment.t) :
  outcome (process_fragment this f) = Normal this' ->
  this' = PMTDecoder.set_fOpDetWaveformCollection this
            (PMTDecoder.fOpDetWaveformCollection this') /\
  (PMTDecoder.fDiagnosticOutput this = true ->
   PMTDecoder.fOpDetWaveformCollection this' <> None).
Proof.
  rewrite process_fragment_outcomes.
  destruct (nChannelsPerBoard f =? 0); [discriminate|].
  match goal with
  | |- and_then ?r _ = _ -> _ => destruct r as [coll|e|u|]; try discriminate
  end.
  simpl. destruct (PMTDecoder.fDiagnosticOutput this).
  - destruct coll as [c|]; [|discriminate].
    intros [= <-]. simpl. split; [reflexivity|]. discriminate.
  - intros [= <-]. simpl. split; [reflexivity|]. discriminate.
Qed.

(** X1: the decoding of a fragment divides by zero exactly when the
    fragment declares no channel (modulo 2^32), whatever the decoder and
    the rest of the fragment are. *)
Theorem division_by_zero_iff_no_channel (this : PMTDecoder.t)
    (f : Fragment.t) :
  outcome (process_fragment this f) = Undefined DivisionByZero
  <-> Fragment.nChannels f mod 2 ^ 32 = 0.
Proof.
  assert (Hnch : nChannelsPerBoard f = Fragment.nChannels f mod 2 ^ 32).
  { unfold nChannelsPerBoard, uint32. apply size_t_small.
    pose proof (Z.mod_pos_bound (Fragment.nChannels f) (2 ^ 32)). lia. }
  rewrite <- Hnch, process_fragment_outcomes.
  destruct (nChannelsPerBoard f =? 0) eqn:Hzero.
  - apply Z.eqb_eq in Hzero. now split.
  - apply Z.eqb_neq in Hzero. split; [|contradiction]. intros Hout. exfalso.
    destruct (hasPMTDigitizerID _ _).
    + destruct (PMTDecoder.fBoardInfoLookup this) as [lookup|] eqn:Hlookup.
      * rewrite fragmentTimeStamp_outcomes, Hlookup in Hout. cbv zeta in Hout.
        destruct (BoardInfoLookup.findBoardInfo lookup (fragment_id f))
          as [i|];
          [destruct (NDEBUG || _)|destruct (PMTDecoder.fRequireKnownBoards this)];
          simpl in Hout; try discriminate;
          match type of Hout with
          | context [emplaceWaveforms ?t ?n ?d ?v ?c] =>
              destruct (emplaceWaveforms_outcomes t n d v c)
                as [(coll' & Hemp & _)|[(Hemp & _)|(Hemp & _)]];
              rewrite Hemp in Hout; simpl in Hout; try discriminate;
              destruct (PMTDecoder.fDiagnosticOutput this);
              try discriminate; destruct coll'; discriminate
          end.
      * destruct NDEBUG; discriminate.
    + simpl in Hout.
      destruct (PMTDecoder.fDiagnosticOutput this); try discriminate.
      destruct (PMTDecoder.fOpDetWaveformCollection this); discriminate.
Qed.

(** X2: a fragment of a board the channel map does not know is not
    decoded and is no failure: the decoder is left as it is and the
    error is only logged, whatever the board database holds (or even
    without one) and whether unknown boards are accepted or not. *)
Theorem fragment_without_channel_information (this : PMTDecoder.t)
    (f : Fragment.t) :
  nChannelsPerBoard f <> 0 ->
  hasPMTDigitizerID (PMTDecoder.fChannelMap this) (eff_fragment_id f) = false ->
  (PMTDecoder.fDiagnosticOutput this = true ->
   PMTDecoder.fOpDetWaveformCollection this <> None) ->
  outcome (process_fragment this f) = Normal this /\
  In (LogError_NoChannelInformation (fragment_id f))
     (messages (process_fragment this f)) /\
  forall m, In m (messages (process_fragment this f)) ->
            match m with
            | LogTrace_Board _ _ _ _ _ | LogTrace_Channel _ _ _ => False
            | _ => True
            end.
Proof.
  intros Hnch Hhas Hcoll. split.
  - rewrite process_fragment_outcomes, Hhas.
    apply Z.eqb_neq in Hnch. rewrite Hnch. simpl.
    rewrite set_fOpDetWaveformCollection_same.
    destruct (PMTDecoder.fDiagnosticOutput this); [|reflexivity].
    destruct (PMTDecoder.fOpDetWaveformCollection this); [reflexivity|].
    now elim Hcoll.
  - unfold process_fragment, nSamplesPerChannel. rewrite Hhas.
    apply Z.eqb_neq in Hnch. rewrite Hnch. bind_ret.
    destruct (PMTDecoder.fDiagnosticOutput this).
    + destruct (PMTDecoder.fOpDetWaveformCollection this) as [c|];
        [|now elim Hcoll].
      simpl. split; [tauto|]. intros m [<-|[<-|[<-|[]]]]; exact I.
    + simpl. split; [tauto|]. intros m [<-|[]]. exact I.
Qed.

(** X3: the constructor always returns a decoder, and that decoder cannot
    decode a fragment of a board of the channel map before [setupRun]: the
    assertion on the board database fails, and without assertions the empty
    [std::optional] is dereferenced; [initializeDataProducts] does not
    change that. *)
Theorem constructed_decoder_has_no_database (params : Config.t)
    (timings : DetectorTimings) (channelMap : IICARUSChannelMap)
    (f : Fragment.t) :
  nChannelsPerBoard f <> 0 ->
  hasPMTDigitizerID channelMap (eff_fragment_id f) = true ->
  exists this,
    outcome (PMTDecoder_ctor params timings channelMap) = Normal this /\
    outcome (process_fragment this f)
    = (if NDEBUG then Undefined EmptyOptional else Aborted) /\
    outcome (process_fragment (initializeDataProducts this) f)
    = (if NDEBUG then Undefined EmptyOptional else Aborted).
Proof.
  intros Hnch Hhas. eexists. split; [reflexivity|].
  apply Z.eqb_neq in Hnch.
  split; rewrite process_fragment_outcomes, Hnch; simpl; rewrite Hhas;
    now destruct NDEBUG.
Qed.

(** X4: what the decoding of a fragment does is independent of the
    waveforms collected before: it fails as it does on an empty collection,
    or it adds to the collection the waveforms it gives on an empty
    collection and changes nothing else. *)
Theorem decoding_is_independent_of_collected_waveforms (this : PMTDecoder.t)
    (f : Fragment.t) (c : list OpDetWaveform.t) :
  outcome (process_fragment
             (PMTDecoder.set_fOpDetWaveformCollection this (Some c)) f)
  = and_then
      (outcome (process_fragment (initializeDataProducts this) f))
      (fun this' =>
         Normal (PMTDecoder.set_fOpDetWaveformCollection this
                   (Some (c ++ collected
                                 (PMTDecoder.fOpDetWaveformCollection this'))))).
Proof.
  unfold initializeDataProducts. rewrite !process_fragment_outcomes.
  destruct (nChannelsPerBoard f =? 0); [reflexivity|]. simpl.
  destruct (hasPMTDigitizerID _ _).
  - destruct (PMTDecoder.fBoardInfoLookup this) as [lookup|] eqn:Hlookup;
      [|now destruct NDEBUG].
    rewrite !fragmentTimeStamp_outcomes. simpl. rewrite Hlookup. cbv zeta.
    destruct (BoardInfoLookup.findBoardInfo lookup (fragment_id f)) as [i|];
      [destruct (NDEBUG || _)|destruct (PMTDecoder.fRequireKnownBoards this)];
      try reflexivity; simpl; rewrite !emplaceWaveforms_Some;
      destruct (forallb _ _); try reflexivity; simpl;
      now destruct (PMTDecoder.fDiagnosticOutput this).
  - destruct (PMTDecoder.fDiagnosticOutput this); simpl;
      now rewrite app_nil_r.
Qed.

End FragmentDecoding.

Lemma fragment_without_channel_information_witness :
  outcome (process_fragment offline_decoder unserved_fragment)
  = Normal offline_decoder /\
  In (LogError_NoChannelInformation (fragment_id unserved_fragment))
     (messages (process_fragment offline_decoder unserved_fragment)) /\
  forall m, In m (messages (process_fragment offline_decoder unserved_fragment)) ->
            match m with
            | LogTrace_Board _ _ _ _ _ | LogTrace_Channel _ _ _ => False
            | _ => True
            end.
Proof.
  apply (fragment_without_channel_information offline_decoder unserved_fragment).
  - vm_compute. discriminate.
  - reflexivity.
  - vm_compute. discriminate.
Defined.

Lemma constructed_decoder_has_no_database_witness :
  exists this,
    outcome (PMTDecoder_ctor (Config.mk None None None None [] None)
               example_timings two_channel_map) = Normal this /\
    outcome (process_fragment this example_fragment) = Aborted /\
    outcome (process_fragment (initializeDataProducts this) example_fragment)
    = Aborted.
Proof.
  refine (constructed_decoder_has_no_database
            (Config.mk None None None None [] None)
            example_timings two_channel_map example_fragment _ _).
  - vm_compute. discriminate.
  - reflexivity.
Defined.

Section FragmentDecoding2.

Context {Q : Quantities} {S : StdAlgorithm} {P : Platform}.

(** X5: when the time stamp of the fragment is reconstructed and there is
    a collection to add to, the decoding reads beyond the data of the
    fragment exactly when the samples of some channel of the board do not
    lie within the data: the size the header declares is not checked
    against the data. *)
Theorem channel_beyond_the_data_is_read (this : PMTDecoder.t)
    (f : Fragment.t) (r : NeededBoardInfo_t.t * electronics_time)
    (c : list OpDetWaveform.t) :
  nChannelsPerBoard f <> 0 ->
  hasPMTDigitizerID (PMTDecoder.fChannelMap this) (eff_fragment_id f) = true ->
  outcome (fragmentTimeStamp this (fragment_id f)) = Normal r ->
  PMTDecoder.fOpDetWaveformCollection this = Some c ->
  let n := uint32 (data_size_double_bytes f / nChannelsPerBoard f) in
  let digitizerChannelVec :=
    getChannelIDPairVec (PMTDecoder.fChannelMap this) (eff_fragment_id f) in
  outcome (process_fragment this f) = Undefined OutOfBoundsRead
  <-> ~ Forall (within_data n (Fragment.data f)) digitizerChannelVec.
Proof.
  intros Hnch Hhas Htime Hcoll n vec.
  rewrite process_fragment_outcomes, Hhas, Htime, Hcoll.
  apply Z.eqb_neq in Hnch. rewrite Hnch.
  rewrite fragmentTimeStamp_outcomes in Htime.
  destruct (PMTDecoder.fBoardInfoLookup this); [|discriminate].
  simpl. rewrite emplaceWaveforms_Some. fold n vec.
  rewrite <- forallb_within_data.
  destruct (forallb (within_datab n (Fragment.data f)) vec); simpl.
  - destruct (PMTDecoder.fDiagnosticOutput this);
      split; (discriminate || now intros H; elim H).
  - split; [discriminate|reflexivity].
Qed.

(** X6: behind a null collection pointer (before
    [initializeDataProducts], after [outputDataProducts]) no waveform is
    ever stored: if the decoding of a fragment returns at all, the decoder
    is unchanged, the diagnostic output is off and the board of the
    fragment has no channel in the channel map. *)
Theorem nothing_is_collected_behind_a_null_pointer (this this' : PMTDecoder.t)
    (f : Fragment.t) :
  PMTDecoder.fOpDetWaveformCollection this = None ->
  outcome (process_fragment this f) = Normal this' ->
  this' = this /\
  PMTDecoder.fDiagnosticOutput this = false /\
  (hasPMTDigitizerID (PMTDecoder.fChannelMap this) (eff_fragment_id f) = true ->
   getChannelIDPairVec (PMTDecoder.fChannelMap this) (eff_fragment_id f) = []).
Proof.
  intros Hcoll. rewrite process_fragment_outcomes, Hcoll.
  destruct (nChannelsPerBoard f =? 0); [discriminate|].
  assert (Hend : forall coll,
             and_then (Normal coll)
               (fun collection =>
                  if PMTDecoder.fDiagnosticOutput this
                  then match collection with
                       | Some _ =>
                           Normal (PMTDecoder.set_fOpDetWaveformCollection this
                                     collection)
                       | None => Undefined NullDereference
                       end
                  else Normal (PMTDecoder.set_fOpDetWaveformCollection this
                                 collection))
             = Normal this' ->
             coll = None ->
             this' = this /\ PMTDecoder.fDiagnosticOutput this = false).
  { intros coll Hout ->. simpl in Hout.
    destruct (PMTDecoder.fDiagnosticOutput this); [discriminate|].
    injection Hout as <-. rewrite <- Hcoll.
    now rewrite set_fOpDetWaveformCollection_same. }
  destruct (hasPMTDigitizerID _ _).
  - destruct (PMTDecoder.fBoardInfoLookup this) as [lookup|];
      [|now destruct NDEBUG].
    destruct (outcome (fragmentTimeStamp this (fragment_id f)))
      as [r|e|u|]; try discriminate.
    unfold and_then at 2. rewrite emplaceWaveforms_None.
    destruct (getChannelIDPairVec _ _) as [|channel vec].
    + intros Hout. apply Hend in Hout; [|reflexivity]. tauto.
    + now destruct (within_datab _ _ channel).
  - intros Hout. apply Hend in Hout; [|reflexivity].
    destruct Hout as [-> ->]. repeat split. discriminate.
Qed.

(** X7: [outputDataProducts] moves the collection out of the decoder: it
    leaves a null pointer, so that a second call without
    [initializeDataProducts] in between dereferences a null pointer, while
    [initializeDataProducts] gives the decoder it gives before the call. *)
Theorem collection_is_moved_out (this this' : PMTDecoder.t)
    (sorted : list OpDetWaveform.t) :
  outcome (outputDataProducts this) = Normal (this', sorted) ->
  PMTDecoder.fOpDetWaveformCollection this' = None /\
  outcome (outputDataProducts this') = Undefined NullDereference /\
  initializeDataProducts this' = initializeDataProducts this.
Proof.
  unfold outputDataProducts.
  destruct (PMTDecoder.fOpDetWaveformCollection this) as [c|];
    [|discriminate].
  intros [= <- _]. repeat split.
Qed.

End FragmentDecoding2.

Lemma channel_beyond_the_data_is_read_witness :
  outcome (process_fragment online_monitor truncated_fragment)
  = Undefined OutOfBoundsRead.
Proof.
  eapply (@channel_beyond_the_data_is_read _ _ online_monitor
            truncated_fragment).
  - vm_compute. discriminate.
  - reflexivity.
  - reflexivity.
  - reflexivity.
  - intros Hall. inversion Hall as [|channel0 rest0 _ Hrest]; subst.
    inversion Hrest as [|channel1 rest1 Hwithin _]; subst.
    vm_compute in Hwithin. now apply Hwithin.
Defined.

Lemma nothing_is_collected_behind_a_null_pointer_witness :
  let this := online_decoder [] in
  outcome (process_fragment this unserved_fragment) = Normal this /\
  this = this /\
  PMTDecoder.fDiagnosticOutput this = false /\
  (hasPMTDigitizerID (PMTDecoder.fChannelMap this)
     (eff_fragment_id unserved_fragment) = true ->
   getChannelIDPairVec (PMTDecoder.fChannelMap this)
     (eff_fragment_id unserved_fragment) = []).
Proof.
  intros this.
  assert (Hout : outcome (process_fragment this unserved_fragment)
                 = Normal this) by reflexivity.
  split; [exact Hout|].
  apply (@nothing_is_collected_behind_a_null_pointer _ _ this this
           unserved_fragment).
  - reflexivity.
  - exact Hout.
Defined.

Lemma collection_is_moved_out_witness :
  let this' :=
    PMTDecoder.set_fOpDetWaveformCollection online_monitor None in
  PMTDecoder.fOpDetWaveformCollection this' = None /\
  outcome (outputDataProducts this') = Undefined NullDereference /\
  initializeDataProducts this' = initializeDataProducts online_monitor.
Proof.
  apply (@collection_is_moved_out _ _ online_monitor
           (PMTDecoder.set_fOpDetWaveformCollection online_monitor None) []).
  reflexivity.
Defined.

(** ** [setupRun] *)

Section SetupRun.

Context {Q : Quantities} {S : StdAlgorithm} {P : Platform}.

Lemma setupRun_matching (this : PMTDecoder.t)
    (run : InputTag -> option PMTconfiguration.t) :
  setupRun this run
  = (lookup <- matchBoardConfigurationAndSetup this (PMTconfig_of this run) ;;
     log (LogDebug_BoardInformation lookup) ;;
     ret (PMTDecoder.set_fBoardInfoLookup this (Some lookup))).
Proof.
  unfold setupRun, UpdatePMTConfiguration, PMTconfig_of.
  destruct (matchBoardConfigurationAndSetup this _) as [lg [lookup|e|u|]];
    simpl; rewrite ?app_nil_r; reflexivity.
Qed.

Lemma setupRun_Normal (this : PMTDecoder.t)
    (run : InputTag -> option PMTconfiguration.t) lg lookup :
  matchBoardConfigurationAndSetup this (PMTconfig_of this run)
  = (lg, Normal lookup) ->
  setupRun this run
  = (lg ++ [LogDebug_BoardInformation lookup],
     Normal (PMTDecoder.set_fBoardInfoLookup this (Some lookup))).
Proof. intros H. rewrite setupRun_matching, H. reflexivity. Qed.

Lemma setupRun_Normal_inv (this this1 : PMTDecoder.t)
    (run : InputTag -> option PMTconfiguration.t) :
  outcome (setupRun this run) = Normal this1 ->
  exists lg lookup,
    matchBoardConfigurationAndSetup this (PMTconfig_of this run)
    = (lg, Normal lookup) /\
    this1 = PMTDecoder.set_fBoardInfoLookup this (Some lookup).
Proof.
  rewrite setupRun_matching.
  destruct (matchBoardConfigurationAndSetup this _) as [lg [lookup|e|u|]];
    try discriminate.
  intros [= <-]. now exists lg, lookup.
Qed.

Lemma setupRun_failure (this : PMTDecoder.t)
    (run : InputTag -> option PMTconfiguration.t) :
  (forall lookup,
      outcome (matchBoardConfigurationAndSetup this (PMTconfig_of this run))
      <> Normal lookup) ->
  setupRun this run
  = (messages (matchBoardConfigurationAndSetup this (PMTconfig_of this run)),
     match outcome (matchBoardConfigurationAndSetup this
                      (PMTconfig_of this run)) with
     | Normal lookup => Aborted
     | Throw e => Throw e
     | Undefined u => Undefined u
     | Aborted => Aborted
     end).
Proof.
  rewrite setupRun_matching.
  destruct (matchBoardConfigurationAndSetup this _) as [lg [lookup|e|u|]];
    try reflexivity.
  intros H. now elim (H lookup).
Qed.

(** X8: after a [setupRun] that returns, no assertion of
    [process_fragment] fails, whatever the fragment and the collection are:
    there is a board database and each of its records has a setup. *)
Theorem assertions_hold_after_setupRun (this this1 : PMTDecoder.t)
    (run : InputTag -> option PMTconfiguration.t) (f : Fragment.t)
    (collection : option (list OpDetWaveform.t)) :
  outcome (setupRun this run) = Normal this1 ->
  outcome (process_fragment
             (PMTDecoder.set_fOpDetWaveformCollection this1 collection) f)
  <> Aborted.
Proof.
  intros Hrun. apply setupRun_Normal_inv in Hrun.
  destruct Hrun as (lg & lookup & Hmatch & ->).
  rewrite process_fragment_outcomes.
  destruct (nChannelsPerBoard f =? 0); [discriminate|]. simpl.
  assert (Hend : forall r : result (option (list OpDetWaveform.t)),
             r <> Aborted ->
             and_then r
               (fun collection0 =>
                  if PMTDecoder.fDiagnosticOutput this
                  then match collection0 with
                       | Some _ =>
                           Normal (PMTDecoder.set_fOpDetWaveformCollection
                                     (PMTDecoder.set_fOpDetWaveformCollection
                                        (PMTDecoder.set_fBoardInfoLookup this
                                           (Some lookup)) collection)
                                     collection0)
                       | None => Undefined NullDereference
                       end
                  else Normal (PMTDecoder.set_fOpDetWaveformCollection
                                 (PMTDecoder.set_fOpDetWaveformCollection
                                    (PMTDecoder.set_fBoardInfoLookup this
                                       (Some lookup)) collection)
                                 collection0))
             <> Aborted).
  { intros [coll|e|u|] Hr; simpl; try discriminate; [|now elim Hr].
    destruct (PMTDecoder.fDiagnosticOutput this); [|discriminate].
    destruct coll; discriminate. }
  apply Hend.
  destruct (hasPMTDigitizerID _ _); [|discriminate].
  rewrite fragmentTimeStamp_outcomes. simpl.
  destruct (BoardInfoLookup.findBoardInfo lookup (fragment_id f)) as [i|]
    eqn:Hfind.
  - apply findBoardInfo_fragmentID in Hfind. destruct Hfind as [_ Hin].
    destruct (matchBoardConfigurationAndSetup_setup _ _ i Hmatch Hin)
      as (boardSetup & -> & _).
    rewrite orb_true_r. simpl.
    match goal with
    | |- outcome (emplaceWaveforms ?t ?n ?d ?v ?c) <> _ =>
        destruct (emplaceWaveforms_outcomes t n d v c)
          as [(coll' & -> & _)|[(-> & _)|(-> & _)]]; discriminate
    end.
  - destruct (PMTDecoder.fRequireKnownBoards this); [discriminate|]. simpl.
    match goal with
    | |- outcome (emplaceWaveforms ?t ?n ?d ?v ?c) <> _ =>
        destruct (emplaceWaveforms_outcomes t n d v c)
          as [(coll' & -> & _)|[(-> & _)|(-> & _)]]; discriminate
    end.
Qed.

(** X9: the database of a run does not depend on the runs before:
    [setupRun] replaces the board database, and on a decoder that went
    through a [setupRun] it does what it does on the decoder before. *)
Theorem setupRun_replaces_the_database (this this1 : PMTDecoder.t)
    (run1 run2 : InputTag -> option PMTconfiguration.t) :
  outcome (setupRun this run1) = Normal this1 ->
  setupRun this1 run2 = setupRun this run2.
Proof.
  intros Hrun. apply setupRun_Normal_inv in Hrun.
  destruct Hrun as (lg & lookup & _ & ->).
  rewrite !setupRun_matching. unfold PMTconfig_of. simpl.
  unfold matchBoardConfigurationAndSetup. simpl.
  rewrite (fillBoardInfo_ext
             (PMTDecoder.set_fBoardInfoLookup this (Some lookup)) this)
    by reflexivity.
  reflexivity.
Qed.

End SetupRun.

Lemma assertions_hold_after_setupRun_witness :
  outcome (process_fragment offline_decoder example_fragment) <> Aborted.
Proof.
  apply (@assertions_hold_after_setupRun _ _ _ offline_tool
           (after_setupRun offline_tool
              (run_with [board_config "icaruspmtwwtop01" 8195]))
           (run_with [board_config "icaruspmtwwtop01" 8195])
           example_fragment (Some [])).
  reflexivity.
Defined.

Lemma setupRun_replaces_the_database_witness :
  setupRun (after_setupRun offline_tool
              (run_with [board_config "icaruspmtwwtop01" 8195]))
           (run_with [board_config "icaruspmtwwtop01" 8196])
  = setupRun offline_tool (run_with [board_config "icaruspmtwwtop01" 8196]).
Proof.
  apply (@setupRun_replaces_the_database _ _ _ offline_tool
           (after_setupRun offline_tool
              (run_with [board_config "icaruspmtwwtop01" 8195]))
           (run_with [board_config "icaruspmtwwtop01" 8195])
           (run_with [board_config "icaruspmtwwtop01" 8196])).
  reflexivity.
Defined.

(** ** The matching, setup by setup *)

Section MatchingOutcomes.

Context {Q : Quantities} {S : StdAlgorithm} {P : Platform}.

Variable this : PMTDecoder.t.

(** The loop body on a board setup. *)
Lemma boardInfo_of_outcome (PMTconfig : option PMTconfiguration.t)
    (boardSetup : BoardSetup_t.t) :
  boardInfo_of this (configByName_of PMTconfig) boardSetup
  = (if hasPMTconfiguration this then [] else [setup_only_message boardSetup],
     boardInfo_outcome this PMTconfig boardSetup).
Proof.
  unfold boardInfo_outcome, setup_only_message, configuration_of.
  destruct (hasPMTconfiguration this) eqn:Hhas.
  - destruct (binarySearch String.eqb fst (configByName_of PMTconfig)
                (BoardSetup_t.name boardSetup)) as [p|] eqn:Hfind.
    + rewrite (boardInfo_of_found _ _ _ Hhas Hfind). cbv zeta. simpl.
      destruct (BoardSetup_t.hasFragmentID boardSetup && _); [reflexivity|].
      destruct (NDEBUG || _); reflexivity.
    + rewrite (boardInfo_of_missing _ _ _ Hhas Hfind). simpl.
      destruct (PMTDecoder.fRequireKnownBoards this); reflexivity.
  - rewrite (boardInfo_of_unused _ _ _ Hhas).
    destruct (BoardSetup_t.hasFragmentID boardSetup); reflexivity.
Qed.

(** The loop stops at the first board setup on which its body fails. *)
Lemma fillBoardInfo_outcomes (configByName : configByName_t)
    (setups : list BoardSetup_t.t) :
  forall acc,
    (Forall (served this configByName) setups /\
     outcome (fillBoardInfo this configByName setups acc)
     = Normal (acc ++ flat_map (records_of this configByName) setups)) \/
    (exists pre boardSetup post,
        setups = pre ++ boardSetup :: post /\
        Forall (served this configByName) pre /\
        match outcome (boardInfo_of this configByName boardSetup) with
        | Normal _ => False
        | Throw e =>
            outcome (fillBoardInfo this configByName setups acc) = Throw e
        | Undefined u =>
            outcome (fillBoardInfo this configByName setups acc) = Undefined u
        | Aborted =>
            outcome (fillBoardInfo this configByName setups acc) = Aborted
        end).
Proof.
  induction setups as [|boardSetup setups IH]; intros acc.
  - left. split; [constructor|]. simpl. now rewrite app_nil_r.
  - simpl fillBoardInfo. rewrite outcome_bind.
    destruct (outcome (boardInfo_of this configByName boardSetup))
      as [info|e|u|] eqn:Hbody.
    + assert (Hserved : served this configByName boardSetup)
        by now exists info.
      destruct (IH (match info with
                    | Some i => acc ++ [i]
                    | None => acc
                    end))
        as [[Hall Hout]|(pre & s & post & -> & Hpre & Hs)].
      * left. split; [now constructor|]. rewrite Hout.
        simpl flat_map. unfold records_of at 2. rewrite Hbody.
        destruct info; [now rewrite <- app_assoc|reflexivity].
      * right. exists (boardSetup :: pre), s, post.
        split; [reflexivity|]. split; [now constructor|exact Hs].
    + right. exists [], boardSetup, setups.
      split; [reflexivity|]. split; [constructor|]. now rewrite Hbody.
    + right. exists [], boardSetup, setups.
      split; [reflexivity|]. split; [constructor|]. now rewrite Hbody.
    + right. exists [], boardSetup, setups.
      split; [reflexivity|]. split; [constructor|]. now rewrite Hbody.
Qed.

(** The loop depends on the dictionary through its body only. *)
Lemma fillBoardInfo_ext_in (configByName1 configByName2 : configByName_t)
    (setups : list BoardSetup_t.t) :
  (forall boardSetup, In boardSetup setups ->
      boardInfo_of this configByName1 boardSetup
      = boardInfo_of this configByName2 boardSetup) ->
  forall acc,
    fillBoardInfo this configByName1 setups acc
    = fillBoardInfo this configByName2 setups acc.
Proof.
  induction setups as [|boardSetup setups IH]; intros Hbody acc;
    [reflexivity|].
  simpl. rewrite (Hbody boardSetup) by now left.
  destruct (boardInfo_of this configByName2 boardSetup) as [lg [info|e|u|]];
    try reflexivity.
  simpl. rewrite IH; [reflexivity|]. intros s Hs. apply Hbody. now right.
Qed.

(** The matching depends on the PMT configuration only through the
    configurations found for the names of the board setups. *)
Lemma matchBoardConfigurationAndSetup_ext
    (PMTconfig1 PMTconfig2 : option PMTconfiguration.t) :
  (forall boardSetup, In boardSetup (PMTDecoder.fBoardSetup this) ->
      configuration_of PMTconfig1 (BoardSetup_t.name boardSetup)
      = configuration_of PMTconfig2 (BoardSetup_t.name boardSetup)) ->
  matchBoardConfigurationAndSetup this PMTconfig1
  = matchBoardConfigurationAndSetup this PMTconfig2.
Proof.
  intros Hsame. unfold matchBoardConfigurationAndSetup. cbv zeta.
  rewrite (@fillBoardInfo_ext_in (configByName_of PMTconfig1)
             (configByName_of PMTconfig2)); [reflexivity|].
  intros boardSetup Hin. apply boardInfo_of_configuration_of.
  now apply Hsame.
Qed.

Lemma records_of_outcome (PMTconfig : option PMTconfiguration.t)
    (boardSetup : BoardSetup_t.t) :
  records_of this (configByName_of PMTconfig) boardSetup
  = match boardInfo_outcome this PMTconfig boardSetup with
    | Normal (Some i) => [i]
    | _ => []
    end.
Proof. unfold records_of. now rewrite boardInfo_of_outcome. Qed.

Lemma messages_of_outcome (PMTconfig : option PMTconfiguration.t)
    (boardSetup : BoardSetup_t.t) :
  messages_of this (configByName_of PMTconfig) boardSetup
  = if hasPMTconfiguration this then [] else [setup_only_message boardSetup].
Proof. unfold messages_of. now rewrite boardInfo_of_outcome. Qed.

Lemma flat_map_messages_of (PMTconfig : option PMTconfiguration.t)
    (setups : list BoardSetup_t.t) :
  flat_map (messages_of this (configByName_of PMTconfig)) setups
  = if hasPMTconfiguration this then []
    else map setup_only_message setups.
Proof.
  induction setups as [|s l IH]; simpl.
  - now destruct (hasPMTconfiguration this).
  - rewrite messages_of_outcome, IH.
    now destruct (hasPMTconfiguration this).
Qed.

Lemma flat_map_records_of_unused (PMTconfig : option PMTconfiguration.t)
    (setups : list BoardSetup_t.t) :
  hasPMTconfiguration this = false ->
  flat_map (records_of this (configByName_of PMTconfig)) setups
  = map setup_only_record (filter BoardSetup_t.hasFragmentID setups).
Proof.
  intros Hhas. induction setups as [|s l IH]; [reflexivity|].
  simpl. rewrite records_of_outcome. unfold boardInfo_outcome.
  rewrite Hhas.
  destruct (BoardSetup_t.hasFragmentID s); simpl; now rewrite IH.
Qed.

(** The records of board setups that are consistently configured. *)
Lemma configured_records (PMTconfig : option PMTconfiguration.t)
    (setups : list BoardSetup_t.t) :
  hasPMTconfiguration this = true ->
  Forall (consistently_configured PMTconfig) setups ->
  Forall (served this (configByName_of PMTconfig)) setups /\
  flat_map (records_of this (configByName_of PMTconfig)) setups
  = flat_map (configured_record this PMTconfig) setups /\
  List.length (flat_map (configured_record this PMTconfig) setups)
  = List.length setups.
Proof.
  intros Hhas.
  assert (Hbody : forall s, consistently_configured PMTconfig s ->
             boardInfo_outcome this PMTconfig s
             = Normal (match configured_record this PMTconfig s with
                       | i :: _ => Some i
                       | [] => None
                       end) /\
             List.length (configured_record this PMTconfig s) = 1%nat).
  { intros s (c & Hc & Hid & Hno). unfold boardInfo_outcome, configured_record.
    rewrite Hhas, Hc.
    destruct (BoardSetup_t.hasFragmentID s) eqn:Hs.
    - rewrite (Hid eq_refl), Z.eqb_refl. simpl.
      apply Z.eqb_neq in Hno. rewrite Hno, orb_true_r. now split.
    - simpl. apply Z.eqb_neq in Hno. rewrite Hno, orb_true_r. now split. }
  induction 1 as [|s l Hs Hl (IH0 & IH1 & IH2)];
    [split; [constructor|now split]|].
  destruct (Hbody s Hs) as [Hout Hone]. split; [|split].
  - constructor; [|exact IH0].
    eexists. rewrite boardInfo_of_outcome. exact Hout.
  - simpl. rewrite records_of_outcome, Hout, IH1.
    destruct (configured_record this PMTconfig s) as [|i [|j l']];
      try discriminate. reflexivity.
  - simpl. rewrite length_app, IH2, Hone. reflexivity.
Qed.

End MatchingOutcomes.

Section MatchingProperties.

Context {Q : Quantities} {S : StdAlgorithm} {P : Platform}.



(** X12: with a PMT configuration tag, [setupRun] fails on the first
    board setup when the PMT configuration of the run has no board of its
    name, in particular when the run has no PMT configuration at all: with
    the exception that names the board when boards must be known, and by
    dereferencing a null pointer when they need not. *)
Theorem setupRun_without_configuration_of_the_first_board
    (this : PMTDecoder.t) (run : InputTag -> option PMTconfiguration.t)
    (boardSetup : BoardSetup_t.t) (rest : list BoardSetup_t.t) :
  hasPMTconfiguration this = true ->
  PMTDecoder.fBoardSetup this = boardSetup :: rest ->
  configuration_of (PMTconfig_of this run) (BoardSetup_t.name boardSetup)
  = None ->
  setupRun this run
  = ([], if PMTDecoder.fRequireKnownBoards this
         then Throw (NoDAQConfiguration (BoardSetup_t.name boardSetup))
         else Undefined NullDereference).
Proof.
  intros Hhas Hsetups Hnone.
  rewrite setupRun_matching. unfold matchBoardConfigurationAndSetup.
  cbv zeta. rewrite Hsetups. simpl fillBoardInfo.
  rewrite boardInfo_of_outcome. unfold boardInfo_outcome.
  rewrite Hhas, Hnone.
  destruct (PMTDecoder.fRequireKnownBoards this); reflexivity.
Qed.


(** X14: the boards of the PMT configuration that no board setup names
    are ignored: with pairwise distinct board names, adding such boards to
    the PMT configuration changes no outcome and no message of the
    matching. *)
Theorem boards_without_setup_are_ignored (this : PMTDecoder.t)
    (boards others : list V1730Configuration.t) :
  NoDup (map V1730Configuration.boardName (boards ++ others)) ->
  (forall boardSetup other,
      In boardSetup (PMTDecoder.fBoardSetup this) -> In other others ->
      BoardSetup_t.name boardSetup <> V1730Configuration.boardName other) ->
  matchBoardConfigurationAndSetup this
    (Some (PMTconfiguration.mk (boards ++ others)))
  = matchBoardConfigurationAndSetup this (Some (PMTconfiguration.mk boards)).
Proof.
  intros Hnodup Hnames. apply matchBoardConfigurationAndSetup_ext.
  intros boardSetup Hin.
  rewrite !configuration_of_find.
  - clear Hnodup. induction boards as [|b boards IH]; simpl.
    + induction others as [|o others IH]; [reflexivity|]. simpl.
      destruct (String.eqb_spec (V1730Configuration.boardName o)
                  (BoardSetup_t.name boardSetup)) as [Heq|_].
      * elim (Hnames boardSetup o Hin); [now left|now symmetry].
      * apply IH. intros s o' Hs Ho'. apply Hnames; [exact Hs|now right].
    + destruct (V1730Configuration.boardName b =? BoardSetup_t.name boardSetup)%string;
        [reflexivity|exact IH].
  - rewrite map_app in Hnodup. now apply NoDup_app_remove_r in Hnodup.
  - exact Hnodup.
Qed.

(** X15: the failures of the matching and their causes.  An exception
    names a board setup: one whose board has no configuration while the
    PMT configuration is used and boards must be known, or one whose
    fragment ID differs from the configured one.  The only undefined
    behaviour is the null pointer of a board without configuration when
    boards need not be known; so there is none when they must.  An
    assertion fails only for a configuration whose fragment ID is the value
    that stands for no fragment ID. *)
Theorem failures_of_the_matching (this : PMTDecoder.t)
    (PMTconfig : option PMTconfiguration.t) :
  match outcome (matchBoardConfigurationAndSetup this PMTconfig) with
  | Normal _ => True
  | Throw e =>
      hasPMTconfiguration this = true /\
      exists boardSetup,
        In boardSetup (PMTDecoder.fBoardSetup this) /\
        match configuration_of PMTconfig (BoardSetup_t.name boardSetup) with
        | None =>
            PMTDecoder.fRequireKnownBoards this = true /\
            e = NoDAQConfiguration (BoardSetup_t.name boardSetup)
        | Some c =>
            BoardSetup_t.hasFragmentID boardSetup = true /\
            BoardSetup_t.fragmentID boardSetup
            <> V1730Configuration.fragmentID c /\
            e = FragmentIDMismatch (BoardSetup_t.name boardSetup)
                  (V1730Configuration.fragmentID c)
                  (BoardSetup_t.fragmentID boardSetup)
        end
  | Undefined u =>
      u = NullDereference /\
      hasPMTconfiguration this = true /\
      PMTDecoder.fRequireKnownBoards this = false /\
      exists boardSetup,
        In boardSetup (PMTDecoder.fBoardSetup this) /\
        configuration_of PMTconfig (BoardSetup_t.name boardSetup) = None
  | Aborted =>
      NDEBUG = false /\
      hasPMTconfiguration this = true /\
      exists boardSetup c,
        In boardSetup (PMTDecoder.fBoardSetup this) /\
        configuration_of PMTconfig (BoardSetup_t.name boardSetup) = Some c /\
        V1730Configuration.fragmentID c = NoFragmentID
  end.
Proof.
  unfold matchBoardConfigurationAndSetup. cbv zeta. rewrite outcome_bind.
  destruct (fillBoardInfo_outcomes this (configByName_of PMTconfig)
              (PMTDecoder.fBoardSetup this) [])
    as [[_ ->]|(pre & s & post & Hsetups & _ & Hbody)]; [exact I|].
  assert (Hin : In s (PMTDecoder.fBoardSetup this))
    by (rewrite Hsetups; apply in_elt).
  rewrite boardInfo_of_outcome in Hbody. unfold outcome at 1 in Hbody.
  simpl in Hbody. unfold boardInfo_outcome in Hbody.
  destruct (hasPMTconfiguration this); [|contradiction].
  destruct (configuration_of PMTconfig (BoardSetup_t.name s)) as [c|] eqn:Hc.
  - destruct (BoardSetup_t.hasFragmentID s) eqn:Hs; simpl in Hbody.
    + destruct (BoardSetup_t.fragmentID s =? V1730Configuration.fragmentID c)
        eqn:Hid; simpl in Hbody.
      * destruct (NDEBUG || _) eqn:Hassert; [contradiction|].
        rewrite Hbody. apply orb_false_elim in Hassert.
        destruct Hassert as [Hndebug Hno].
        split; [exact Hndebug|]. split; [reflexivity|].
        exists s, c. repeat split; try assumption.
        apply negb_false_iff in Hno. now apply Z.eqb_eq.
      * rewrite Hbody. split; [reflexivity|]. exists s.
        split; [exact Hin|]. rewrite Hc.
        split; [exact Hs|]. split; [now apply Z.eqb_neq|reflexivity].
    + destruct (NDEBUG || _) eqn:Hassert; [contradiction|].
      rewrite Hbody. apply orb_false_elim in Hassert.
      destruct Hassert as [Hndebug Hno].
      split; [exact Hndebug|]. split; [reflexivity|].
      exists s, c. repeat split; try assumption.
      apply negb_false_iff in Hno. now apply Z.eqb_eq.
  - destruct (PMTDecoder.fRequireKnownBoards this) eqn:Hstrict;
      rewrite Hbody.
    + split; [reflexivity|]. exists s. split; [exact Hin|].
      rewrite Hc. now split.
    + repeat split. now exists s.
Qed.

End MatchingProperties.



Lemma setupRun_without_configuration_of_the_first_board_witness :
  setupRun (default_decoder [setup_without_ID "icaruspmtwwtop01"])
           (fun _ => None)
  = ([], Throw (NoDAQConfiguration "icaruspmtwwtop01")).
Proof.
  refine (@setupRun_without_configuration_of_the_first_board _ _ _
            (default_decoder [setup_without_ID "icaruspmtwwtop01"])
            (fun _ => None) (convert (setup_without_ID "icaruspmtwwtop01"))
            [] _ _ _); reflexivity.
Defined.


Lemma boards_without_setup_are_ignored_witness :
  matchBoardConfigurationAndSetup offline_tool
    (Some (PMTconfiguration.mk
             ([board_config "icaruspmtwwtop01" 8195]
              ++ [board_config "icaruspmtwwtop02" 8196])))
  = matchBoardConfigurationAndSetup offline_tool
      (Some (PMTconfiguration.mk [board_config "icaruspmtwwtop01" 8195])).
Proof.
  apply (@boards_without_setup_are_ignored _ _ _ offline_tool
           [board_config "icaruspmtwwtop01" 8195]
           [board_config "icaruspmtwwtop02" 8196]).
  - simpl. constructor; [|constructor; [|constructor]].
    + intros [H|[]]. discriminate H.
    + intros [].
  - intros boardSetup other [<-|[]] [<-|[]]. discriminate.
Defined.

(** ** Sequences of fragments, messages, and the arithmetic of the header *)

Section FragmentSequences.

Context {Q : Quantities} {S : StdAlgorithm} {P : Platform}.

(** [process_fragment] with a collection to add to. *)
Lemma process_fragment_Some (this : PMTDecoder.t) (f : Fragment.t)
    (c : list OpDetWaveform.t) :
  PMTDecoder.fOpDetWaveformCollection this = Some c ->
  outcome (process_fragment this f)
  = and_then (decoded_waveforms this f)
      (fun waveforms =>
         Normal (PMTDecoder.set_fOpDetWaveformCollection this
                   (Some (c ++ waveforms)))).
Proof.
  intros Hcoll. rewrite process_fragment_outcomes. unfold decoded_waveforms.
  rewrite Hcoll.
  destruct (nChannelsPerBoard f =? 0); [reflexivity|].
  destruct (hasPMTDigitizerID _ _).
  - destruct (PMTDecoder.fBoardInfoLookup this) as [lookup|];
      [|now destruct NDEBUG].
    destruct (outcome (fragmentTimeStamp this (fragment_id f)))
      as [r|e|u|]; try reflexivity.
    simpl. rewrite emplaceWaveforms_Some.
    destruct (forallb _ _); [|reflexivity].
    simpl. now destruct (PMTDecoder.fDiagnosticOutput this).
  - simpl. rewrite app_nil_r.
    now destruct (PMTDecoder.fDiagnosticOutput this).
Qed.

(** [process_fragment] behind a null collection pointer. *)
Lemma process_fragment_None (this this' : PMTDecoder.t) (f : Fragment.t) :
  PMTDecoder.fOpDetWaveformCollection this = None ->
  outcome (process_fragment this f) = Normal this' ->
  this' = this.
Proof.
  intros Hcoll Hout.
  destruct (process_fragment_Normal_inv _ _ Hout) as [Hthis _].
  rewrite Hthis. clear Hthis.
  assert (Hnone : PMTDecoder.fOpDetWaveformCollection this' = None).
  { revert Hout. rewrite process_fragment_outcomes, Hcoll.
    destruct (nChannelsPerBoard f =? 0); [discriminate|].
    assert (Hend : forall coll,
               and_then (Normal coll)
                 (fun collection =>
                    if PMTDecoder.fDiagnosticOutput this
                    then match collection with
                         | Some _ =>
                             Normal (PMTDecoder.set_fOpDetWaveformCollection
                                       this collection)
                         | None => Undefined NullDereference
                         end
                    else Normal (PMTDecoder.set_fOpDetWaveformCollection this
                                   collection))
               = Normal this' ->
               coll = None ->
               PMTDecoder.fOpDetWaveformCollection this' = None).
    { intros coll Hout ->. simpl in Hout.
      destruct (PMTDecoder.fDiagnosticOutput this); [discriminate|].
      now injection Hout as <-. }
    destruct (hasPMTDigitizerID _ _).
    - destruct (PMTDecoder.fBoardInfoLookup this) as [lookup|];
        [|now destruct NDEBUG].
      destruct (outcome (fragmentTimeStamp this (fragment_id f)))
        as [r|e|u|]; try discriminate.
      unfold and_then at 2. rewrite emplaceWaveforms_None.
      destruct (getChannelIDPairVec _ _) as [|channel vec].
      + intros Hout. now apply Hend in Hout.
      + now destruct (within_datab _ _ channel).
    - intros Hout. now apply Hend in Hout. }
  rewrite Hnone, <- Hcoll. apply set_fOpDetWaveformCollection_same.
Qed.

(** X16: two fragments decoded one after the other: if the decoding
    returns in one order it returns in the other, with the same waveforms
    collected in another order and nothing else changed in the decoder. *)
Theorem fragments_in_either_order (this this12 : PMTDecoder.t)
    (f1 f2 : Fragment.t) :
  and_then (outcome (process_fragment this f1))
    (fun this1 => outcome (process_fragment this1 f2)) = Normal this12 ->
  exists this21,
    and_then (outcome (process_fragment this f2))
      (fun this2 => outcome (process_fragment this2 f1)) = Normal this21 /\
    Permutation
      (collected (PMTDecoder.fOpDetWaveformCollection this12))
      (collected (PMTDecoder.fOpDetWaveformCollection this21)) /\
    PMTDecoder.set_fOpDetWaveformCollection this12 None
    = PMTDecoder.set_fOpDetWaveformCollection this21 None.
Proof.
  destruct (PMTDecoder.fOpDetWaveformCollection this) as [c|] eqn:Hcoll.
  - rewrite (process_fragment_Some this f1 Hcoll),
            (process_fragment_Some this f2 Hcoll).
    destruct (decoded_waveforms this f1) as [ws1|e|u|] eqn:H1;
      try discriminate.
    simpl.
    rewrite (@process_fragment_Some _ f2 (c ++ ws1)) by reflexivity.
    change (decoded_waveforms
              (PMTDecoder.set_fOpDetWaveformCollection this (Some (c ++ ws1)))
              f2)
      with (decoded_waveforms this f2).
    destruct (decoded_waveforms this f2) as [ws2|e|u|] eqn:H2;
      try discriminate.
    simpl. intros [= <-].
    rewrite (@process_fragment_Some _ f1 (c ++ ws2)) by reflexivity.
    change (decoded_waveforms
              (PMTDecoder.set_fOpDetWaveformCollection this (Some (c ++ ws2)))
              f1)
      with (decoded_waveforms this f1).
    rewrite H1. simpl. eexists. split; [reflexivity|]. simpl.
    split; [|reflexivity].
    rewrite <- !app_assoc. apply Permutation_app_head, Permutation_app_comm.
  - destruct (outcome (process_fragment this f1)) as [this1|e|u|] eqn:H1;
      try discriminate.
    simpl. intros H2.
    pose proof (process_fragment_None _ _ Hcoll H1). subst this1.
    pose proof (process_fragment_None _ _ Hcoll H2). subst this12.
    exists this. rewrite H2. simpl. rewrite H1.
    repeat split; reflexivity.
Qed.

End FragmentSequences.

Lemma fragments_in_either_order_witness :
  exists this12 this21,
    and_then (outcome (process_fragment online_monitor example_fragment))
      (fun this1 => outcome (process_fragment this1 stray_fragment))
    = Normal this12 /\
    and_then (outcome (process_fragment online_monitor stray_fragment))
      (fun this2 => outcome (process_fragment this2 example_fragment))
    = Normal this21 /\
    Permutation
      (collected (PMTDecoder.fOpDetWaveformCollection this12))
      (collected (PMTDecoder.fOpDetWaveformCollection this21)) /\
    PMTDecoder.set_fOpDetWaveformCollection this12 None
    = PMTDecoder.set_fOpDetWaveformCollection this21 None.
Proof.
  eexists.
  refine ((fun H12 =>
             match @fragments_in_either_order _ _ online_monitor _
                     example_fragment stray_fragment H12 with
             | ex_intro _ this21 H21 => ex_intro _ this21 (conj H12 H21)
             end) _).
  reflexivity.
Defined.

Section FragmentMessages.

Context {Q : Quantities} {S : StdAlgorithm} {P : Platform}.

Lemma channelWaveform_length (timeStamp : electronics_time) (n : Z)
    (data : list Z) (channel : Z * Z) :
  0 <= n -> within_data n data channel ->
  Z.of_nat (List.length (OpDetWaveform.Waveform
                           (channelWaveform timeStamp n data channel))) = n.
Proof.
  unfold within_data, channelWaveform, size_t. simpl. intros Hn Hin.
  pose proof (Z.mod_pos_bound (fst channel * n) (2 ^ 64)).
  rewrite length_firstn, length_skipn. lia.
Qed.

Lemma bind_Normal_l (A B : Type) (lg : list message) (a : A)
    (k : A -> M B) :
  bind (lg, Normal a) k = (lg ++ messages (k a), outcome (k a)).
Proof. simpl. now destruct (k a). Qed.

(** The loop on the channels, with its messages. *)
Lemma emplaceWaveforms_messages (timeStamp : electronics_time) (n : Z)
    (data : list Z) (vec : list (Z * Z)) :
  0 <= n -> Forall (within_data n data) vec ->
  forall c,
    emplaceWaveforms timeStamp n data vec (Some c)
    = (map (fun channel => LogTrace_Channel (snd channel) n timeStamp) vec,
       Normal (Some (c ++ map (channelWaveform timeStamp n data) vec))).
Proof.
  intros Hn. induction 1 as [|channel vec Hin Hall IH]; intros c.
  - simpl. now rewrite app_nil_r.
  - destruct channel as [digitizerChannel channelID].
    pose proof (channelWaveform_length timeStamp Hn Hin) as Hlength.
    unfold within_data in Hin. simpl in Hin. apply Z.leb_le in Hin.
    simpl. unfold copy_n. rewrite Hin. bind_ret.
    unfold channelWaveform in Hlength. simpl in Hlength. rewrite Hlength.
    rewrite IH. unfold channelWaveform at 2. simpl.
    now rewrite <- app_assoc.
Qed.

(** X17: the messages of a fragment that is decoded.  One trace for the
    board and one for each channel, in the order of the channel map, each
    with the number of samples per channel and the time stamp; with the
    diagnostic output, the message on the fragment before them and after
    them the size of the collection, which has grown by the number of
    channels. *)
Theorem messages_of_a_decoded_fragment (this : PMTDecoder.t)
    (f : Fragment.t) (r : NeededBoardInfo_t.t * electronics_time)
    (c : list OpDetWaveform.t) :
  nChannelsPerBoard f <> 0 ->
  hasPMTDigitizerID (PMTDecoder.fChannelMap this) (eff_fragment_id f) = true ->
  outcome (fragmentTimeStamp this (fragment_id f)) = Normal r ->
  PMTDecoder.fOpDetWaveformCollection this = Some c ->
  let n := uint32 (data_size_double_bytes f / nChannelsPerBoard f) in
  let digitizerChannelVec :=
    getChannelIDPairVec (PMTDecoder.fChannelMap this) (eff_fragment_id f) in
  Forall (within_data n (Fragment.data f)) digitizerChannelVec ->
  messages (process_fragment this f)
  = (if PMTDecoder.fDiagnosticOutput this
     then [LogVerbatim_Fragment (fragment_id f) (boardId f)
             (nChannelsPerBoard f) n (ev_size_quad_bytes f)
             (data_size_double_bytes f) (time_tag f)]
     else [])
    ++ LogTrace_Board (NeededBoardInfo_t.name (fst r)) (snd r)
         (TriggerTime (PMTDecoder.fDetTimings this))
         (NeededBoardInfo_t.PMTtriggerDelay (fst r))
         (NeededBoardInfo_t.preTriggerTime (fst r))
    :: map (fun channel => LogTrace_Channel (snd channel) n (snd r))
         digitizerChannelVec
    ++ (if PMTDecoder.fDiagnosticOutput this
        then [LogVerbatim_CollectionSize
                (Z.of_nat (List.length c)
                 + Z.of_nat (List.length digitizerChannelVec))]
        else []).
Proof.
  intros Hnch Hhas Htime Hcoll n vec Hall.
  assert (Hn : 0 <= n) by (apply Z.mod_pos_bound; lia).
  assert (Hstamp :
            fragmentTimeStamp this (fragment_id f)
            = ([LogTrace_Board (NeededBoardInfo_t.name (fst r)) (snd r)
                  (TriggerTime (PMTDecoder.fDetTimings this))
                  (NeededBoardInfo_t.PMTtriggerDelay (fst r))
                  (NeededBoardInfo_t.preTriggerTime (fst r))],
               Normal r)).
  { revert Htime. unfold fragmentTimeStamp.
    destruct (PMTDecoder.fBoardInfoLookup this) as [lookup|];
      [|discriminate].
    bind_ret. cbv zeta.
    destruct (BoardInfoLookup.findBoardInfo lookup (fragment_id f)) as [i|].
    - unfold assert.
      destruct (NDEBUG || (BoardInfo_t.fragmentID i =? fragment_id f));
        [|discriminate].
      bind_ret.
      destruct (NDEBUG || _); [|discriminate].
      bind_ret. simpl. now intros [= <-].
    - destruct (PMTDecoder.fRequireKnownBoards this); [discriminate|].
      simpl. now intros [= <-]. }
  assert (Hlookup : PMTDecoder.fBoardInfoLookup this <> None).
  { intros Hnone. rewrite fragmentTimeStamp_outcomes, Hnone in Htime.
    discriminate. }
  unfold process_fragment, nSamplesPerChannel.
  apply Z.eqb_neq in Hnch. rewrite Hnch, Hhas, Hstamp, Hcoll. bind_ret.
  unfold assert.
  destruct (PMTDecoder.fBoardInfoLookup this); [|now elim Hlookup].
  rewrite orb_true_r. bind_ret. cbv zeta. fold n vec.
  rewrite bind_Normal_l.
  rewrite (emplaceWaveforms_messages (snd r) Hn Hall).
  destruct (PMTDecoder.fDiagnosticOutput this); simpl;
    rewrite ?app_nil_r; [|reflexivity].
  rewrite length_app, length_map, Nat2Z.inj_add. reflexivity.
Qed.

(** X18: a fragment whose data have the size the header declares is read
    within its bounds when the digitizer channels of the channel map are
    channels of the board: the decoding does not read beyond the data. *)
Theorem consistent_fragment_is_read_within_bounds (this : PMTDecoder.t)
    (f : Fragment.t) :
  data_size_double_bytes f <= Z.of_nat (List.length (Fragment.data f)) ->
  Forall (fun channel => 0 <= fst channel < nChannelsPerBoard f)
         (getChannelIDPairVec (PMTDecoder.fChannelMap this)
            (eff_fragment_id f)) ->
  Forall (within_data
            (uint32 (data_size_double_bytes f / nChannelsPerBoard f))
            (Fragment.data f))
         (getChannelIDPairVec (PMTDecoder.fChannelMap this)
            (eff_fragment_id f)) /\
  outcome (process_fragment this f) <> Undefined OutOfBoundsRead.
Proof.
  intros Hsize Hchannels.
  assert (Hwithin :
            Forall (within_data
                      (uint32 (data_size_double_bytes f / nChannelsPerBoard f))
                      (Fragment.data f))
                   (getChannelIDPairVec (PMTDecoder.fChannelMap this)
                      (eff_fragment_id f))).
  { eapply Forall_impl; [|exact Hchannels].
    intros channel Hchannel. simpl in Hchannel. unfold within_data.
    assert (Hds : 0 <= data_size_double_bytes f < 2 ^ 32)
      by (apply Z.mod_pos_bound; lia).
    assert (Hnch : 0 < nChannelsPerBoard f) by lia.
    assert (Hq : 0 <= data_size_double_bytes f / nChannelsPerBoard f
                 <= data_size_double_bytes f).
    { split; [apply Z.div_pos; lia|]. apply Z.div_le_upper_bound; nia. }
    rewrite uint32_small by lia.
    assert (Hmul : nChannelsPerBoard f
                   * (data_size_double_bytes f / nChannelsPerBoard f)
                   <= data_size_double_bytes f)
      by (apply Z.mul_div_le; lia).
    assert (Hnch32 : nChannelsPerBoard f < 2 ^ 32).
    { unfold nChannelsPerBoard, size_t, uint32.
      pose proof (Z.mod_pos_bound (Fragment.nChannels f) (2 ^ 32)).
      rewrite (Z.mod_small (_ mod 2 ^ 32)); lia. }
    rewrite size_t_small by nia. nia. }
  split; [exact Hwithin|].
  rewrite process_fragment_outcomes.
  destruct (nChannelsPerBoard f =? 0); [discriminate|].
  apply forallb_within_data in Hwithin.
  destruct (hasPMTDigitizerID _ _).
  - destruct (PMTDecoder.fBoardInfoLookup this) as [lookup|] eqn:Hlookup;
      [|now destruct NDEBUG].
    destruct (outcome (fragmentTimeStamp this (fragment_id f)))
      as [r|e|u|] eqn:Htime; try discriminate.
    + unfold and_then at 2.
      destruct (PMTDecoder.fOpDetWaveformCollection this) as [c|].
      * rewrite emplaceWaveforms_Some, Hwithin. simpl.
        now destruct (PMTDecoder.fDiagnosticOutput this).
      * rewrite emplaceWaveforms_None.
        destruct (getChannelIDPairVec _ _) as [|channel vec].
        -- simpl. now destruct (PMTDecoder.fDiagnosticOutput this).
        -- simpl in Hwithin. apply andb_prop in Hwithin.
           destruct Hwithin as [-> _]. discriminate.
    + simpl. rewrite fragmentTimeStamp_outcomes, Hlookup in Htime.
      cbv zeta in Htime.
      destruct (BoardInfoLookup.findBoardInfo _ _);
        [destruct (NDEBUG || _)|destruct (PMTDecoder.fRequireKnownBoards this)];
        discriminate.
  - simpl. destruct (PMTDecoder.fDiagnosticOutput this); [|discriminate].
    destruct (PMTDecoder.fOpDetWaveformCollection this); discriminate.
Qed.

End FragmentMessages.

Section FragmentHeader.

Context {P : Platform}.

(** X19: the identifiers of a fragment.  The fragment ID is the
    identifier of the header modulo 2^16; the effective fragment ID, by
    which the channel map is read, is its lowest 12 bits; the board ID of
    the diagnostic output is the product of the number of channels and the
    effective fragment ID, without overflow. *)
Theorem identifiers_of_a_fragment (f : Fragment.t) :
  fragment_id f = Fragment.header_fragment_id f mod 2 ^ 16 /\
  eff_fragment_id f = Fragment.header_fragment_id f mod 2 ^ 12 /\
  eff_fragment_id f = fragment_id f mod 2 ^ 12 /\
  boardId f = nChannelsPerBoard f * eff_fragment_id f.
Proof.
  pose proof (uint16_range (Fragment.header_fragment_id f)) as H16.
  assert (Hid : fragment_id f = Fragment.header_fragment_id f mod 2 ^ 16).
  { rewrite fragment_id_fragmentID. reflexivity. }
  assert (Heff : eff_fragment_id f = fragment_id f mod 2 ^ 12).
  { unfold eff_fragment_id. rewrite <- fragment_id_fragmentID.
    change 0x0fff with (Z.ones 12). rewrite Z.land_ones by lia.
    apply size_t_small.
    pose proof (Z.mod_pos_bound (fragment_id f) (2 ^ 12)). lia. }
  split; [exact Hid|]. split; [|split; [exact Heff|]].
  - rewrite Heff, Hid. apply Z.mod_mod_divide.
    exists (2 ^ 4). reflexivity.
  - unfold boardId. apply size_t_small.
    assert (Hnch : 0 <= nChannelsPerBoard f < 2 ^ 32).
    { unfold nChannelsPerBoard, size_t, uint32.
      pose proof (Z.mod_pos_bound (Fragment.nChannels f) (2 ^ 32)).
      rewrite (Z.mod_small (_ mod 2 ^ 32)); lia. }
    pose proof (Z.mod_pos_bound (fragment_id f) (2 ^ 12)).
    rewrite Heff. nia.
Qed.

(** X20: an event size smaller than the size of the event header wraps
    around in the unsigned subtraction: the data size is then 2^32 less
    twice the difference, and not zero. *)
Theorem event_smaller_than_its_header (f : Fragment.t) :
  0 <= Fragment.eventSize f < evt_header_words ->
  evt_header_words <= 2 ^ 31 ->
  data_size_double_bytes f
  = 2 ^ 32 - 2 * (evt_header_words - Fragment.eventSize f).
Proof.
  intros Hsize Hheader.
  unfold data_size_double_bytes, ev_size_quad_bytes,
    evt_header_size_quad_bytes, uint32.
  rewrite (Z.mod_small (Fragment.eventSize f)) by lia.
  rewrite (Z.mod_small evt_header_words) by lia.
  replace ((Fragment.eventSize f - evt_header_words) mod 2 ^ 32)
    with (2 ^ 32 + Fragment.eventSize f - evt_header_words).
  - replace (2 * (2 ^ 32 + Fragment.eventSize f - evt_header_words))
      with (2 ^ 32 - 2 * (evt_header_words - Fragment.eventSize f)
            + 1 * 2 ^ 32) by lia.
    rewrite Z.mod_add by lia. apply Z.mod_small. lia.
  - symmetry.
    replace (Fragment.eventSize f - evt_header_words)
      with (2 ^ 32 + Fragment.eventSize f - evt_header_words + (-1) * 2 ^ 32)
      by lia.
    rewrite Z.mod_add by lia. apply Z.mod_small. lia.
Qed.

End FragmentHeader.

Lemma messages_of_a_decoded_fragment_witness :
  exists r,
    outcome (fragmentTimeStamp online_monitor (fragment_id example_fragment))
    = Normal r /\
    messages (process_fragment online_monitor example_fragment)
    = [LogTrace_Board (NeededBoardInfo_t.name (fst r)) (snd r)
         (TriggerTime (PMTDecoder.fDetTimings online_monitor))
         (NeededBoardInfo_t.PMTtriggerDelay (fst r))
         (NeededBoardInfo_t.preTriggerTime (fst r));
       LogTrace_Channel 101 4 (snd r);
       LogTrace_Channel 102 4 (snd r)].
Proof.
  eexists. split; [reflexivity|].
  refine (@messages_of_a_decoded_fragment _ _ online_monitor example_fragment
            _ [] _ _ _ _ _).
  - vm_compute. discriminate.
  - reflexivity.
  - reflexivity.
  - reflexivity.
  - repeat constructor; vm_compute; discriminate.
Defined.

Lemma consistent_fragment_is_read_within_bounds_witness :
  Forall (within_data
            (uint32 (data_size_double_bytes example_fragment
                     / nChannelsPerBoard example_fragment))
            (Fragment.data example_fragment))
         (getChannelIDPairVec (PMTDecoder.fChannelMap online_monitor)
            (eff_fragment_id example_fragment)) /\
  outcome (process_fragment online_monitor example_fragment)
  <> Undefined OutOfBoundsRead.
Proof.
  apply (@consistent_fragment_is_read_within_bounds _ _ online_monitor
           example_fragment).
  - vm_compute. discriminate.
  - repeat constructor; vm_compute; discriminate.
Defined.

Lemma event_smaller_than_its_header_witness :
  data_size_double_bytes headerless_fragment = 2 ^ 32 - 2.
Proof.
  apply (@event_smaller_than_its_header debug_build headerless_fragment).
  - split; vm_compute; [discriminate|reflexivity].
  - vm_compute. discriminate.
Defined.

(** ** The board database and the whole event *)

Section Database.

Context {Q : Quantities} {S : StdAlgorithm} {P : Platform}.

Lemma find_fragmentID_NoDup (l : list BoardInfo_t.t) (i : BoardInfo_t.t) :
  NoDup (map BoardInfo_t.fragmentID l) -> In i l ->
  find (fun e => BoardInfo_t.fragmentID e =? BoardInfo_t.fragmentID i) l
  = Some i.
Proof.
  induction l as [|a l IH]; simpl; [contradiction|].
  intros Hnodup [<-|Hin]; [now rewrite Z.eqb_refl|].
  inversion Hnodup as [|x l' Hnotin Hnodup']; subst.
  destruct (Z.eqb_spec (BoardInfo_t.fragmentID a) (BoardInfo_t.fragmentID i))
    as [Heq|_]; [|now apply IH].
  elim Hnotin. rewrite Heq. now apply in_map.
Qed.

Lemma find_fragmentID_None (l : list BoardInfo_t.t) (id : Z) :
  find (fun e => BoardInfo_t.fragmentID e =? id) l = None
  <-> ~ In id (map BoardInfo_t.fragmentID l).
Proof.
  induction l as [|a l IH]; simpl; [tauto|].
  destruct (Z.eqb_spec (BoardInfo_t.fragmentID a) id) as [Heq|Hneq].
  - split; [discriminate|]. intros H. elim H. now left.
  - rewrite IH. tauto.
Qed.

(** The lookup in the database made of some records. *)
Lemma findBoardInfo_ctor (infos : list BoardInfo_t.t) :
  (forall id,
      BoardInfoLookup.findBoardInfo (BoardInfoLookup.ctor infos) id = None
      <-> ~ In id (map BoardInfo_t.fragmentID infos)) /\
  (NoDup (map BoardInfo_t.fragmentID infos) ->
   forall i, In i infos ->
     BoardInfoLookup.findBoardInfo (BoardInfoLookup.ctor infos)
       (BoardInfo_t.fragmentID i) = Some i).
Proof.
  pose proof (database_Permutation infos) as Hperm.
  split.
  - intros id. unfold BoardInfoLookup.findBoardInfo, binarySearch.
    rewrite find_fragmentID_None.
    split; intros Hnotin Hin; apply Hnotin;
      [apply (Permutation_in _ (Permutation_map _ Hperm))
      |apply (Permutation_in _ (Permutation_sym (Permutation_map _ Hperm)))];
      exact Hin.
  - intros Hnodup i Hin.
    apply find_fragmentID_NoDup.
    + apply (Permutation_NoDup (Permutation_map _ Hperm) Hnodup).
    + now apply (Permutation_in _ Hperm).
Qed.

(** X21: the lookup in the database the matching returns.  A fragment ID
    is unknown exactly when no record made for a board setup has it; a
    record that is found has the fragment ID asked for and was made for a
    board setup; and when the fragment IDs of the records are pairwise
    distinct, each record is found by its fragment ID. *)
Theorem lookup_in_the_database (this : PMTDecoder.t)
    (PMTconfig : option PMTconfiguration.t) lg lookup :
  matchBoardConfigurationAndSetup this PMTconfig = (lg, Normal lookup) ->
  let made :=
    flat_map (records_of this (configByName_of PMTconfig))
             (PMTDecoder.fBoardSetup this) in
  (forall id,
      BoardInfoLookup.findBoardInfo lookup id = None
      <-> ~ In id (map BoardInfo_t.fragmentID made)) /\
  (forall id i,
      BoardInfoLookup.findBoardInfo lookup id = Some i ->
      BoardInfo_t.fragmentID i = id /\ In i made) /\
  (NoDup (map BoardInfo_t.fragmentID made) ->
   forall i, In i made ->
     BoardInfoLookup.findBoardInfo lookup (BoardInfo_t.fragmentID i)
     = Some i).
Proof.
  intros Hmatch made.
  pose proof (matchBoardConfigurationAndSetup_Normal_inv _ _ Hmatch)
    as Hserved.
  rewrite (matchBoardConfigurationAndSetup_served PMTconfig Hserved)
    in Hmatch.
  injection Hmatch as _ <-. fold made.
  destruct (findBoardInfo_ctor made) as [Hnone Hsome].
  split; [exact Hnone|]. split; [|exact Hsome].
  intros id i Hfind. apply findBoardInfo_fragmentID in Hfind.
  destruct Hfind as [Hid Hin]. split; [exact Hid|].
  apply (Permutation_in _ (Permutation_sym (database_Permutation made))).
  exact Hin.
Qed.

(** X22: the fragment ID of a board setup is set exactly when the
    configuration of the tool gives one that is not the value that stands
    for none: a [FragmentID] of that value is taken as omitted. *)
Theorem fragment_ID_of_a_board_setup (config : BoardSetupConfig.t) :
  BoardSetup_t.hasFragmentID (convert config) = true
  <-> exists id, BoardSetupConfig.FragmentID config = Some id /\
                 id <> NoFragmentID.
Proof.
  unfold BoardSetup_t.hasFragmentID, convert. simpl.
  destruct (BoardSetupConfig.FragmentID config) as [id|].
  - rewrite negb_true_iff, Z.eqb_neq. split.
    + intros Hid. now exists id.
    + now intros (id' & [= <-] & Hid).
  - rewrite Z.eqb_refl. simpl. split; [discriminate|].
    now intros (id & Hid & _).
Qed.


End Database.

Lemma lookup_in_the_database_witness :
  let PMTconfig :=
    Some (PMTconfiguration.mk [board_config "icaruspmtwwtop01" 8195]) in
  let made :=
    flat_map (records_of offline_tool (configByName_of PMTconfig))
             (PMTDecoder.fBoardSetup offline_tool) in
  exists lg lookup,
    matchBoardConfigurationAndSetup offline_tool PMTconfig
    = (lg, Normal lookup) /\
    (forall id,
        BoardInfoLookup.findBoardInfo lookup id = None
        <-> ~ In id (map BoardInfo_t.fragmentID made)) /\
    (forall id i,
        BoardInfoLookup.findBoardInfo lookup id = Some i ->
        BoardInfo_t.fragmentID i = id /\ In i made) /\
    (NoDup (map BoardInfo_t.fragmentID made) ->
     forall i, In i made ->
       BoardInfoLookup.findBoardInfo lookup (BoardInfo_t.fragmentID i)
       = Some i).
Proof.
  intros PMTconfig made. eexists. eexists.
  refine ((fun Hmatch =>
             conj Hmatch
               (@lookup_in_the_database _ _ _ offline_tool PMTconfig _ _
                  Hmatch)) _).
  reflexivity.
Defined.


(** * Part VII: properties of the trigger gate data products *)

Section TriggerGateData.

Import TriggerDataUtils TriggerGates.

Variables Waveform TriggerGateData GatePtr WaveformPtr : Type.
Variable empty : TriggerGateData.
Variable moved_from : TriggerGateData -> TriggerGateData.
Variable makeGatePtr : nat -> GatePtr.
Variable key : GatePtr -> nat.
Variable deref : WaveformPtr -> Waveform.
Variable opDetWavePtrs : Waveform -> option WaveformPtr.

Context {G : Type} {GO : GateObject G Waveform TriggerGateData}.

Lemma transformLoop_map (gates : list (Gate Waveform TriggerGateData)) :
  forall gateData,
    transformLoop empty moved_from gates gateData
    = (gateData ++ map (serialized empty) gates,
       map (depleted moved_from) gates).
Proof.
  induction gates as [|gate gates IH]; intros gateData; simpl.
  - now rewrite app_nil_r.
  - unfold serialized, depleted.
    destruct (waveforms gate) as [|w ws] eqn:Hw;
      rewrite IH, <- app_assoc; reflexivity.
Qed.

Lemma waveforms_depleted (gate : Gate Waveform TriggerGateData) :
  waveforms (depleted moved_from gate) = waveforms gate.
Proof. unfold depleted. now destruct (waveforms gate) eqn:Hw. Qed.

(** X24: [transformIntoOpticalTriggerGate(gates)] returns one trigger
    gate datum for each gate, in the order of the gates: the levels of the
    gate, or an empty datum for a gate without waveforms, whatever its
    levels are.  The levels of the gates with waveforms are moved away;
    the gates without waveforms keep theirs, and every gate keeps its
    waveforms. *)
Theorem gate_data_of_the_gates
    (gates : list (Gate Waveform TriggerGateData)) :
  let (gateData, gates') :=
    transformIntoOpticalTriggerGate empty moved_from gates in
  gateData = map (serialized empty) gates /\
  List.length gateData = List.length gates /\
  gates' = map (depleted moved_from) gates /\
  map (@waveforms _ _) gates' = map (@waveforms _ _) gates.
Proof.
  unfold transformIntoOpticalTriggerGate. rewrite transformLoop_map. simpl.
  split; [reflexivity|]. split; [apply length_map|]. split; [reflexivity|].
  rewrite map_map. apply map_ext. apply waveforms_depleted.
Qed.

Lemma addWaveforms_mapped (gatePtr : GatePtr) (ws : list Waveform) :
  forall gateToWaveforms,
    addWaveforms opDetWavePtrs gatePtr ws gateToWaveforms
    = if forallb (fun waveform =>
                    match opDetWavePtrs waveform with
                    | Some _ => true
                    | None => false
                    end) ws
      then inr (gateToWaveforms
                ++ flat_map (fun waveform =>
                               match opDetWavePtrs waveform with
                               | Some ptr => [(gatePtr, ptr)]
                               | None => []
                               end) ws)
      else inl out_of_range.
Proof.
  induction ws as [|w ws IH]; intros gateToWaveforms; simpl.
  - now rewrite app_nil_r.
  - destruct (opDetWavePtrs w) as [ptr|]; [|reflexivity].
    rewrite IH. simpl. destruct (forallb _ ws); [|reflexivity].
    now rewrite <- app_assoc.
Qed.

Lemma associateLoop_mapped (gates : list (Gate Waveform TriggerGateData)) :
  forall iGate gateToWaveforms,
    associateLoop makeGatePtr opDetWavePtrs gates iGate gateToWaveforms
    = if forallb (mapped opDetWavePtrs) gates
      then inr (gateToWaveforms
                ++ flat_map (associationsOf makeGatePtr opDetWavePtrs)
                     (enumerate iGate gates))
      else inl out_of_range.
Proof.
  induction gates as [|gate gates IH]; intros iGate gateToWaveforms.
  - simpl. now rewrite app_nil_r.
  - simpl associateLoop. simpl forallb. unfold enumerate. simpl.
    fold (enumerate (Datatypes.S iGate) gates).
    unfold mapped at 1, associationsOf at 1. simpl.
    destruct (waveforms gate) as [|w ws] eqn:Hw.
    + simpl. apply IH.
    + rewrite addWaveforms_mapped.
      destruct (forallb _ (w :: ws)); [|reflexivity].
      rewrite IH. simpl. destruct (forallb _ gates); [|reflexivity].
      now rewrite <- app_assoc.
Qed.


Lemma forallb_mapped_depleted
    (gates : list (Gate Waveform TriggerGateData)) :
  forallb (mapped opDetWavePtrs) (map (depleted moved_from) gates)
  = forallb (mapped opDetWavePtrs) gates.
Proof.
  induction gates as [|gate gates IH]; [reflexivity|]. simpl.
  rewrite IH. unfold mapped at 1 3. now rewrite waveforms_depleted.
Qed.

Lemma associations_depleted (gates : list (Gate Waveform TriggerGateData)) :
  forall start,
    flat_map (associationsOf makeGatePtr opDetWavePtrs)
      (enumerate start (map (depleted moved_from) gates))
    = flat_map (associationsOf makeGatePtr opDetWavePtrs)
        (enumerate start gates).
Proof.
  unfold enumerate. rewrite length_map.
  induction gates as [|gate gates IH]; intros start; [reflexivity|].
  simpl. rewrite IH. f_equal.
  unfold associationsOf. simpl. now rewrite waveforms_depleted.
Qed.

(** X25: the overload that makes the associations returns the same data
    and, for each gate in the order of the gates, one association for each
    waveform of the gate in their order, from the pointer made of the index
    of the gate to the pointer the map has for the waveform; it throws
    [std::out_of_range] exactly when some waveform of some gate has no
    pointer in the map, and nothing else. *)
Theorem associations_of_the_gates
    (gates : list (Gate Waveform TriggerGateData)) :
  snd (transformIntoOpticalTriggerGate_Assns empty moved_from makeGatePtr
         opDetWavePtrs gates)
  = if forallb (mapped opDetWavePtrs) gates
    then inr (map (serialized empty) gates,
              flat_map (associationsOf makeGatePtr opDetWavePtrs)
                (enumerate 0 gates))
    else inl out_of_range.
Proof.
  unfold transformIntoOpticalTriggerGate_Assns,
    transformIntoOpticalTriggerGate.
  rewrite transformLoop_map. simpl. rewrite associateLoop_mapped.
  rewrite forallb_mapped_depleted.
  destruct (forallb _ gates); [|reflexivity].
  now rewrite associations_depleted.
Qed.

Lemma skipToGate_none (iGate : nat) (l : Assns GatePtr WaveformPtr) :
  Forall (fun a => key (fst a) <> iGate) l -> skipToGate key iGate l = [].
Proof.
  induction 1 as [|a l Ha Hl IH]; [reflexivity|]. simpl.
  apply Nat.eqb_neq in Ha. now rewrite Ha.
Qed.

Lemma waveformsOfGate_app (iGate : nat)
    (group rest : Assns GatePtr WaveformPtr) :
  Forall (fun a => key (fst a) = iGate) group ->
  Forall (fun a => key (fst a) <> iGate) rest ->
  waveformsOfGate key iGate (group ++ rest) = (group, rest).
Proof.
  intros Hgroup Hrest. induction Hgroup as [|a group Ha Hgroup IH]; simpl.
  - destruct Hrest as [|b rest Hb Hrest]; [reflexivity|]. simpl.
    apply Nat.eqb_neq in Hb. now rewrite Hb.
  - apply Nat.eqb_eq in Ha. now rewrite Ha, IH.
Qed.

Lemma keys_of_groups (start : nat)
    (groups : list (Assns GatePtr WaveformPtr)) :
  forall bound,
    (bound <= start)%nat ->
    Forall (ofGate key) (enumerate start groups) ->
    Forall (fun a => (bound <= key (fst a))%nat) (List.concat groups).
Proof.
  revert start. induction groups as [|group groups IH];
    intros start bound Hbound Hall; [constructor|].
  unfold enumerate in Hall. simpl in Hall.
  inversion Hall as [|x l Hgroup Hgroups]; subst.
  simpl. apply Forall_app. split.
  - eapply Forall_impl; [|exact Hgroup]. simpl. intros a ->. exact Hbound.
  - apply (IH (Datatypes.S start)); [lia|exact Hgroups].
Qed.

(** The loop on the gates over associations that are grouped by gate, in
    the order of the gates. *)
Lemma fillLoop_grouped (groups : list (Assns GatePtr WaveformPtr)) :
  forall (gates : list TriggerGateData) (start : nat) (allGates : list G),
    List.length groups = List.length gates ->
    Forall (ofGate key) (enumerate start groups) ->
    (Forall (fun group => group <> []) groups ->
     exists objects,
       fillLoop key deref gates start (List.concat groups) allGates
       = inr (allGates ++ objects) /\
       Forall2 (fun object indexed =>
                  objectOf deref (fst indexed) (snd indexed) object)
               objects (combine groups gates)) /\
    (forall pre post,
        groups = pre ++ [] :: post ->
        Forall (fun group => group <> []) pre ->
        fillLoop key deref gates start (List.concat groups) allGates
        = inl (NoWaveformForGate (start + List.length pre))).
Proof.
  induction groups as [|group groups IH];
    intros gates start allGates Hlength Hall.
  - destruct gates; [|discriminate]. split.
    + intros _. exists []. simpl. rewrite app_nil_r. split; constructor.
    + intros [|x pre] post; discriminate.
  - destruct gates as [|gate gates]; [discriminate|].
    injection Hlength as Hlength.
    unfold enumerate in Hall. simpl in Hall.
    inversion Hall as [|x l Hgroup Hgroups]; subst.
    fold (enumerate (Datatypes.S start) groups) in Hgroups.
    unfold ofGate in Hgroup. simpl in Hgroup.
    assert (Hrest : Forall (fun a => key (fst a) <> start) (List.concat groups)).
    { eapply Forall_impl;
        [|apply (@keys_of_groups (Datatypes.S start) groups
                   (Datatypes.S start) (le_n _) Hgroups)].
      simpl. intros a Ha. lia. }
    destruct group as [|first others].
    + split; [intros Hne; inversion Hne; congruence|].
      intros pre post Heq Hpre.
      destruct pre as [|x pre].
      * simpl. rewrite (skipToGate_none Hrest). simpl.
        now rewrite Nat.add_0_r.
      * injection Heq as <- _. inversion Hpre; congruence.
    + assert (Hstep :
                forall rest,
                  fillLoop key deref (gate :: gates) start
                    (List.concat ((first :: others) :: groups)) rest
                  = fillLoop key deref gates (Datatypes.S start)
                      (List.concat groups)
                      (rest ++ [gateObject deref first others gate])).
      { intros rest. simpl List.concat. simpl fillLoop.
        inversion Hgroup as [|y l' Hfirst Hothers]; subst.
        rewrite Nat.eqb_refl.
        change (first :: others ++ List.concat groups)
          with ((first :: others) ++ List.concat groups).
        rewrite (waveformsOfGate_app Hgroup Hrest). reflexivity. }
      destruct (IH gates (Datatypes.S start)
                  (allGates ++ [gateObject deref first others gate])
                  Hlength Hgroups) as [IHall IHnone].
      split.
      * intros Hne. inversion Hne as [|y l' _ Hne']; subst.
        destruct (IHall Hne') as (objects & Hfill & Hobjects).
        exists (gateObject deref first others gate :: objects).
        rewrite Hstep, Hfill, <- app_assoc. split; [reflexivity|].
        simpl. constructor; [|exact Hobjects].
        now exists first, others.
      * intros pre post Heq Hpre.
        destruct pre as [|x pre]; [discriminate|].
        injection Heq as <- Heq. inversion Hpre; subst.
        rewrite Hstep, (IHnone pre post); [|reflexivity|assumption].
        simpl. f_equal. f_equal. lia.
Qed.

(** X26: [FillTriggerGates] on associations that are grouped by gate in the
    order of the gates, each group with the key of its gate: when no group
    is empty it returns for each gate the object made of the waveforms of
    its group, added in their order, and of the data of the gate. *)
Theorem FillTriggerGates_of_grouped_associations
    (gates : list TriggerGateData)
    (groups : list (Assns GatePtr WaveformPtr)) :
  List.length groups = List.length gates ->
  Forall (ofGate key) (enumerate 0 groups) ->
  Forall (fun group => group <> []) groups ->
  exists allGates,
    FillTriggerGates key deref gates (List.concat groups) = inr allGates /\
    Forall2 (fun object indexed =>
               objectOf deref (fst indexed) (snd indexed) object)
            allGates (combine groups gates).
Proof.
  intros Hlength Hall Hne.
  destruct (@fillLoop_grouped groups gates 0%nat [] Hlength Hall)
    as [Hsome _].
  exact (Hsome Hne).
Qed.

(** X27: [FillTriggerGates] on associations that are grouped by gate in
    the order of the gates throws for the first gate whose group is empty,
    whatever follows. *)
Theorem FillTriggerGates_of_a_gate_without_association
    (gates : list TriggerGateData)
    (pre post : list (Assns GatePtr WaveformPtr)) :
  List.length (pre ++ [] :: post) = List.length gates ->
  Forall (ofGate key) (enumerate 0 (pre ++ [] :: post)) ->
  Forall (fun group => group <> []) pre ->
  @FillTriggerGates _ _ _ _ key deref G GO gates (List.concat (pre ++ [] :: post))
  = inl (NoWaveformForGate (List.length pre)).
Proof.
  intros Hlength Hall Hne.
  destruct (@fillLoop_grouped (pre ++ [] :: post) gates 0%nat [] Hlength Hall)
    as [_ Hnone].
  exact (Hnone pre post eq_refl Hne).
Qed.

Lemma fillLoop_outcomes (gates : list TriggerGateData) :
  forall (iGate : nat) (iGateToWaveform : Assns GatePtr WaveformPtr)
         (allGates : list G),
    match fillLoop key deref gates iGate iGateToWaveform allGates with
    | inr result =>
        exists objects,
          result = allGates ++ objects /\
          Forall2 (fun object gate => exists g, object = assign g gate)
                  objects gates
    | inl e =>
        exists k, (k < List.length gates)%nat /\
                  e = NoWaveformForGate (iGate + k)
    end.
Proof.
  induction gates as [|gate gates IH]; intros iGate it allGates.
  - simpl. exists []. split; [now rewrite app_nil_r|constructor].
  - simpl.
    destruct (waveformsOfGate key iGate (skipToGate key iGate it))
      as [[|first others] it'].
    + exists 0%nat. split; [simpl; lia|now rewrite Nat.add_0_r].
    + specialize (IH (Datatypes.S iGate) it'
                    (allGates ++ [gateObject deref first others gate])).
      destruct (fillLoop key deref gates (Datatypes.S iGate) it' _)
        as [e|result].
      * destruct IH as (k & Hk & ->). exists (Datatypes.S k).
        split; [simpl; lia|f_equal; lia].
      * destruct IH as (objects & -> & Hobjects).
        exists (gateObject deref first others gate :: objects).
        rewrite <- app_assoc. split; [reflexivity|].
        constructor; [|exact Hobjects]. unfold gateObject. eexists.
        reflexivity.
Qed.

(** X28: whatever the associations are, [FillTriggerGates] returns one
    object for each gate, in the order of the gates, which was last
    assigned the data of the gate, or it throws the exception of a gate of
    the collection; it throws no other exception. *)
Theorem outcomes_of_FillTriggerGates (gates : list TriggerGateData)
    (gateToWaveforms : Assns GatePtr WaveformPtr) :
  match FillTriggerGates key deref gates gateToWaveforms with
  | inr allGates =>
      Forall2 (fun object gate => exists g : G, object = assign g gate)
              allGates gates
  | inl e =>
      exists iGate, (iGate < List.length gates)%nat /\
                    e = NoWaveformForGate iGate
  end.
Proof.
  unfold FillTriggerGates.
  pose proof (fillLoop_outcomes gates 0 gateToWaveforms []) as H.
  destruct (fillLoop key deref gates 0 gateToWaveforms []) as [e|allGates].
  - destruct H as (k & Hk & ->). now exists k.
  - destruct H as (objects & -> & Hobjects). exact Hobjects.
Qed.



Lemma enumerate_cons (A : Type) (start : nat) (x : A) (l : list A) :
  enumerate start (x :: l) = (start, x) :: enumerate (Datatypes.S start) l.
Proof. reflexivity. Qed.

Lemma enumerate_app (A : Type) (l1 l2 : list A) :
  forall start,
    enumerate start (l1 ++ l2)
    = enumerate start l1 ++ enumerate (start + List.length l1) l2.
Proof.
  induction l1 as [|x l1 IH]; intros start.
  - simpl. now rewrite Nat.add_0_r.
  - simpl app. rewrite !enumerate_cons, IH. simpl.
    now rewrite Nat.add_succ_r.
Qed.

Lemma length_enumerate (A : Type) (l : list A) (start : nat) :
  List.length (enumerate start l) = List.length l.
Proof.
  unfold enumerate. rewrite length_combine, length_seq. apply Nat.min_id.
Qed.

(** The associations made of the gates are grouped by gate. *)
Lemma groups_of_gates (gates : list (Gate Waveform TriggerGateData)) :
  (forall i, key (makeGatePtr i) = i) ->
  forall start,
    Forall (ofGate key)
      (enumerate start
         (map (associationsOf makeGatePtr opDetWavePtrs)
            (enumerate start gates))).
Proof.
  intros Hkey. induction gates as [|gate gates IH]; intros start;
    [constructor|].
  rewrite enumerate_cons. simpl map. rewrite enumerate_cons.
  constructor; [|apply IH].
  unfold ofGate, associationsOf. simpl.
  apply Forall_forall. intros a Ha. apply in_flat_map in Ha.
  destruct Ha as (w & _ & Ha).
  destruct (opDetWavePtrs w); [|contradiction].
  destruct Ha as [<-|[]]. simpl. apply Hkey.
Qed.

Lemma fold_left_associations (gatePtr : GatePtr) (ws : list Waveform) :
  (forall w p, opDetWavePtrs w = Some p -> deref p = w) ->
  forallb (fun waveform =>
             match opDetWavePtrs waveform with
             | Some _ => true
             | None => false
             end) ws = true ->
  forall g : G,
    fold_left (fun gateData a => add gateData (deref (snd a)))
      (flat_map (fun waveform =>
                   match opDetWavePtrs waveform with
                   | Some ptr => [(gatePtr, ptr)]
                   | None => []
                   end) ws) g
    = fold_left add ws g.
Proof.
  intros Hderef. induction ws as [|w ws IH]; intros Hmapped g;
    [reflexivity|].
  simpl in Hmapped. simpl.
  destruct (opDetWavePtrs w) as [p|] eqn:Hp; [|discriminate].
  simpl. rewrite (Hderef w p Hp). now apply IH.
Qed.

(** The object made of the associations of a gate is the object made of
    its waveforms. *)
Lemma objectOf_associationsOf (iGate : nat)
    (gate : Gate Waveform TriggerGateData) (object : G) :
  (forall w p, opDetWavePtrs w = Some p -> deref p = w) ->
  mapped opDetWavePtrs gate = true ->
  objectOf deref (associationsOf makeGatePtr opDetWavePtrs (iGate, gate))
    (serialized empty gate) object ->
  rebuilt gate object.
Proof.
  intros Hderef Hmapped (first & others & Hgroup & ->).
  unfold associationsOf, mapped, serialized in *. simpl in Hgroup.
  destruct (waveforms gate) as [|w ws] eqn:Hw; [discriminate|].
  simpl in Hgroup, Hmapped.
  destruct (opDetWavePtrs w) as [p|] eqn:Hp; [|discriminate].
  injection Hgroup as <- <-.
  exists w, ws. split; [exact Hw|].
  unfold gateObject. simpl. rewrite (Hderef w p Hp).
  now rewrite fold_left_associations.
Qed.

Lemma associationsOf_nonempty (iGate : nat)
    (gate : Gate Waveform TriggerGateData) :
  waveforms gate <> [] -> mapped opDetWavePtrs gate = true ->
  associationsOf makeGatePtr opDetWavePtrs (iGate, gate) <> [].
Proof.
  unfold associationsOf, mapped. simpl.
  destruct (waveforms gate) as [|w ws]; [now intros H|].
  intros _. simpl. destruct (opDetWavePtrs w); discriminate.
Qed.

(** X29: the gates are read back from the data products made of them.
    When every gate has a waveform and every waveform has a pointer in the
    map, a pointer that finds it, [FillTriggerGates] on the data and the
    associations [transformIntoOpticalTriggerGate] returns gives, for each
    gate, the object constructed of its first waveform, to which the others
    were added in their order and the levels of the gate assigned. *)
Theorem gates_are_read_back (gates : list (Gate Waveform TriggerGateData)) :
  (forall i, key (makeGatePtr i) = i) ->
  (forall w p, opDetWavePtrs w = Some p -> deref p = w) ->
  Forall (fun gate => waveforms gate <> [] /\
                      mapped opDetWavePtrs gate = true) gates ->
  exists gateData gateToWaveforms allGates,
    snd (transformIntoOpticalTriggerGate_Assns empty moved_from makeGatePtr
           opDetWavePtrs gates)
    = inr (gateData, gateToWaveforms) /\
    FillTriggerGates key deref gateData gateToWaveforms = inr allGates /\
    Forall2 (fun object gate => rebuilt gate object) allGates gates.
Proof.
  intros Hkey Hderef Hgates.
  assert (Hmapped : forallb (mapped opDetWavePtrs) gates = true).
  { apply forallb_forall. intros gate Hin.
    rewrite Forall_forall in Hgates. now apply Hgates. }
  set (groups := map (associationsOf makeGatePtr opDetWavePtrs)
                   (enumerate 0 gates)).
  assert (Hne : Forall (fun group => group <> []) groups).
  { unfold groups. generalize 0%nat.
    induction Hgates as [|gate gates [Hw Hm] Hgates IH]; intros start;
      [constructor|].
    rewrite enumerate_cons. simpl. constructor.
    - now apply associationsOf_nonempty.
    - apply IH. simpl in Hmapped. now apply andb_prop in Hmapped. }
  destruct (@fillLoop_grouped groups (map (serialized empty) gates) 0%nat [])
    as [Hsome _].
  { unfold groups. now rewrite !length_map, length_enumerate. }
  { apply groups_of_gates. exact Hkey. }
  destruct (Hsome Hne) as (objects & Hfill & Hobjects).
  exists (map (serialized empty) gates), (List.concat groups), objects.
  split; [|split].
  - unfold transformIntoOpticalTriggerGate_Assns,
      transformIntoOpticalTriggerGate.
    rewrite transformLoop_map. simpl. rewrite associateLoop_mapped.
    rewrite forallb_mapped_depleted, Hmapped, associations_depleted.
    unfold groups. now rewrite <- flat_map_concat_map.
  - exact Hfill.
  - clear Hfill Hsome Hne. revert objects Hobjects. unfold groups.
    generalize 0%nat.
    induction Hgates as [|gate gates [Hw Hm] Hgates IH];
      intros start objects Hobjects.
    + inversion Hobjects. constructor.
    + rewrite enumerate_cons in Hobjects. simpl in Hobjects.
      inversion Hobjects as [|object x objects' l Hobject Hobjects']; subst.
      simpl in Hobject. constructor.
      * eapply objectOf_associationsOf; eassumption.
      * apply (IH (proj2 (andb_prop _ _ Hmapped)) (Datatypes.S start)).
        exact Hobjects'.
Qed.

(** X30: a gate without waveforms is not read back: the data products
    made of gates of which one has no waveform are refused by
    [FillTriggerGates], with the exception of the first such gate. *)
Theorem gate_without_waveforms_is_not_read_back
    (pre post : list (Gate Waveform TriggerGateData))
    (gate : Gate Waveform TriggerGateData) :
  (forall i, key (makeGatePtr i) = i) ->
  Forall (fun gate => waveforms gate <> [] /\
                      mapped opDetWavePtrs gate = true) pre ->
  waveforms gate = [] ->
  Forall (fun gate => mapped opDetWavePtrs gate = true) post ->
  exists gateData gateToWaveforms,
    snd (transformIntoOpticalTriggerGate_Assns empty moved_from makeGatePtr
           opDetWavePtrs (pre ++ gate :: post))
    = inr (gateData, gateToWaveforms) /\
    @FillTriggerGates _ _ _ _ key deref G GO gateData gateToWaveforms
    = inl (NoWaveformForGate (List.length pre)).
Proof.
  intros Hkey Hpre Hgate Hpost.
  assert (Hne : Forall (fun group => group <> [])
                  (map (associationsOf makeGatePtr opDetWavePtrs)
                     (enumerate 0 pre))).
  { generalize 0%nat.
    induction Hpre as [|g pre' [Hw Hm] Hpre' IH]; intros start;
      [constructor|].
    rewrite enumerate_cons. simpl. constructor.
    - now apply associationsOf_nonempty.
    - apply IH. }
  set (gates := pre ++ gate :: post).
  assert (Hmapped : forallb (mapped opDetWavePtrs) gates = true).
  { apply forallb_forall. intros g Hin. apply in_app_or in Hin.
    rewrite Forall_forall in Hpre, Hpost.
    destruct Hin as [Hin|[<-|Hin]].
    - now apply Hpre.
    - unfold mapped. now rewrite Hgate.
    - now apply Hpost. }
  set (groups := map (associationsOf makeGatePtr opDetWavePtrs)
                   (enumerate 0 gates)).
  assert (Hgroups :
            groups
            = map (associationsOf makeGatePtr opDetWavePtrs) (enumerate 0 pre)
              ++ [] :: map (associationsOf makeGatePtr opDetWavePtrs)
                         (enumerate (Datatypes.S (List.length pre)) post)).
  { unfold groups, gates. rewrite enumerate_app, map_app, enumerate_cons.
    simpl. unfold associationsOf at 2. simpl. now rewrite Hgate. }
  destruct (@fillLoop_grouped groups (map (serialized empty) gates) 0%nat [])
    as [_ Hnone].
  { unfold groups. now rewrite !length_map, length_enumerate. }
  { apply groups_of_gates. exact Hkey. }
  exists (map (serialized empty) gates), (List.concat groups).
  split.
  - unfold transformIntoOpticalTriggerGate_Assns,
      transformIntoOpticalTriggerGate.
    rewrite transformLoop_map. simpl. rewrite associateLoop_mapped.
    fold gates.
    rewrite forallb_mapped_depleted, Hmapped, associations_depleted.
    unfold groups. now rewrite <- flat_map_concat_map.
  - unfold FillTriggerGates. rewrite (Hnone _ _ Hgroups Hne).
    simpl. now rewrite length_map, length_enumerate.
Qed.

End TriggerGateData.

Lemma FillTriggerGates_of_grouped_associations_witness :
  exists allGates,
    TriggerDataUtils.FillTriggerGates (fun ptr : nat => ptr)
      (fun ptr : nat => ptr) [[1; 0]; [0; 1]]
      (List.concat [[(0, 10); (0, 11)]; [(1, 12)]]%nat)
    = inr allGates /\
    Forall2 (fun object indexed =>
               TriggerGates.objectOf (fun ptr : nat => ptr) (fst indexed)
                 (snd indexed) object)
            allGates
            (combine [[(0, 10); (0, 11)]; [(1, 12)]]%nat [[1; 0]; [0; 1]]).
Proof.
  apply (@FillTriggerGates_of_grouped_associations nat (list Z) nat nat
           (fun ptr => ptr) (fun ptr => ptr) _ recorded_gate
           [[1; 0]; [0; 1]] [[(0, 10); (0, 11)]; [(1, 12)]]%nat).
  - reflexivity.
  - repeat constructor.
  - repeat constructor; discriminate.
Defined.

Lemma FillTriggerGates_of_a_gate_without_association_witness :
  @TriggerDataUtils.FillTriggerGates _ _ _ _ (fun ptr : nat => ptr)
    (fun ptr : nat => ptr) _ recorded_gate [[1]; [5]; [0]]
    (List.concat ([[(0, 10)]] ++ [] :: [[(2, 12)]])%nat)
  = inl (TriggerDataUtils.NoWaveformForGate 1).
Proof.
  apply (@FillTriggerGates_of_a_gate_without_association nat (list Z) nat nat
           (fun ptr => ptr) (fun ptr => ptr) _ recorded_gate
           [[1]; [5]; [0]] [[(0, 10)]]%nat [[(2, 12)]]%nat).
  - reflexivity.
  - repeat constructor.
  - repeat constructor; discriminate.
Defined.

Lemma gates_are_read_back_witness :
  exists gateData gateToWaveforms allGates,
    snd (TriggerDataUtils.transformIntoOpticalTriggerGate_Assns []
           (fun _ => []) (fun iGate => iGate) every_waveform two_gates)
    = inr (gateData, gateToWaveforms) /\
    TriggerDataUtils.FillTriggerGates (fun ptr : nat => ptr)
      (fun ptr : nat => ptr) gateData gateToWaveforms
    = inr allGates /\
    Forall2 (fun object gate => TriggerGates.rebuilt gate object)
            allGates two_gates.
Proof.
  apply (@gates_are_read_back nat (list Z) nat nat [] (fun _ => [])
           (fun iGate => iGate) (fun ptr => ptr) (fun ptr => ptr)
           every_waveform _ recorded_gate two_gates).
  - reflexivity.
  - now intros w p [= <-].
  - repeat constructor; discriminate.
Defined.

Lemma gate_without_waveforms_is_not_read_back_witness :
  exists gateData gateToWaveforms,
    snd (TriggerDataUtils.transformIntoOpticalTriggerGate_Assns []
           (fun _ => []) (fun iGate => iGate) every_waveform
           (two_gates ++ gate_without_waveforms :: two_gates))
    = inr (gateData, gateToWaveforms) /\
    @TriggerDataUtils.FillTriggerGates _ _ _ _ (fun ptr : nat => ptr)
      (fun ptr : nat => ptr) _ recorded_gate gateData gateToWaveforms
    = inl (TriggerDataUtils.NoWaveformForGate (List.length two_gates)).
Proof.
  apply (@gate_without_waveforms_is_not_read_back nat (list Z) nat nat []
           (fun _ => []) (fun iGate => iGate) (fun ptr => ptr)
           (fun ptr => ptr) every_waveform _ recorded_gate
           two_gates two_gates gate_without_waveforms).
  - reflexivity.
  - repeat constructor; discriminate.
  - reflexivity.
  - repeat constructor.
Defined.
